(** * ASAP-Roadworthy backend: sessions, booking messages and job listing

    A shallow embedding of the Express handlers of the backend
    ([src/routes/auth.ts], [src/middleware/auth.ts], [src/lib/utils.ts],
    the messages router and the bookings router) over an explicit model of
    the relational store, of the request and of the outside world
    (ServiceM8, bcrypt, jsonwebtoken, the clock).

    Handlers run in a small state-and-exception monad: the store is
    threaded through, [Throw] is a JavaScript exception (it keeps the
    writes already made) and [Return] is an early [return res...]. *)

From Stdlib Require Import ZArith List String Ascii Bool Lia.
From Stdlib Require Import DecimalString Permutation Sorted.
Import ListNotations.

Set Warnings "-register-all".

Local Open Scope string_scope.
Local Open Scope list_scope.
Local Open Scope Z_scope.

(* ================================================================== *)
(** * JavaScript values *)
(* ================================================================== *)

(** The values [JSON.parse] produces.  Numbers are kept to the integers.
    [undefined] is the [None] of [option Json].  An object lists its own
    properties in the order [Object.keys] gives them. *)
Inductive Json : Type :=
| JNull
| JBool (b : bool)
| JNum (n : Z)
| JStr (s : string)
| JArr (items : list Json)
| JObj (props : list (string * Json)).

(** The result of an expression that may raise a [TypeError]. *)
Inductive Exn (A : Type) : Type :=
| Normal (a : A)
| Raised.
Arguments Normal {A} a.
Arguments Raised {A}.

(** [!v] is [negb (truthy v)]. *)
Definition truthy (v : option Json) : bool :=
  match v with
  | None => false
  | Some JNull => false
  | Some (JBool b) => b
  | Some (JNum n) => negb (n =? 0)
  | Some (JStr s) => negb (s =? "")%string
  | Some (JArr _) => true
  | Some (JObj _) => true
  end.

(** A string that may be [undefined], seen through a truthiness test:
    [Some s] when the value is truthy (a non-empty string), [None] when
    [!v] holds. *)
Definition nonempty (v : option string) : option string :=
  match v with
  | Some s => if (s =? "")%string then None else Some s
  | None => None
  end.

Definition is_digit (c : ascii) : bool :=
  let n := nat_of_ascii c in (48 <=? n)%nat && (n <=? 57)%nat.

Fixpoint all_digits (s : string) : bool :=
  match s with
  | EmptyString => true
  | String c s' => is_digit c && all_digits s'
  end.

(** Value of a string of decimal digits, most significant first. *)
Fixpoint digits_value (acc : N) (s : string) : N :=
  match s with
  | EmptyString => acc
  | String c s' => digits_value (acc * 10 + (N_of_ascii c - 48))%N s'
  end.

(** An array index is the canonical decimal form of an integer below
    2^32 - 1; such property keys are the ones an object enumerates first,
    in ascending order. *)
Definition array_index (k : string) : option N :=
  match k with
  | EmptyString => None
  | String c rest =>
      if all_digits k
         && (negb (Ascii.eqb c "0"%char) || (rest =? "")%string)
         && (String.length k <=? 10)%nat
         && (digits_value 0 k <? 4294967295)%N
      then Some (digits_value 0 k)
      else None
  end.

Fixpoint assoc {V : Type} (k : string) (l : list (string * V)) : option V :=
  match l with
  | [] => None
  | (k', v) :: l' => if (k' =? k)%string then Some v else assoc k l'
  end.

(** [v[k]] and [v.k] for a data property [k]: own properties of objects,
    the elements of arrays, the characters and [length] of strings.
    Reading a property of [undefined] or [null] raises.  The handlers read
    only ["0"], ["company_uuid"], ["job_description"], ["status"] and
    ["uuid"], none of which a built-in prototype defines. *)
Definition js_get (v : option Json) (k : string) : Exn (option Json) :=
  match v with
  | None => Raised
  | Some JNull => Raised
  | Some (JObj props) => Normal (assoc k props)
  | Some (JArr items) =>
      match array_index k with
      | Some i => Normal (nth_error items (N.to_nat i))
      | None =>
          if (k =? "length")%string then Normal (Some (JNum (Z.of_nat (List.length items))))
          else Normal None
      end
  | Some (JStr s) =>
      match array_index k with
      | Some i =>
          Normal (option_map (fun c => JStr (String c EmptyString))
                             (String.get (N.to_nat i) s))
      | None =>
          if (k =? "length")%string then Normal (Some (JNum (Z.of_nat (String.length s))))
          else Normal None
      end
  | Some (JBool _) => Normal None
  | Some (JNum _) => Normal None
  end.

Definition string_of_Z (n : Z) : string :=
  NilEmpty.string_of_int (Z.to_int n).

(** String conversion of a value inside a template literal. *)
Fixpoint js_to_string (j : Json) : string :=
  match j with
  | JNull => "null"
  | JBool true => "true"
  | JBool false => "false"
  | JNum n => string_of_Z n
  | JStr s => s
  | JArr items =>
      String.concat ","
        (List.map (fun x => match x with
                            | JNull => ""
                            | _ => js_to_string x
                            end) items)
  | JObj _ => "[object Object]"
  end.

Definition template_hole (v : option Json) : string :=
  match v with
  | None => "undefined"
  | Some j => js_to_string j
  end.

Fixpoint string_chars (i : nat) (s : string) : list (string * Json) :=
  match s with
  | EmptyString => []
  | String c s' =>
      (string_of_Z (Z.of_nat i), JStr (String c EmptyString))
        :: string_chars (S i) s'
  end.

Fixpoint array_items (i : nat) (l : list Json) : list (string * Json) :=
  match l with
  | [] => []
  | x :: l' => (string_of_Z (Z.of_nat i), x) :: array_items (S i) l'
  end.

(** Own enumerable properties copied by [{...v}]. *)
Definition js_spread (v : Json) : list (string * Json) :=
  match v with
  | JObj props => props
  | JArr items => array_items 0 items
  | JStr s => string_chars 0 s
  | JNull | JBool _ | JNum _ => []
  end.

(** Defining property [k] of an object literal after a spread: an
    existing key keeps its place and takes the new value, a new key goes
    last. *)
Fixpoint set_prop (k : string) (v : Json) (props : list (string * Json))
  : list (string * Json) :=
  match props with
  | [] => [(k, v)]
  | (k', v') :: rest =>
      if (k' =? k)%string then (k, v) :: rest else (k', v') :: set_prop k v rest
  end.

(* ================================================================== *)
(** * The relational store *)
(* ================================================================== *)

Module User.
(** Modelled from the spec: the [User] table, whose schema is not among
    the sources; the migrations only add the unique [sm8Uuid] column.
    "User: local identity - id, name, email, phone, password hash,
    optional linked external-account identifier (sm8Uuid)". *)
Record t : Type := mk {
  id : Z;
  name : string;
  email : string;
  phone : string;
  password : string;
  sm8Uuid : option string
}.
End User.

Module Session.
(** Modelled from the spec: the [Session] table, whose schema is not
    among the sources.  "Session: token (JWT string), owning user id,
    expiry timestamp"; [findUnique] by [token] makes [token] a unique
    column, and [include: { user }] makes [userId] a foreign key. *)
Record t : Type := mk {
  userId : Z;
  token : string;
  expiresAt : Z
}.
End Session.

Module BookingMessage.
(** The [BookingMessage] table of the migration. *)
Record t : Type := mk {
  id : Z;
  bookingUuid : string;
  bookingDescription : string;
  bookingStatus : string;
  userId : Z;
  message : string;
  createdAt : Z
}.
End BookingMessage.

(** The store: the three tables in row order, and the value of the
    [BookingMessage.id] sequence. *)
Record Db : Type := mkDb {
  users : list User.t;
  sessions : list Session.t;
  bookingMessages : list BookingMessage.t;
  bookingMessageSeq : Z
}.

(* ================================================================== *)
(** * The outside world and the configuration *)
(* ================================================================== *)

(** What [fetch] resolves to.  [fr_json = None] is a body that is not
    JSON, on which [response.json()] rejects. *)
Record FetchResponse : Type := mkFetchResponse {
  fr_ok : bool;
  fr_status : Z;
  fr_json : option Json
}.

(** [lib/constants.ts], the clock, and the libraries and services the
    handlers call.  [Date_now] is the time of the request in milliseconds,
    read by [Date.now()] and by the store for [CURRENT_TIMESTAMP].
    [fetch] takes the URL and the request headers and
    answers [None] when the promise rejects.  [jwt_sign] takes the
    payload, the secret, [expiresIn] and the clock; [jwt_verify] takes the
    token, the secret and the clock; both answer [None] where jsonwebtoken
    throws (for [jwt_verify]: malformed token, bad signature, expired).
    [bcrypt_compare] is [bcrypt.compare] on two strings.  The last two
    fields are the Prisma client's reading of a [where] value that is not
    a string: [prisma_where_user v] is the filter it builds from
    [{ OR: [{ email: v }, { phone: v }] }] and [prisma_where_token v] the
    one it builds from [{ token: v }], on the token of a row; both are
    [None] when the client refuses the value. *)
Record Env : Type := mkEnv {
  COOKIE_NAME : string;
  JWT_SECRET : string;
  NODE_ENV : string;
  SERVICE_M8_API_KEY : string;
  Date_now : Z;
  fetch : string -> list (string * string) -> option FetchResponse;
  bcrypt_compare : string -> string -> bool;
  jwt_sign : Json -> string -> string -> Z -> option string;
  jwt_verify : string -> string -> Z -> option Json;
  prisma_where_user : option Json -> option (User.t -> bool);
  prisma_where_token : Json -> option (string -> bool)
}.

(* ================================================================== *)
(** * Requests and responses *)
(* ================================================================== *)

(** An incoming request after [express.json()] and [cookieParser()].
    A cookie value is a string, or the JSON value that cookie-parser puts
    in its place when the cookie starts with ["j:"].  [req_body] is
    [req.body], untyped JSON, [None] when it is [undefined].  [user] is
    what [authMiddleware] attaches. *)
Record Request : Type := mkRequest {
  cookies : list (string * Json);
  authorization : option string;
  params_uuid : string;
  req_body : option Json;
  user : option User.t
}.

Definition with_user (req : Request) (u : User.t) : Request :=
  mkRequest (cookies req) (authorization req) (params_uuid req)
            (req_body req) (Some u).

Inductive Cookie : Type :=
| NoCookie
| SetCookie (name value : string) (httpOnly secure : bool)
            (sameSite : string) (maxAge : Z)
| ClearCookie (name : string) (httpOnly secure : bool) (sameSite : string).

(** The [user] object of the check-session answer. *)
Record PublicUser : Type := mkPublicUser {
  pu_id : Z;
  pu_name : string;
  pu_email : string;
  pu_phone : string
}.

(** [select: { id, name, email }] on the author of a message. *)
Record Author : Type := mkAuthor {
  au_id : Z;
  au_name : string;
  au_email : string
}.

(** One element of an array of the grouped listing. *)
Record BookingRef : Type := mkBookingRef {
  br_bookingUuid : string;
  br_bookingDescription : string
}.

Inductive Body : Type :=
| ErrorBody (error : string)
| MessageBody (message : string)
| SessionBody (message : string) (user : PublicUser)
| SavedBody (saved : BookingMessage.t)
| MessagesBody (messages : list (BookingMessage.t * Author))
| GroupedBody (grouped : list (string * list BookingRef))
| JobsBody (jobs : list Json).

Record Response : Type := mkResponse {
  status : Z;
  body : Body;
  cookie : Cookie
}.

(** [res.status(code).json({ error })] *)
Definition error_json (code : Z) (msg : string) : Response :=
  mkResponse code (ErrorBody msg) NoCookie.

Definition internal_server_error : Response :=
  error_json 500 "Internal server error".

(* ================================================================== *)
(** * The handler monad *)
(* ================================================================== *)

Inductive Flow (A : Type) : Type :=
| Next (a : A)
| Return (r : Response)
| Throw.
Arguments Next {A} a.
Arguments Return {A} r.
Arguments Throw {A}.

Definition Handler (A : Type) : Type := Db -> Flow A * Db.

Definition ret {A : Type} (a : A) : Handler A := fun db => (Next a, db).

Definition bind {A B : Type} (m : Handler A) (k : A -> Handler B) : Handler B :=
  fun db =>
    match m db with
    | (Next a, db') => k a db'
    | (Return r, db') => (Return r, db')
    | (Throw, db') => (Throw, db')
    end.

Definition reply {A : Type} (r : Response) : Handler A := fun db => (Return r, db).
Definition throw {A : Type} : Handler A := fun db => (Throw, db).

Declare Scope handler_scope.
Delimit Scope handler_scope with handler.
Notation "x <- m ;; k" := (bind m (fun x => k))
  (at level 61, m at next level, right associativity) : handler_scope.
Notation "m ;;; k" := (bind m (fun _ => k))
  (at level 61, right associativity) : handler_scope.
Local Open Scope handler_scope.

(** [if (c) return res...;] *)
Definition return_if (c : bool) (r : Response) : Handler unit :=
  if c then reply r else ret tt.

Definition lift_exn {A : Type} (e : Exn A) : Handler A :=
  match e with
  | Normal a => ret a
  | Raised => throw
  end.

Definition lift_option {A : Type} (o : option A) : Handler A :=
  match o with
  | Some a => ret a
  | None => throw
  end.

(** [try { ... } catch { res.status(..).json(..) }] around a handler body
    whose last statement sends the response. *)
Definition try_catch (m : Handler Response) (caught : Response)
  : Db -> Response * Db :=
  fun db =>
    match m db with
    | (Next r, db') => (r, db')
    | (Return r, db') => (r, db')
    | (Throw, db') => (caught, db')
    end.

(* ================================================================== *)
(** * Prisma queries *)
(* ================================================================== *)

(** [orderBy]: a stable insertion sort of the rows taken in table order. *)
Fixpoint insert_by {A : Type} (le : A -> A -> bool) (x : A) (l : list A) : list A :=
  match l with
  | [] => [x]
  | y :: l' => if le x y then x :: l else y :: insert_by le x l'
  end.

Definition sort_by {A : Type} (le : A -> A -> bool) (l : list A) : list A :=
  fold_right (insert_by le) [] l.

Definition createdAt_asc (a b : BookingMessage.t) : bool :=
  BookingMessage.createdAt a <=? BookingMessage.createdAt b.

Definition createdAt_desc (a b : BookingMessage.t) : bool :=
  BookingMessage.createdAt b <=? BookingMessage.createdAt a.

Definition has_user (uid : Z) (db : Db) : bool :=
  existsb (fun u => User.id u =? uid) (users db).

Definition find_user (uid : Z) (db : Db) : option User.t :=
  find (fun u => User.id u =? uid) (users db).

Definition same_uuid (a : option string) (uuid : string) : bool :=
  match a with
  | Some x => (x =? uuid)%string
  | None => false
  end.

Module prisma.

(** [user.findFirst({ where })] *)
Definition user_findFirst (where_ : User.t -> bool) : Handler (option User.t) :=
  fun db => (Next (find where_ (users db)), db).

(** [user.update({ where: { id }, data: { sm8Uuid } })]: rejects when no
    row has the id and when another row already holds the value of the
    unique column [sm8Uuid]. *)
Definition user_update_sm8Uuid (id : Z) (uuid : string) : Handler unit :=
  fun db =>
    if negb (has_user id db) then (Throw, db)
    else if existsb (fun u => negb (User.id u =? id)
                              && same_uuid (User.sm8Uuid u) uuid) (users db)
    then (Throw, db)
    else
      (Next tt,
       mkDb (map (fun u =>
                    if User.id u =? id
                    then User.mk (User.id u) (User.name u) (User.email u)
                                 (User.phone u) (User.password u) (Some uuid)
                    else u) (users db))
            (sessions db) (bookingMessages db) (bookingMessageSeq db)).

(** [session.create({ data })]: rejects on a token already stored
    (unique column) and on a user id that no row has (foreign key). *)
Definition session_create (data : Session.t) : Handler Session.t :=
  fun db =>
    if existsb (fun s => (Session.token s =? Session.token data)%string) (sessions db)
    then (Throw, db)
    else if negb (has_user (Session.userId data) db) then (Throw, db)
    else
      (Next data,
       mkDb (users db) (sessions db ++ [data])
            (bookingMessages db) (bookingMessageSeq db)).

(** The filter of [where: { token }]: equality for a string; for any
    other value what the client makes of it, a rejection when it refuses
    the value. *)
Definition where_token (env : Env) (token : option Json) : Handler (string -> bool) :=
  match token with
  | Some (JStr t) => ret (fun x => (x =? t)%string)
  | Some v => lift_option (prisma_where_token env v)
  | None => throw
  end.

(** [session.deleteMany({ where: { token } })] *)
Definition session_deleteMany (where_ : string -> bool) : Handler unit :=
  fun db =>
    (Next tt,
     mkDb (users db)
          (filter (fun s => negb (where_ (Session.token s))) (sessions db))
          (bookingMessages db) (bookingMessageSeq db)).

(** [session.findUnique({ where: { token }, include: { user: true } })]
    and the [findFirst] of the same shape: the row and its joined user. *)
Definition session_find (token : string)
  : Handler (option (Session.t * option User.t)) :=
  fun db =>
    (Next (option_map (fun s => (s, find_user (Session.userId s) db))
                      (find (fun s => (Session.token s =? token)%string)
                            (sessions db))),
     db).

(** [session.findUnique({ where: { token }, include: { user: true } })]:
    the unique key has to be a string, the client rejects anything else. *)
Definition session_findUnique (token : option Json)
  : Handler (option (Session.t * option User.t)) :=
  match token with
  | Some (JStr t) => session_find t
  | _ => throw
  end.

(** The filter of [where: { OR: [{ email: identifier }, { phone:
    identifier }] }]. *)
Definition where_user (env : Env) (where_string : string -> User.t -> bool)
           (identifier : option Json) : Handler (User.t -> bool) :=
  match identifier with
  | Some (JStr s) => ret (where_string s)
  | v => lift_option (prisma_where_user env v)
  end.

(** A value given for a [String] column: anything but a string fails
    the client's validation.  (On [update] the client also takes the
    operation object [{ set: s }]; ServiceM8 gives UUID fields as
    strings, and that form is left out.) *)
Definition string_column (v : option Json) : Handler string :=
  match v with
  | Some (JStr s) => ret s
  | _ => throw
  end.

(** [bookingMessage.create({ data })]: the row takes the next value of
    the id sequence and the current timestamp. *)
Definition bookingMessage_create (now : Z) (bookingUuid : string)
           (bookingDescription bookingStatus : option Json)
           (userId : Z) (message : option Json) : Handler BookingMessage.t :=
  (description <- string_column bookingDescription ;;
   status_ <- string_column bookingStatus ;;
   message <- string_column message ;;
   fun db =>
     if negb (has_user userId db) then (Throw, db)
     else
       let row := BookingMessage.mk (bookingMessageSeq db + 1) bookingUuid
                                    description status_ userId message now in
       (Next row,
        mkDb (users db) (sessions db) (bookingMessages db ++ [row])
             (bookingMessageSeq db + 1)))%handler.

(** [bookingMessage.findMany({ where, orderBy })] *)
Definition bookingMessage_findMany (where_ : BookingMessage.t -> bool)
           (orderBy : BookingMessage.t -> BookingMessage.t -> bool)
  : Handler (list BookingMessage.t) :=
  fun db => (Next (sort_by orderBy (filter where_ (bookingMessages db))), db).

(** [include: { user: { select: { id, name, email } } }] on one row. *)
Definition include_author (m : BookingMessage.t)
  : Handler (BookingMessage.t * Author) :=
  fun db =>
    match find_user (BookingMessage.userId m) db with
    | Some u => (Next (m, mkAuthor (User.id u) (User.name u) (User.email u)), db)
    | None => (Throw, db)
    end.

End prisma.

Fixpoint mapM {A B : Type} (f : A -> Handler B) (l : list A) : Handler (list B) :=
  match l with
  | [] => ret []
  | x :: l' => y <- f x ;; ys <- mapM f l' ;; ret (y :: ys)
  end.

(* ================================================================== *)
(** * [lib/utils.ts] and [middleware/auth.ts] *)
(* ================================================================== *)

(** [s.split(sep)] for a one-character separator. *)
Fixpoint split_on (sep : ascii) (s : string) : list string :=
  match s with
  | EmptyString => [EmptyString]
  | String c s' =>
      if Ascii.eqb c sep then EmptyString :: split_on sep s'
      else match split_on sep s' with
           | [] => [String c EmptyString]
           | w :: ws => String c w :: ws
           end
  end.

(** [extractToken]; [None] stands for both [null] and a missing second
    field. *)
Definition extractToken (req : Request) : option string :=
  match nonempty (authorization req) with
  | None => None
  | Some authHeader =>
      match split_on " "%char authHeader with
      | scheme :: rest =>
          if (scheme =? "Bearer")%string then hd_error rest else None
      | [] => None
      end
  end.

(** [a || b] for a string [a] that may be missing. *)
Definition or_else (a : option string) (b : option Json) : option Json :=
  match nonempty a with
  | Some s => Some (JStr s)
  | None => b
  end.

(** A value seen through a truthiness test: itself when truthy. *)
Definition when_truthy (v : option Json) : option Json :=
  if truthy v then v else None.

Definition api_headers (env : Env) : list (string * string) :=
  [("X-Api-Key", SERVICE_M8_API_KEY env); ("Accept", "application/json")].

(** [authMiddleware]: [Next] is the call of [next()] with [req.user] set.
    The warning it logs for a user without [sm8Uuid] changes nothing. *)
Definition authMiddleware (env : Env) (req : Request) : Handler Request :=
  fun db =>
    match
      (let token := assoc (COOKIE_NAME env) (cookies req) in
       match when_truthy token with
       | None => reply (error_json 401 "Unauthorized: No token provided")
       | Some _ =>
           session <- prisma.session_findUnique token ;;
           match session with
           | Some (_, Some u) => ret (with_user req u)
           | _ => reply (error_json 401 "Unauthorized: Invalid session")
           end
       end) db
    with
    | (Throw, db') => (Return internal_server_error, db')
    | other => other
    end.

(** [app.use(path, middleware, router)] and [router.get(path, middleware,
    handler)]: the handler runs when the middleware calls [next()]. *)
Definition guarded (mw : Request -> Handler Request)
           (h : Request -> Db -> Response * Db) (req : Request)
  : Db -> Response * Db :=
  fun db =>
    match mw req db with
    | (Next req', db') => h req' db'
    | (Return r, db') => (r, db')
    | (Throw, db') => (internal_server_error, db')
    end.

(* ================================================================== *)
(** * [routes/auth.ts] *)
(* ================================================================== *)

Definition invalid_credentials : Response :=
  error_json 404 "Invalid email or phone and password".

(** [where: { OR: [{ email: identifier }, { phone: identifier }] }] *)
Definition where_identifier (identifier : string) (u : User.t) : bool :=
  (User.email u =? identifier)%string || (User.phone u =? identifier)%string.

Definition contact_url (u : User.t) : string :=
  ("https://api.servicem8.com/api_1.0/companycontact.json?$filter=email eq "
     ++ User.email u)%string.

(** The body of the request gives [identifier] and [password] as these
    strings. *)
Definition credentials (req : Request) (identifier password : string) : Prop :=
  js_get (req_body req) "identifier" = Normal (Some (JStr identifier)) /\
  js_get (req_body req) "password" = Normal (Some (JStr password)).

(** [bcrypt.compare(password, hash)]: rejects when [password] is missing
    or is not a string. *)
Definition compare_password (env : Env) (password : option Json) (hash : string)
  : Handler bool :=
  match password with
  | Some (JStr p) => ret (bcrypt_compare env p hash)
  | _ => throw
  end.

(** [router.post("/login")] *)
Definition login (env : Env) (req : Request) : Db -> Response * Db :=
  try_catch
    (identifier <- lift_exn (js_get (req_body req) "identifier") ;;
     password <- lift_exn (js_get (req_body req) "password") ;;
     where_ <- prisma.where_user env where_identifier identifier ;;
     found <- prisma.user_findFirst where_ ;;
     match found with
     | None => reply invalid_credentials
     | Some user =>
         isPasswordValid <- compare_password env password (User.password user) ;;
         return_if (negb isPasswordValid) invalid_credentials ;;;
         let url := contact_url user in
         sm8Response <- lift_option (fetch env url (api_headers env)) ;;
         return_if (negb (fr_ok sm8Response))
                   (error_json 500 "Failed to verify user with ServiceM8") ;;;
         client <- lift_option (fr_json sm8Response) ;;
         first <- lift_exn (js_get (Some client) "0") ;;
         clientUuid <- lift_exn (js_get first "company_uuid") ;;
         return_if (negb (truthy clientUuid))
                   (error_json 404 "User not found in ServiceM8") ;;;
         uuid <- prisma.string_column clientUuid ;;
         prisma.user_update_sm8Uuid (User.id user) uuid ;;;
         token <- lift_option
                    (jwt_sign env (JObj [("sm8Uuid", JStr uuid)])
                              (JWT_SECRET env) "1h" (Date_now env)) ;;
         prisma.session_create
           (Session.mk (User.id user) token (Date_now env + 60 * 60 * 1000)) ;;;
         ret (mkResponse 200 (MessageBody "Logged in successful")
                (SetCookie (COOKIE_NAME env) token true
                           (NODE_ENV env =? "production")%string "lax"
                           (7 * 24 * 60 * 60 * 1000)))
     end)
    internal_server_error.

(** [router.post("/logout")] *)
Definition logout (env : Env) (req : Request) : Db -> Response * Db :=
  try_catch
    (let token := assoc (COOKIE_NAME env) (cookies req) in
     match when_truthy token with
     | Some _ =>
         where_ <- prisma.where_token env token ;;
         prisma.session_deleteMany where_
     | None => reply (error_json 400 "No active session found")
     end ;;;
     ret (mkResponse 200 (MessageBody "Logged out successfully")
            (ClearCookie (COOKIE_NAME env) true
                         (NODE_ENV env =? "production")%string "lax")))
    internal_server_error.

(** The token the check-session handler works on:
    [extractToken(req) || req.cookies[COOKIE_NAME]], when truthy. *)
Definition presented_token (env : Env) (req : Request) : option Json :=
  when_truthy (or_else (extractToken req) (assoc (COOKIE_NAME env) (cookies req))).

(** [router.get("/check-session")] *)
Definition check_session (env : Env) (req : Request) : Db -> Response * Db :=
  try_catch
    (match presented_token env req with
     | None => reply (error_json 401 "Unauthorized")
     | Some (JStr token) =>
         match jwt_verify env token (JWT_SECRET env) (Date_now env) with
         | None => reply (error_json 401 "Invalid token")
         | Some payload =>
             session <- prisma.session_find token ;;
             match session with
             | None => reply (error_json 401 "Session not found")
             | Some (_, joined) =>
                 u <- lift_option joined ;;
                 ret (mkResponse 200
                        (SessionBody "Session valid"
                           (mkPublicUser (User.id u) (User.name u)
                                         (User.email u) (User.phone u)))
                        NoCookie)
             end
         end
     | Some _ => reply (error_json 401 "Invalid token")
     end)
    internal_server_error.

(* ================================================================== *)
(** * [routes/messages.ts] *)
(* ================================================================== *)

Definition job_url (uuid : string) : string :=
  ("https://api.servicem8.com/api_1.0/job/" ++ uuid ++ ".json")%string.

Definition fetchJobDetails (env : Env) (uuid : string) : Handler Json :=
  response <- lift_option (fetch env (job_url uuid) (api_headers env)) ;;
  lift_option (fr_json response).

(** The handler of [router.post("/:uuid/send-message")] *)
Definition send_message_handler (env : Env) (req : Request) : Db -> Response * Db :=
  try_catch
    (match user req with
     | None => reply (error_json 401 "Unauthorized")
     | Some u =>
         let uuid := params_uuid req in
         message <- lift_exn (js_get (req_body req) "message") ;;
         match when_truthy message with
         | None => reply (error_json 400 "Message is required")
         | Some _ =>
             jobDetails <- fetchJobDetails env uuid ;;
             job_description <- lift_exn (js_get (Some jobDetails) "job_description") ;;
             status_ <- lift_exn (js_get (Some jobDetails) "status") ;;
             saved <- prisma.bookingMessage_create (Date_now env) uuid
                        job_description status_ (User.id u) message ;;
             ret (mkResponse 200 (SavedBody saved) NoCookie)
         end
     end)
    internal_server_error.

(** The handler of [router.get("/:uuid/get-messages")] *)
Definition get_messages_handler (env : Env) (req : Request) : Db -> Response * Db :=
  try_catch
    (let uuid := params_uuid req in
     rows <- prisma.bookingMessage_findMany
               (fun m => (BookingMessage.bookingUuid m =? uuid)%string)
               createdAt_asc ;;
     messages <- mapM prisma.include_author rows ;;
     ret (mkResponse 200 (MessagesBody messages) NoCookie))
    internal_server_error.

(** The property names every plain object inherits from
    [Object.prototype]; reading one of them on [{}] gives a function (or
    the prototype itself), which is truthy. *)
Definition Object_prototype_keys : list string :=
  ["constructor"; "__proto__"; "hasOwnProperty"; "isPrototypeOf";
   "propertyIsEnumerable"; "toLocaleString"; "toString"; "valueOf";
   "__defineGetter__"; "__defineSetter__"; "__lookupGetter__";
   "__lookupSetter__"].

Definition inherited (k : string) : bool :=
  existsb (String.eqb k) Object_prototype_keys.

(** Whether [grouped[k]] is truthy, for an object whose own values are
    non-empty arrays. *)
Definition js_has {V : Type} (k : string) (obj : list (string * V)) : bool :=
  match assoc k obj with
  | Some _ => true
  | None => inherited k
  end.

Definition index_le {V : Type} (a b : string * V) : bool :=
  match array_index (fst a), array_index (fst b) with
  | Some i, Some j => (i <=? j)%N
  | _, _ => true
  end.

Definition is_index {V : Type} (p : string * V) : bool :=
  match array_index (fst p) with
  | Some _ => true
  | None => false
  end.

(** The order in which [JSON.stringify] writes the properties of an
    object built by assignments in the order [obj]: array indices first,
    ascending, then the other keys as they were created. *)
Definition own_property_order {V : Type} (obj : list (string * V))
  : list (string * V) :=
  sort_by index_le (filter is_index obj)
    ++ filter (fun p => negb (is_index p)) obj.

(** One step of the [forEach] of the grouped listing. *)
Definition group_step (grouped : list (string * list BookingRef))
           (msg : BookingMessage.t) : list (string * list BookingRef) :=
  if negb (js_has (BookingMessage.bookingUuid msg) grouped)
  then grouped ++ [(BookingMessage.bookingUuid msg,
                    [mkBookingRef (BookingMessage.bookingUuid msg)
                                  (BookingMessage.bookingDescription msg)])]
  else grouped.

(** [where: { userId: req.user?.id }]: an [undefined] value drops the
    condition. *)
Definition where_userId (uid : option Z) (m : BookingMessage.t) : bool :=
  match uid with
  | Some i => BookingMessage.userId m =? i
  | None => true
  end.

(** The handler of [router.get("/")] of the messages router *)
Definition list_bookings_handler (env : Env) (req : Request) : Db -> Response * Db :=
  try_catch
    (messages <- prisma.bookingMessage_findMany
                   (where_userId (option_map User.id (user req)))
                   createdAt_desc ;;
     let grouped := fold_left group_step messages [] in
     ret (mkResponse 200 (GroupedBody (own_property_order grouped)) NoCookie))
    internal_server_error.

(* ================================================================== *)
(** * [routes/bookings.ts] *)
(* ================================================================== *)

Definition attachments_url (jobUuid : option Json) : string :=
  ("https://api.servicem8.com/api_1.0/attachment.json?$filter=related_object_uuid eq "
     ++ template_hole jobUuid)%string.

Definition fetchBookingAttachments (env : Env) (jobUuid : option Json) : Handler Json :=
  let url := attachments_url jobUuid in
  response <- lift_option (fetch env url (api_headers env)) ;;
  if negb (fr_ok response) then ret (JArr [])
  else lift_option (fr_json response).

Definition jobs_url (sm8Uuid : string) : string :=
  ("https://api.servicem8.com/api_1.0/job.json?$filter=company_uuid eq "
     ++ sm8Uuid)%string.

(** The callback of [jobs.map]: [{ ...job, attachments }]. *)
Definition with_attachments (env : Env) (job : Json) : Handler Json :=
  uuid <- lift_exn (js_get (Some job) "uuid") ;;
  attachments <- fetchBookingAttachments env uuid ;;
  ret (JObj (set_prop "attachments" attachments (js_spread job))).

(** The handler of [router.get("/")] of the bookings router.  The calls
    [Promise.all] waits for are taken in the order of the jobs. *)
Definition list_jobs_handler (env : Env) (req : Request) : Db -> Response * Db :=
  try_catch
    (match user req with
     | None => reply (error_json 401 "Unauthorized")
     | Some u =>
         match nonempty (User.sm8Uuid u) with
         | None => reply (error_json 400 "ServiceM8 UUID not found for user")
         | Some sm8Uuid =>
             let jobUrl := jobs_url sm8Uuid in
             sm8Response <- lift_option (fetch env jobUrl (api_headers env)) ;;
             return_if (negb (fr_ok sm8Response))
                       (error_json 500 "Failed to fetch jobs from ServiceM8") ;;;
             jobs <- lift_option (fr_json sm8Response) ;;
             match jobs with
             | JArr items =>
                 jobsWithAttachments <- mapM (with_attachments env) items ;;
                 ret (mkResponse 200 (JobsBody jobsWithAttachments) NoCookie)
             | _ => throw
             end
         end
     end)
    internal_server_error.

(* ================================================================== *)
(** * [server.ts]: the protected routes *)
(* ================================================================== *)

(** [app.use("/api/messages", authMiddleware, messageRouter)] over routes
    that name [authMiddleware] again: the middleware runs twice. *)
Definition protected (env : Env) (h : Env -> Request -> Db -> Response * Db)
  : Request -> Db -> Response * Db :=
  guarded (authMiddleware env) (guarded (authMiddleware env) (h env)).

Definition send_message (env : Env) := protected env send_message_handler.
Definition get_messages (env : Env) := protected env get_messages_handler.
Definition list_bookings (env : Env) := protected env list_bookings_handler.
Definition list_jobs (env : Env) := protected env list_jobs_handler.

(* ================================================================== *)
(** * Constraints of the schema *)
(* ================================================================== *)

(** Primary key of [User], unique [Session.token], and the two foreign
    keys to [User]. *)
Record db_wf (db : Db) : Prop := mk_db_wf {
  wf_user_ids : NoDup (map User.id (users db));
  wf_tokens : NoDup (map Session.token (sessions db));
  wf_session_user :
    forall s, In s (sessions db) -> has_user (Session.userId s) db = true;
  wf_message_user :
    forall m, In m (bookingMessages db) ->
              has_user (BookingMessage.userId m) db = true
}.

(* ================================================================== *)
(** * Booking identifiers and recency *)
(* ================================================================== *)

Definition is_hex (c : ascii) : bool :=
  let n := nat_of_ascii c in
  is_digit c
  || ((97 <=? n)%nat && (n <=? 102)%nat)
  || ((65 <=? n)%nat && (n <=? 70)%nat).

(** Reads [n] hexadecimal digits and gives back the rest. *)
Fixpoint hex_run (n : nat) (s : string) : option string :=
  match n with
  | O => Some s
  | S n' =>
      match s with
      | String c s' => if is_hex c then hex_run n' s' else None
      | EmptyString => None
      end
  end.

Definition dash (s : string) : option string :=
  match s with
  | String c s' => if Ascii.eqb c "-"%char then Some s' else None
  | EmptyString => None
  end.

Definition and_then {A B : Type} (o : option A) (f : A -> option B) : option B :=
  match o with
  | Some a => f a
  | None => None
  end.

(** The textual form of the UUIDs ServiceM8 gives its jobs: hexadecimal
    groups of 8, 4, 4, 4 and 12 digits separated by dashes. *)
Definition is_uuid (s : string) : bool :=
  match
    and_then (hex_run 8 s) (fun s1 =>
    and_then (dash s1) (fun s2 =>
    and_then (hex_run 4 s2) (fun s3 =>
    and_then (dash s3) (fun s4 =>
    and_then (hex_run 4 s4) (fun s5 =>
    and_then (dash s5) (fun s6 =>
    and_then (hex_run 4 s6) (fun s7 =>
    and_then (dash s7) (fun s8 =>
    hex_run 12 s8))))))))
  with
  | Some EmptyString => true
  | _ => false
  end.

(** The messages of user [uid] on booking [k]. *)
Definition on_booking (uid : Z) (k : string) (m : BookingMessage.t) : Prop :=
  BookingMessage.userId m = uid /\ BookingMessage.bookingUuid m = k.

(** Booking [k1] has activity at least as recent as any of booking [k2],
    among the messages [l] of user [uid]. *)
Definition no_less_recent (uid : Z) (l : list BookingMessage.t) (k1 k2 : string) : Prop :=
  exists m1, In m1 l /\ on_booking uid k1 m1 /\
             forall m2, In m2 l -> on_booking uid k2 m2 ->
                        BookingMessage.createdAt m2 <= BookingMessage.createdAt m1.

(* ================================================================== *)
(** * [routes/bookings.ts]: the attachment proxy *)
(* ================================================================== *)

(** What [fetch] resolves to, as the attachment proxy reads it:
    [response.headers.get("content-type")] and the body, which is [None]
    for a response without one ([response.body] is [null]). *)
Record FileResponse : Type := mkFileResponse {
  file_ok : bool;
  file_status : Z;
  file_content_type : option string;
  file_body : option string
}.

(** [await response.text()] *)
Definition file_text (r : FileResponse) : string :=
  match file_body r with
  | Some s => s
  | None => ""
  end.

(** The three ways the attachment route answers: a JSON body, a text sent
    with a status, or a stream piped under a [Content-Type]. *)
Inductive AttachmentReply : Type :=
| ReplyJson (r : Response)
| ReplySend (code : Z) (text : string)
| ReplyPipe (contentType : string) (content : string).

Definition file_url (uuid : string) : string :=
  ("https://api.servicem8.com/api_1.0/attachment/" ++ uuid ++ ".file")%string.

(** The handler of [router.get("/view-attachment/:uuid")].  [fetch_file]
    is [fetch] with its answer read as a [FileResponse]; [None] is a
    rejected promise.  [Readable.fromWeb] raises on a [null] body. *)
Definition view_attachment_handler (env : Env)
           (fetch_file : string -> list (string * string) -> option FileResponse)
           (req : Request) : Db -> AttachmentReply * Db :=
  fun db =>
    let caught := ReplyJson (error_json 500 "Failed to fetch attachment") in
    let uuid := params_uuid req in
    let fileUrl := file_url uuid in
    match fetch_file fileUrl [("X-Api-Key", SERVICE_M8_API_KEY env)] with
    | None => (caught, db)
    | Some response =>
        if negb (file_ok response)
        then (ReplySend (file_status response) (file_text response), db)
        else
          let contentType :=
            match nonempty (file_content_type response) with
            | Some c => c
            | None => "application/octet-stream"
            end in
          match file_body response with
          | None => (caught, db)
          | Some content => (ReplyPipe contentType content, db)
          end
    end.

Definition guarded_attachment (mw : Request -> Handler Request)
           (h : Request -> Db -> AttachmentReply * Db) (req : Request)
  : Db -> AttachmentReply * Db :=
  fun db =>
    match mw req db with
    | (Next req', db') => h req' db'
    | (Return r, db') => (ReplyJson r, db')
    | (Throw, db') => (ReplyJson internal_server_error, db')
    end.

(** [app.use("/api/bookings", authMiddleware, bookingsRouter)] over the
    route, which names [authMiddleware] again. *)
Definition view_attachment (env : Env)
           (fetch_file : string -> list (string * string) -> option FileResponse)
  : Request -> Db -> AttachmentReply * Db :=
  guarded_attachment (authMiddleware env)
    (guarded_attachment (authMiddleware env) (view_attachment_handler env fetch_file)).

(* ================================================================== *)
(** * Further constraints and notions *)
(* ================================================================== *)

(** The unique index [User_sm8Uuid_key] of the migration: no two users
    share a linked ServiceM8 company. *)
Definition sm8Uuid_unique (db : Db) : Prop :=
  forall u v x,
    In u (users db) -> In v (users db) ->
    User.sm8Uuid u = Some x -> User.sm8Uuid v = Some x ->
    User.id u = User.id v.

(** [BookingMessage.id] is a primary key fed by the sequence: the ids
    are distinct and none is beyond the sequence. *)
Definition message_ids_wf (db : Db) : Prop :=
  NoDup (map BookingMessage.id (bookingMessages db)) /\
  Forall (fun m => BookingMessage.id m <= bookingMessageSeq db) (bookingMessages db).

(** The columns of a user that login never writes. *)
Definition user_identity (u : User.t) : Z * string * string * string * string :=
  (User.id u, User.name u, User.email u, User.phone u, User.password u).

(** No character of [s] is [sep]. *)
Fixpoint no_char (sep : ascii) (s : string) : bool :=
  match s with
  | EmptyString => true
  | String c s' => negb (Ascii.eqb c sep) && no_char sep s'
  end.


(* ================================================================== *)
(** * A sample deployment *)
(* ================================================================== *)

Module Sample.

Definition alice : User.t :=
  User.mk 1 "Alice" "alice@example.com" "0400000001" "hash:wonderland" None.

Definition bob : User.t :=
  User.mk 2 "Bob" "bob@example.com" "0400000002" "hash:builder"
          (Some "7b1d4c3e-52a8-4f0b-9c6d-0e1f2a3b4c5d").

Definition alice_company : string := "0a9b8c7d-6e5f-4a3b-8c2d-1e0f9a8b7c6d".

Definition job1 : string := "11111111-2222-4333-8444-555555555555".
Definition job2 : string := "aaaaaaaa-bbbb-4ccc-8ddd-eeeeeeeeeeee".

(** A stand-in for bcrypt: the stored hash is ["hash:"] and the password. *)
Definition compare (password hash : string) : bool :=
  (hash =? "hash:" ++ password)%string.

(** A stand-in for jsonwebtoken: a token names its payload and the second
    it was issued at; the verifier accepts tokens that start with
    ["jwt:"]. *)
Definition sign (payload : Json) (secret expiresIn : string) (now : Z)
  : option string :=
  Some ("jwt:" ++ template_hole (match js_get (Some payload) "sm8Uuid" with
                                 | Normal v => v
                                 | Raised => None
                                 end)
               ++ ":" ++ string_of_Z (now / 1000))%string.

Definition verify (token secret : string) (now : Z) : option Json :=
  if String.prefix "jwt:" token then Some (JObj []) else None.

(** ServiceM8 as a table of answers by URL. *)
Definition serve (table : list (string * FetchResponse))
           (url : string) (headers : list (string * string))
  : option FetchResponse :=
  assoc url table.

Definition json_ok (j : Json) : FetchResponse := mkFetchResponse true 200 (Some j).

(** A stand-in for the Prisma client on values that are not strings: an
    absent value and the empty object make a filter without conditions,
    which selects every row; every other value is refused. *)
Definition where_user (v : option Json) : option (User.t -> bool) :=
  match v with
  | None | Some (JObj []) => Some (fun _ => true)
  | Some _ => None
  end.

Definition where_token (v : Json) : option (string -> bool) :=
  match v with
  | JObj [] => Some (fun _ => true)
  | _ => None
  end.

Definition env_with (table : list (string * FetchResponse)) : Env :=
  mkEnv "sid" "s3cret" "production" "api-key" 1700000000000
        (serve table) compare sign verify where_user where_token.

Definition db0 : Db := mkDb [alice; bob] [] [] 0.

Definition login_request (identifier password : string) : Request :=
  mkRequest [] None ""
            (Some (JObj [("identifier", JStr identifier); ("password", JStr password)]))
            None.

Definition cookie_request (token : string) : Request :=
  mkRequest [("sid", JStr token)] None "" (Some (JObj [])) None.

(** A request whose session cookie started with ["j:"]: cookie-parser
    has put the JSON value in its place. *)
Definition json_cookie_request (v : Json) : Request :=
  mkRequest [("sid", v)] None "" (Some (JObj [])) None.

(** A store with one session row whose token the verifier rejects and
    whose [expiresAt] is long past. *)
Definition stale_session : Session.t := Session.mk 2 "not-a-jwt" 1000.

Definition stale_db : Db := mkDb [alice; bob] [stale_session] [] 0.

(** ServiceM8 knows a contact for Alice's email. *)
Definition contacts : list (string * FetchResponse) :=
  [(contact_url alice,
    json_ok (JArr [JObj [("uuid", JStr "5c0ffee0-0000-4000-8000-000000000001");
                         ("company_uuid", JStr alice_company)]]))].

(** ServiceM8 answers Alice's contact query with an empty list. *)
Definition no_contacts : list (string * FetchResponse) :=
  [(contact_url alice, json_ok (JArr []))].

Definition alice_login : Request := login_request "alice@example.com" "wonderland".

(** A login request that names an identifier and no password. *)
Definition identifier_only (identifier : string) : Request :=
  mkRequest [] None "" (Some (JObj [("identifier", JStr identifier)])) None.

(** A store in which Alice holds one live session. *)
Definition alice_session : Session.t :=
  Session.mk 1 "jwt:0a9b8c7d-6e5f-4a3b-8c2d-1e0f9a8b7c6d:1700000000" 1700003600000.

Definition live_db : Db := mkDb [alice; bob] [alice_session; stale_session] [] 0.

Definition bearer_request (token : string) : Request :=
  mkRequest [] (Some ("Bearer " ++ token)%string) "" (Some (JObj [])) None.

(** A message thread: Alice wrote on [job1] at times 10 and 30 and on
    [job2] at time 20; Bob wrote on [job1] at time 25. *)
Definition m1 : BookingMessage.t :=
  BookingMessage.mk 1 job1 "Brake check" "Quote" 1 "When can you come?" 10.
Definition m2 : BookingMessage.t :=
  BookingMessage.mk 2 job2 "Roadworthy" "Work Order" 1 "Is the car ready?" 20.
Definition m3 : BookingMessage.t :=
  BookingMessage.mk 3 job1 "Brake check" "Work Order" 2 "Tomorrow at 9." 25.
Definition m4 : BookingMessage.t :=
  BookingMessage.mk 4 job1 "Brake check (paid)" "Completed" 1 "Thanks!" 30.

Definition thread_db : Db :=
  mkDb [alice; bob] [alice_session; stale_session] [m4; m2; m3; m1] 4.


(** Requests of Alice's live session. *)
Definition alice_request (uuid : string) (message : option string) : Request :=
  mkRequest [("sid", JStr (Session.token alice_session))] None uuid
            (Some (JObj match message with
                        | Some m => [("message", JStr m)]
                        | None => []
                        end))
            None.

(** ServiceM8 knows [job1] and answers the query for [job2] with a 404
    and an error object. *)
Definition jobs_table : list (string * FetchResponse) :=
  [(job_url job1,
    json_ok (JObj [("uuid", JStr job1);
                   ("job_description", JStr "Brake check");
                   ("status", JStr "Quote")]));
   (job_url job2,
    mkFetchResponse false 404
      (Some (JObj [("errorCode", JNum 404); ("message", JStr "Object not found")])))].

(** Bob, linked to a ServiceM8 company, holds a session; the company has
    two jobs; the attachment query of [job1] fails upstream with a 500,
    that of [job2] gives one attachment. *)
Definition bob_session : Session.t := Session.mk 2 "jwt:bob" 1700003600000.

Definition jobs_db : Db := mkDb [alice; bob] [bob_session] [] 0.

Definition bob_request : Request :=
  mkRequest [("sid", JStr "jwt:bob")] None "" (Some (JObj [])) None.

Definition job1_json : Json :=
  JObj [("uuid", JStr job1); ("status", JStr "Quote")].
Definition job2_json : Json :=
  JObj [("uuid", JStr job2); ("status", JStr "Work Order")].
Definition photo : Json :=
  JObj [("uuid", JStr "99999999-0000-4000-8000-000000000009");
        ("attachment_name", JStr "photo.jpg")].

Definition listing_table : list (string * FetchResponse) :=
  [(jobs_url "7b1d4c3e-52a8-4f0b-9c6d-0e1f2a3b4c5d",
    json_ok (JArr [job1_json; job2_json]));
   (attachments_url (Some (JStr job1)),
    mkFetchResponse false 500 None);
   (attachments_url (Some (JStr job2)),
    json_ok (JArr [photo]))].

(** A message filed under a booking identifier that is a property name
    of [Object.prototype]. *)
Definition odd_db : Db :=
  mkDb [alice; bob] [alice_session]
       [m1; BookingMessage.mk 2 "constructor" "Odd" "Quote" 1 "?" 20] 2.


(** A request that carries Alice's live cookie and, in the header, a
    bearer token that the verifier rejects. *)
Definition mixed_request : Request :=
  mkRequest [("sid", JStr (Session.token alice_session))] (Some "Bearer forged") ""
            (Some (JObj [])) None.


(** A second user of Bob's company who has not logged in yet, and the
    ServiceM8 contact that links her to it. *)
Definition carol : User.t :=
  User.mk 3 "Carol" "carol@example.com" "0400000003" "hash:garage" None.

Definition crowded_db : Db := mkDb [alice; bob; carol] [] [] 0.

Definition carol_contacts : list (string * FetchResponse) :=
  [(contact_url carol,
    json_ok (JArr [JObj [("company_uuid", JStr "7b1d4c3e-52a8-4f0b-9c6d-0e1f2a3b4c5d")]]))].

Definition carol_login : Request := login_request "0400000003" "garage".

(** ServiceM8 is down for the contact query of Alice. *)
Definition contacts_down : list (string * FetchResponse) :=
  [(contact_url alice, mkFetchResponse false 503 None)].


(** ServiceM8 as a table of files by URL. *)
Definition serve_files (table : list (string * FileResponse))
           (url : string) (headers : list (string * string))
  : option FileResponse :=
  assoc url table.

Definition photo_uuid : string := "99999999-0000-4000-8000-000000000009".
Definition scan_uuid : string := "88888888-0000-4000-8000-000000000008".
Definition lost_uuid : string := "77777777-0000-4000-8000-000000000007".

(** A photo served as JPEG, a scan served without a content type, and an
    attachment that ServiceM8 does not know. *)
Definition files : list (string * FileResponse) :=
  [(file_url photo_uuid, mkFileResponse true 200 (Some "image/jpeg") (Some "JFIF..."));
   (file_url scan_uuid, mkFileResponse true 200 None (Some "%PDF..."));
   (file_url lost_uuid, mkFileResponse false 404 (Some "text/plain") (Some "Not found"))].


(** The job query of Bob's company fails upstream; and a table in which
    it succeeds but the attachment query of [job2] is never answered. *)
Definition jobs_down : list (string * FetchResponse) :=
  [(jobs_url "7b1d4c3e-52a8-4f0b-9c6d-0e1f2a3b4c5d", mkFetchResponse false 502 None)].

Definition attachments_unreachable : list (string * FetchResponse) :=
  [(jobs_url "7b1d4c3e-52a8-4f0b-9c6d-0e1f2a3b4c5d",
    json_ok (JArr [job1_json; job2_json]));
   (attachments_url (Some (JStr job1)), json_ok (JArr [photo]))].


(** ServiceM8 answers Alice's contact query with two records, of which
    only the second names a company. *)
Definition contacts_second_only : list (string * FetchResponse) :=
  [(contact_url alice,
    json_ok (JArr [JObj [("uuid", JStr "5c0ffee0-0000-4000-8000-000000000001")];
                   JObj [("company_uuid", JStr alice_company)]]))].

End Sample.

(* ================================================================== *)
(** * Properties *)
(* ================================================================== *)

(** ** Lookups in the tables *)

Lemma nonempty_Some (v : option string) (s : string) :
  nonempty v = Some s <-> v = Some s /\ s <> "".
Proof.
  unfold nonempty. destruct v as [x|]; [|split; [discriminate | intros [H _]; discriminate]].
  destruct (String.eqb_spec x "") as [->|Hne]; split.
  - discriminate.
  - intros [H Hs]. injection H as <-. now elim Hs.
  - intros H. injection H as <-. now split.
  - intros [H _]. injection H as <-. reflexivity.
Qed.

Lemma find_user_spec (uid : Z) (db : Db) (u : User.t) :
  find_user uid db = Some u -> In u (users db) /\ User.id u = uid.
Proof.
  unfold find_user. intros H. apply find_some in H as [Hin Heq].
  split; [assumption | now apply Z.eqb_eq].
Qed.

Lemma has_user_find (uid : Z) (db : Db) :
  has_user uid db = true <-> exists u, find_user uid db = Some u.
Proof.
  unfold has_user, find_user. split.
  - intros H. apply existsb_exists in H as [u [Hin Heq]].
    destruct (find (fun u0 => User.id u0 =? uid) (users db)) as [v|] eqn:E.
    + now exists v.
    + apply (find_none _ _ E) in Hin. congruence.
  - intros [u H]. apply find_some in H as [Hin Heq].
    apply existsb_exists. now exists u.
Qed.

(** With unique tokens, the row a lookup by token finds is the row that
    holds the token. *)
Lemma find_token_unique (l : list Session.t) (s : Session.t) :
  NoDup (map Session.token l) -> In s l ->
  find (fun x => (Session.token x =? Session.token s)%string) l = Some s.
Proof.
  induction l as [|x l IH]; simpl; intros Hnd Hin; [contradiction|].
  inversion Hnd as [|? ? Hnotin Hnd']; subst.
  destruct Hin as [->|Hin].
  - now rewrite String.eqb_refl.
  - destruct (String.eqb_spec (Session.token x) (Session.token s)) as [E|_].
    + exfalso. apply Hnotin. rewrite E. now apply in_map.
    + now apply IH.
Qed.

(** ** The auth middleware *)

Lemma with_user_idem (req : Request) (u : User.t) :
  with_user (with_user req u) u = with_user req u.
Proof. reflexivity. Qed.

Lemma when_truthy_string (t : string) :
  t <> "" -> when_truthy (Some (JStr t)) = Some (JStr t).
Proof.
  intros H. unfold when_truthy. simpl.
  apply String.eqb_neq in H. now rewrite H.
Qed.

Lemma when_truthy_Some (v : option Json) (j : Json) :
  when_truthy v = Some j -> v = Some j /\ truthy v = true.
Proof.
  unfold when_truthy. destruct (truthy v) eqn:E; [|discriminate].
  intros ->. now split.
Qed.

Lemma when_truthy_JStr (v : option Json) (t : string) :
  when_truthy v = Some (JStr t) <-> v = Some (JStr t) /\ t <> "".
Proof.
  split.
  - intros H. apply when_truthy_Some in H as [-> H]. split; [reflexivity|].
    simpl in H. apply negb_true_iff in H. now apply String.eqb_neq.
  - intros [-> H]. now apply when_truthy_string.
Qed.

(** The outcomes of the middleware: no token, a token that is not a
    string, a string token without a session (or whose session has lost
    its user), and a string token with a session. *)
Lemma authMiddleware_cases (env : Env) (req : Request) (db : Db) :
  (when_truthy (assoc (COOKIE_NAME env) (cookies req)) = None /\
   authMiddleware env req db
   = (Return (error_json 401 "Unauthorized: No token provided"), db)) \/
  (exists v,
      when_truthy (assoc (COOKIE_NAME env) (cookies req)) = Some v /\
      (forall t, v <> JStr t) /\
      authMiddleware env req db = (Return internal_server_error, db)) \/
  (exists t,
      assoc (COOKIE_NAME env) (cookies req) = Some (JStr t) /\ t <> "" /\
      ((authMiddleware env req db
        = (Return (error_json 401 "Unauthorized: Invalid session"), db) /\
        (find (fun x => (Session.token x =? t)%string) (sessions db) = None \/
         exists s, find (fun x => (Session.token x =? t)%string) (sessions db) = Some s
                   /\ find_user (Session.userId s) db = None)) \/
       (exists s u,
           find (fun x => (Session.token x =? t)%string) (sessions db) = Some s /\
           find_user (Session.userId s) db = Some u /\
           authMiddleware env req db = (Next (with_user req u), db)))).
Proof.
  unfold authMiddleware.
  destruct (when_truthy (assoc (COOKIE_NAME env) (cookies req))) as [v|] eqn:Hv;
    [|now left].
  right. apply when_truthy_Some in Hv as [Hc Hv].
  rewrite Hc in *.
  assert (Hw : when_truthy (Some v) = Some v) by (unfold when_truthy; now rewrite Hv).
  destruct v as [| | |t| |];
    try (left; eexists; split; [first [exact Hw | reflexivity]|];
         split; [discriminate | reflexivity]).
  right. exists t. split; [reflexivity|].
  split; [simpl in Hv; apply negb_true_iff in Hv; now apply String.eqb_neq|].
  unfold prisma.session_findUnique, prisma.session_find, bind, ret, reply.
  destruct (find _ (sessions db)) as [x|]; simpl; [|left; auto].
  destruct (find_user (Session.userId x) db) as [u|] eqn:Hu.
  - right. now exists x, u.
  - left. split; [reflexivity|]. right. now exists x.
Qed.

Lemma authMiddleware_accepts (env : Env) (req : Request) (db : Db)
      (token : string) (s : Session.t) (u : User.t) :
  when_truthy (assoc (COOKIE_NAME env) (cookies req)) = Some (JStr token) ->
  find (fun x => (Session.token x =? token)%string) (sessions db) = Some s ->
  find_user (Session.userId s) db = Some u ->
  authMiddleware env req db = (Next (with_user req u), db).
Proof.
  intros Htok Hs Hu.
  pose proof (proj1 (when_truthy_JStr _ _) Htok) as [Hc _].
  unfold authMiddleware, bind, prisma.session_findUnique, prisma.session_find, ret.
  rewrite Htok, Hc, Hs. simpl. now rewrite Hu.
Qed.

Lemma authMiddleware_again (env : Env) (req : Request) (db : Db) (u : User.t) :
  authMiddleware env req db = (Next (with_user req u), db) ->
  authMiddleware env (with_user req u) db = (Next (with_user req u), db).
Proof.
  intros H.
  destruct (authMiddleware_cases env req db)
    as [[_ E]|[(v & _ & _ & E)|(t & Hc & Hne & [[E _]|(s & u' & Hs & Hu & E)])]];
    rewrite E in H; try discriminate.
  injection H as H.
  assert (u' = u) as -> by (unfold with_user in H; congruence).
  refine (authMiddleware_accepts env (with_user req u) db t s u _ Hs Hu).
  apply when_truthy_JStr. now split.
Qed.

Lemma protected_runs (env : Env) (h : Env -> Request -> Db -> Response * Db)
      (req : Request) (db : Db) (u : User.t) :
  authMiddleware env req db = (Next (with_user req u), db) ->
  protected env h req db = h env (with_user req u) db.
Proof.
  intros H. unfold protected, guarded. rewrite H.
  now rewrite (authMiddleware_again _ _ _ _ H).
Qed.

(** C3. The auth middleware lets through every request whose cookie
    carries a token that a persisted session row holds: whatever the
    verifier of the token's signature and expiry would say, whatever the
    clock reads and whatever [expiresAt] the row has, the middleware calls
    [next()] with the row's user attached and every protected route runs
    its handler. *)
Theorem authMiddleware_session_row_suffices
        (env : Env) (req : Request) (db : Db) (token : string) (s : Session.t) :
  db_wf db ->
  assoc (COOKIE_NAME env) (cookies req) = Some (JStr token) ->
  token <> "" ->
  In s (sessions db) ->
  Session.token s = token ->
  exists u,
    In u (users db) /\ User.id u = Session.userId s /\
    authMiddleware env req db = (Next (with_user req u), db) /\
    forall h, protected env h req db = h env (with_user req u) db.
Proof.
  intros Hwf Hcookie Hne Hin Htok.
  destruct (proj1 (has_user_find _ _) (wf_session_user db Hwf s Hin)) as [u Hu].
  exists u. destruct (find_user_spec _ _ _ Hu) as [Hiu Hid].
  assert (Hmw : authMiddleware env req db = (Next (with_user req u), db)).
  { apply authMiddleware_accepts with (token := token) (s := s).
    - apply when_truthy_JStr. now split.
    - subst token. apply find_token_unique; [apply Hwf | assumption].
    - assumption. }
  repeat split; try assumption.
  intros h. now apply protected_runs.
Qed.

Ltac solve_db_wf :=
  constructor; simpl;
  [ repeat constructor; simpl; intuition discriminate
  | repeat constructor; simpl; intuition discriminate
  | intros ? H; repeat (destruct H as [<-|H]; [reflexivity|]); contradiction
  | intros ? H; repeat (destruct H as [<-|H]; [reflexivity|]); contradiction ].

Lemma stale_db_wf : db_wf Sample.stale_db.
Proof. solve_db_wf. Qed.

Lemma authMiddleware_session_row_suffices_witness :
  jwt_verify (Sample.env_with []) "not-a-jwt" "s3cret" 1700000000000 = None /\
  Session.expiresAt Sample.stale_session < Date_now (Sample.env_with []) /\
  exists u,
    In u (users Sample.stale_db) /\
    User.id u = 2 /\
    authMiddleware (Sample.env_with []) (Sample.cookie_request "not-a-jwt")
                   Sample.stale_db
    = (Next (with_user (Sample.cookie_request "not-a-jwt") u), Sample.stale_db) /\
    forall h, protected (Sample.env_with []) h (Sample.cookie_request "not-a-jwt")
                        Sample.stale_db
              = h (Sample.env_with []) (with_user (Sample.cookie_request "not-a-jwt") u)
                  Sample.stale_db.
Proof.
  split; [reflexivity|]. split; [reflexivity|].
  apply (authMiddleware_session_row_suffices
           (Sample.env_with []) (Sample.cookie_request "not-a-jwt")
           Sample.stale_db "not-a-jwt" Sample.stale_session).
  - exact stale_db_wf.
  - reflexivity.
  - discriminate.
  - simpl. now left.
  - reflexivity.
Defined.

(** ** Login *)

#[local] Arguments js_get : simpl never.
#[local] Arguments nonempty : simpl never.

Ltac run_handler :=
  unfold try_catch, bind, ret, reply, throw, return_if, lift_option, lift_exn,
    prisma.user_findFirst, prisma.session_find, prisma.session_deleteMany.

Lemma where_user_flow (env : Env) (f : string -> User.t -> bool)
      (identifier : option Json) (db : Db) :
  (exists w, prisma.where_user env f identifier db = (Next w, db)) \/
  prisma.where_user env f identifier db = (Throw, db).
Proof.
  unfold prisma.where_user, lift_option, ret, throw.
  destruct identifier as [[| | |s| |]|];
    try (destruct (prisma_where_user env _); [left; now eexists | now right]).
  left. now eexists.
Qed.

Lemma compare_password_flow (env : Env) (password : option Json) (hash : string)
      (db : Db) :
  (exists p, password = Some (JStr p) /\
             compare_password env password hash db
             = (Next (bcrypt_compare env p hash), db)) \/
  ((forall p, password <> Some (JStr p)) /\
   compare_password env password hash db = (Throw, db)).
Proof.
  unfold compare_password.
  destruct password as [[| | |p| |]|];
    try (right; split; [discriminate | reflexivity]).
  left. now exists p.
Qed.

(** Entering the handler with an identifier and a password that are
    strings and a user that the identifier finds. *)
Ltac login_enter Hcred Hu :=
  unfold login; run_handler;
  let Hi := fresh "Hi" in
  let Hp := fresh "Hp" in
  destruct Hcred as [Hi Hp];
  rewrite Hi; simpl; rewrite Hp; simpl; rewrite Hu; simpl.

(** A login whose password, a string, does not match the stored hash is
    answered exactly as a login whose identifier, a string, matches no
    user: the same 404, the same error body, no cookie, and the store is
    left as it was. *)
Lemma login_bad_credentials_404
      (env1 env2 : Env) (req1 req2 : Request) (db1 db2 : Db) (u : User.t)
      (identifier1 identifier2 password2 : string) (password1 : option Json) :
  js_get (req_body req1) "identifier" = Normal (Some (JStr identifier1)) ->
  js_get (req_body req1) "password" = Normal password1 ->
  find (where_identifier identifier1) (users db1) = None ->
  credentials req2 identifier2 password2 ->
  find (where_identifier identifier2) (users db2) = Some u ->
  bcrypt_compare env2 password2 (User.password u) = false ->
  fst (login env1 req1 db1) = fst (login env2 req2 db2) /\
  fst (login env2 req2 db2)
  = mkResponse 404 (ErrorBody "Invalid email or phone and password") NoCookie /\
  snd (login env1 req1 db1) = db1 /\
  snd (login env2 req2 db2) = db2.
Proof.
  intros Hi1 Hp1 Hnone Hcred Hsome Hpw.
  assert (E2 : login env2 req2 db2 = (invalid_credentials, db2)).
  { login_enter Hcred Hsome. now rewrite Hpw. }
  assert (E1 : login env1 req1 db1 = (invalid_credentials, db1)).
  { unfold login. run_handler. rewrite Hi1; simpl. rewrite Hp1; simpl.
    now rewrite Hnone. }
  rewrite E1, E2. repeat split; reflexivity.
Qed.

(** C4 (where the two answers differ). With a password that is missing
    from the body or is not a string, [bcrypt.compare] rejects, but only
    once a user has been found: the login is answered 500 when the
    identifier matches a user and 404 when it matches none, so the caller
    can tell the two apart. *)
Theorem login_password_not_string_reveals_user
        (env : Env) (req1 req2 : Request) (db : Db) (u : User.t)
        (identifier1 identifier2 : string) (password : option Json) :
  js_get (req_body req1) "identifier" = Normal (Some (JStr identifier1)) ->
  js_get (req_body req2) "identifier" = Normal (Some (JStr identifier2)) ->
  js_get (req_body req1) "password" = Normal password ->
  js_get (req_body req2) "password" = Normal password ->
  (forall p, password <> Some (JStr p)) ->
  find (where_identifier identifier1) (users db) = None ->
  find (where_identifier identifier2) (users db) = Some u ->
  login env req1 db
  = (mkResponse 404 (ErrorBody "Invalid email or phone and password") NoCookie, db) /\
  login env req2 db
  = (mkResponse 500 (ErrorBody "Internal server error") NoCookie, db).
Proof.
  intros Hi1 Hi2 Hp1 Hp2 Hns Hnone Hsome. split.
  - unfold login. run_handler. rewrite Hi1; simpl. rewrite Hp1; simpl.
    now rewrite Hnone.
  - unfold login. run_handler. rewrite Hi2; simpl. rewrite Hp2; simpl.
    rewrite Hsome; simpl.
    destruct (compare_password_flow env password (User.password u) db)
      as [(p & Hp & _)|[_ E]]; [now elim (Hns p)|].
    now rewrite E.
Qed.

Lemma login_password_not_string_reveals_user_witness :
  login (Sample.env_with []) (Sample.identifier_only "nobody@example.com") Sample.db0
  = (mkResponse 404 (ErrorBody "Invalid email or phone and password") NoCookie,
     Sample.db0) /\
  login (Sample.env_with []) (Sample.identifier_only "alice@example.com") Sample.db0
  = (mkResponse 500 (ErrorBody "Internal server error") NoCookie, Sample.db0).
Proof.
  apply (login_password_not_string_reveals_user
           (Sample.env_with [])
           (Sample.identifier_only "nobody@example.com")
           (Sample.identifier_only "alice@example.com")
           Sample.db0 Sample.alice "nobody@example.com" "alice@example.com" None);
    first [reflexivity | discriminate].
Defined.

(** When the first contact record carries no usable [company_uuid], the
    login is refused with 404 and nothing is written. *)
Lemma login_contact_without_company_404
      (env : Env) (req : Request) (db : Db) (u : User.t)
      (identifier password : string)
      (resp : FetchResponse) (client : Json) (first clientUuid : option Json) :
  credentials req identifier password ->
  find (where_identifier identifier) (users db) = Some u ->
  bcrypt_compare env password (User.password u) = true ->
  fetch env (contact_url u) (api_headers env) = Some resp ->
  fr_ok resp = true ->
  fr_json resp = Some client ->
  js_get (Some client) "0" = Normal first ->
  js_get first "company_uuid" = Normal clientUuid ->
  truthy clientUuid = false ->
  login env req db = (error_json 404 "User not found in ServiceM8", db).
Proof.
  intros Hcred Hu Hpw Hf Hok Hj H0 Hc Ht.
  login_enter Hcred Hu.
  rewrite Hpw; simpl. rewrite Hf; simpl. rewrite Hok; simpl.
  rewrite Hj; simpl. rewrite H0; simpl. rewrite Hc; simpl. rewrite Ht.
  reflexivity.
Qed.

(** C1 (what the handler does on an empty contact list). With matching
    credentials and a successful contact query whose result is the empty
    list, reading [company_uuid] of the missing first record raises, the
    [catch] answers 500 "Internal server error", and no session row is
    created. *)
Theorem login_empty_contact_list_500
        (env : Env) (req : Request) (db : Db) (u : User.t)
        (identifier password : string) (resp : FetchResponse) :
  credentials req identifier password ->
  find (where_identifier identifier) (users db) = Some u ->
  bcrypt_compare env password (User.password u) = true ->
  fetch env (contact_url u) (api_headers env) = Some resp ->
  fr_ok resp = true ->
  fr_json resp = Some (JArr []) ->
  login env req db = (mkResponse 500 (ErrorBody "Internal server error") NoCookie, db).
Proof.
  intros Hcred Hu Hpw Hf Hok Hj.
  login_enter Hcred Hu.
  rewrite Hpw; simpl. rewrite Hf; simpl. rewrite Hok; simpl.
  rewrite Hj. reflexivity.
Qed.

Lemma login_empty_contact_list_500_witness :
  login (Sample.env_with Sample.no_contacts) Sample.alice_login Sample.db0
  = (mkResponse 500 (ErrorBody "Internal server error") NoCookie, Sample.db0).
Proof.
  apply (login_empty_contact_list_500
           (Sample.env_with Sample.no_contacts) Sample.alice_login Sample.db0
           Sample.alice "alice@example.com" "wonderland"
           (Sample.json_ok (JArr []))); first [reflexivity | now split].
Defined.

Lemma user_update_sm8Uuid_flow (id : Z) (uuid : string) (db db' : Db) (f : Flow unit) :
  prisma.user_update_sm8Uuid id uuid db = (f, db') ->
  f = Next tt \/ (f = Throw /\ db' = db).
Proof.
  unfold prisma.user_update_sm8Uuid.
  repeat match goal with |- context [if ?c then _ else _] => destruct c end;
    intros E; injection E as <- <-; auto.
Qed.

Lemma session_create_flow (data : Session.t) (db db' : Db) (f : Flow Session.t) :
  prisma.session_create data db = (f, db') ->
  (f = Next data /\ sessions db' = sessions db ++ [data] /\ users db' = users db
   /\ bookingMessages db' = bookingMessages db
   /\ bookingMessageSeq db' = bookingMessageSeq db
   /\ has_user (Session.userId data) db = true
   /\ forall s, In s (sessions db) -> Session.token s <> Session.token data)
  \/ (f = Throw /\ db' = db).
Proof.
  unfold prisma.session_create.
  destruct (existsb _ (sessions db)) eqn:Hdup;
    [intros E; injection E as <- <-; auto|].
  destruct (has_user _ db) eqn:Hfk; simpl;
    [|intros E; injection E as <- <-; auto].
  intros E; injection E as <- <-. left. simpl. repeat split; try reflexivity.
  intros s Hin Heq.
  assert (existsb (fun s0 => (Session.token s0 =? Session.token data)%string)
                  (sessions db) = true).
  { apply existsb_exists. exists s. split; [assumption|]. now apply String.eqb_eq. }
  congruence.
Qed.

(** The shape of every login that is answered 200. *)
Lemma login_success_inv (env : Env) (req : Request) (db db' : Db) (r : Response) :
  login env req db = (r, db') ->
  status r = 200 ->
  exists u uuid token db1,
    (exists identifier w,
        js_get (req_body req) "identifier" = Normal identifier /\
        prisma.where_user env where_identifier identifier db = (Next w, db) /\
        find w (users db) = Some u) /\
    (exists resp client first,
        fetch env (contact_url u) (api_headers env) = Some resp /\
        fr_ok resp = true /\
        fr_json resp = Some client /\
        js_get (Some client) "0" = Normal first /\
        js_get first "company_uuid" = Normal (Some (JStr uuid))) /\
    prisma.user_update_sm8Uuid (User.id u) uuid db = (Next tt, db1) /\
    jwt_sign env (JObj [("sm8Uuid", JStr uuid)]) (JWT_SECRET env) "1h" (Date_now env)
    = Some token /\
    prisma.session_create
      (Session.mk (User.id u) token (Date_now env + 60 * 60 * 1000)) db1
    = (Next (Session.mk (User.id u) token (Date_now env + 60 * 60 * 1000)), db') /\
    r = mkResponse 200 (MessageBody "Logged in successful")
          (SetCookie (COOKIE_NAME env) token true
                     (NODE_ENV env =? "production")%string "lax"
                     (7 * 24 * 60 * 60 * 1000)).
Proof.
  unfold login. run_handler.
  destruct (js_get (req_body req) "identifier") as [identifier|] eqn:Hid; simpl;
    [|intros E; injection E as <- <-; discriminate].
  destruct (js_get (req_body req) "password") as [password|]; simpl;
    [|intros E; injection E as <- <-; discriminate].
  destruct (where_user_flow env where_identifier identifier db) as [[w Hw]|Hw];
    rewrite Hw; simpl; [|intros E; injection E as <- <-; discriminate].
  destruct (find w (users db)) as [u|] eqn:Hfind; simpl;
    [|intros E; injection E as <- <-; discriminate].
  destruct (compare_password_flow env password (User.password u) db)
    as [(p & _ & Hb)|[_ Hb]]; rewrite Hb; simpl;
    [|intros E; injection E as <- <-; discriminate].
  destruct (bcrypt_compare env _ _); simpl;
    [|intros E; injection E as <- <-; discriminate].
  destruct (fetch env _ _) as [resp|] eqn:Hf; simpl;
    [|intros E; injection E as <- <-; discriminate].
  destruct (fr_ok resp) eqn:Hok; simpl;
    [|intros E; injection E as <- <-; discriminate].
  destruct (fr_json resp) as [client|] eqn:Hj; simpl;
    [|intros E; injection E as <- <-; discriminate].
  destruct (js_get (Some client) "0") as [first|] eqn:H0; simpl;
    [|intros E; injection E as <- <-; discriminate].
  destruct (js_get first "company_uuid") as [clientUuid|] eqn:Hc; simpl;
    [|intros E; injection E as <- <-; discriminate].
  destruct (truthy clientUuid); simpl;
    [|intros E; injection E as <- <-; discriminate].
  destruct clientUuid as [[| | |uuid| |]|]; simpl;
    try (intros E; injection E as <- <-; discriminate).
  destruct (prisma.user_update_sm8Uuid (User.id u) uuid db) as [f1 db1] eqn:Hupd.
  destruct (user_update_sm8Uuid_flow _ _ _ _ _ Hupd) as [->|[-> ->]];
    [|intros E; injection E as <- <-; discriminate].
  destruct (jwt_sign env _ _ _ _) as [token|] eqn:Hsign; simpl;
    [|intros E; injection E as <- <-; discriminate].
  destruct (prisma.session_create _ db1) as [f2 db2] eqn:Hcreate.
  destruct (session_create_flow _ _ _ _ Hcreate) as [[-> _]|[-> ->]];
    [|intros E; injection E as <- <-; discriminate].
  intros E _. injection E as <- <-.
  exists u, uuid, token, db1.
  split; [exists identifier, w; now repeat split|].
  split; [exists resp, client, first; now repeat split|].
  repeat split; first [exact Hupd | exact Hcreate | exact Hsign | reflexivity].
Qed.

(** C2 (as the handler has it). Every login answered 200 signs the token
    with [expiresIn: "1h"], appends one session row whose [expiresAt] is
    the current time plus one hour (3 600 000 ms), and sets the cookie to
    that token with a [maxAge] of seven days (604 800 000 ms): the 7-day
    lifetime is the cookie's only, the session row shares the hour of the
    token. *)
Theorem login_success_lifetimes (env : Env) (req : Request) (db : Db) :
  status (fst (login env req db)) = 200 ->
  exists u uuid token,
    In u (users db) /\
    jwt_sign env (JObj [("sm8Uuid", JStr uuid)]) (JWT_SECRET env) "1h" (Date_now env)
    = Some token /\
    sessions (snd (login env req db))
    = sessions db ++ [Session.mk (User.id u) token (Date_now env + 3600000)] /\
    cookie (fst (login env req db))
    = SetCookie (COOKIE_NAME env) token true
                (NODE_ENV env =? "production")%string "lax" 604800000.
Proof.
  intros H200.
  destruct (login env req db) as [r db'] eqn:Hlogin. simpl in *.
  destruct (login_success_inv env req db db' r Hlogin H200)
    as (u & uuid & token & db1 & (identifier & w & _ & _ & Hfind) & _
        & Hupd & Hsign & Hcreate & ->).
  exists u, uuid, token.
  split; [apply find_some in Hfind; tauto|].
  split; [exact Hsign|].
  split; [|reflexivity].
  destruct (session_create_flow _ _ _ _ Hcreate) as [(_ & Hs & _)|[Habs _]];
    [|discriminate].
  rewrite Hs. f_equal.
  revert Hupd. unfold prisma.user_update_sm8Uuid.
  repeat match goal with |- context [if ?c then _ else _] => destruct c end;
    intros E; try discriminate. now injection E as <-.
Qed.

Lemma login_success_lifetimes_witness :
  exists u uuid token,
    In u (users Sample.db0) /\
    jwt_sign (Sample.env_with Sample.contacts) (JObj [("sm8Uuid", JStr uuid)])
             "s3cret" "1h" 1700000000000
    = Some token /\
    sessions (snd (login (Sample.env_with Sample.contacts) Sample.alice_login Sample.db0))
    = [Session.mk (User.id u) token (1700000000000 + 3600000)] /\
    cookie (fst (login (Sample.env_with Sample.contacts) Sample.alice_login Sample.db0))
    = SetCookie "sid" token true true "lax" 604800000.
Proof.
  apply (login_success_lifetimes (Sample.env_with Sample.contacts)
                                 Sample.alice_login Sample.db0).
  reflexivity.
Defined.

(** C2 (the claim as worded fails). A login that succeeds at time
    1 700 000 000 000 stores a session row that expires at
    1 700 003 600 000, one hour later, and no row that expires seven days
    after the login. *)
Lemma login_session_row_not_seven_days :
  status (fst (login (Sample.env_with Sample.contacts) Sample.alice_login Sample.db0))
  = 200 /\
  sessions (snd (login (Sample.env_with Sample.contacts) Sample.alice_login Sample.db0))
  = [Session.mk 1 "jwt:0a9b8c7d-6e5f-4a3b-8c2d-1e0f9a8b7c6d:1700000000" 1700003600000] /\
  ~ (exists s,
        In s (sessions (snd (login (Sample.env_with Sample.contacts)
                                   Sample.alice_login Sample.db0))) /\
        Session.expiresAt s
        = Date_now (Sample.env_with Sample.contacts) + 7 * 24 * 60 * 60 * 1000).
Proof.
  split; [reflexivity|]. split; [reflexivity|].
  intros [s [Hin Hexp]].
  vm_compute in Hin. destruct Hin as [<-|[]].
  vm_compute in Hexp. discriminate.
Qed.

(** ** Logout *)

Lemma logout_no_cookie (env : Env) (req : Request) (db : Db) :
  truthy (assoc (COOKIE_NAME env) (cookies req)) = false ->
  logout env req db
  = (mkResponse 400 (ErrorBody "No active session found") NoCookie, db).
Proof.
  intros H. unfold logout, when_truthy. run_handler. now rewrite H.
Qed.

Lemma logout_sessions (env : Env) (req : Request) (db : Db) (token : string) :
  assoc (COOKIE_NAME env) (cookies req) = Some (JStr token) ->
  token <> "" ->
  logout env req db
  = (mkResponse 200 (MessageBody "Logged out successfully")
                (ClearCookie (COOKIE_NAME env) true
                             (NODE_ENV env =? "production")%string "lax"),
     mkDb (users db)
          (filter (fun s => negb (Session.token s =? token)%string) (sessions db))
          (bookingMessages db) (bookingMessageSeq db)).
Proof.
  intros Hc Hne. unfold logout. run_handler.
  rewrite Hc, (when_truthy_string _ Hne). reflexivity.
Qed.

(** Logout on a cookie whose value is a string: without one (absent, or
    empty) it answers 400 and leaves the store as it was; with one it
    answers 200, clears the cookie, and the session table keeps exactly
    the rows whose token differs from the cookie's value. *)
Lemma logout_string_cookie (env : Env) (req : Request) (db : Db) :
  (truthy (assoc (COOKIE_NAME env) (cookies req)) = false ->
   logout env req db
   = (mkResponse 400 (ErrorBody "No active session found") NoCookie, db)) /\
  (forall token,
      assoc (COOKIE_NAME env) (cookies req) = Some (JStr token) ->
      token <> "" ->
      fst (logout env req db)
      = mkResponse 200 (MessageBody "Logged out successfully")
                   (ClearCookie (COOKIE_NAME env) true
                                (NODE_ENV env =? "production")%string "lax") /\
      (forall s, In s (sessions (snd (logout env req db)))
                 <-> In s (sessions db) /\ Session.token s <> token) /\
      users (snd (logout env req db)) = users db /\
      bookingMessages (snd (logout env req db)) = bookingMessages db).
Proof.
  split; [apply logout_no_cookie|].
  intros token Hc Hne. rewrite (logout_sessions _ _ _ _ Hc Hne). simpl.
  split; [reflexivity|]. split; [|split; reflexivity].
  intros s. rewrite filter_In, negb_true_iff, String.eqb_neq. tauto.
Qed.

(** C9 (where the handler leaves the claim). A cookie that starts with
    ["j:"] reaches the handler as the JSON value cookie-parser read from
    it, and the handler passes it to [deleteMany] as it is.  When the
    client refuses the value, the logout is answered 500 and no row is
    deleted; when it takes the value as a filter, the rows deleted are
    the ones the filter selects, whatever their tokens: with the empty
    object, which selects every row, one request empties the session
    table. *)
Theorem logout_cookie_not_string (env : Env) (req : Request) (db : Db) (v : Json) :
  assoc (COOKIE_NAME env) (cookies req) = Some v ->
  truthy (Some v) = true ->
  (forall t, v <> JStr t) ->
  (prisma_where_token env v = None ->
   logout env req db
   = (mkResponse 500 (ErrorBody "Internal server error") NoCookie, db)) /\
  (forall where_,
      prisma_where_token env v = Some where_ ->
      fst (logout env req db)
      = mkResponse 200 (MessageBody "Logged out successfully")
                   (ClearCookie (COOKIE_NAME env) true
                                (NODE_ENV env =? "production")%string "lax") /\
      (forall s, In s (sessions (snd (logout env req db)))
                 <-> In s (sessions db) /\ where_ (Session.token s) = false) /\
      ((forall t, where_ t = true) -> sessions (snd (logout env req db)) = [])).
Proof.
  intros Hc Ht Hns.
  assert (Hw : when_truthy (Some v) = Some v) by (unfold when_truthy; now rewrite Ht).
  assert (Hwhere : prisma.where_token env (Some v)
                   = lift_option (prisma_where_token env v)).
  { destruct v; try reflexivity. now elim (Hns s). }
  unfold logout. rewrite Hc, Hw, Hwhere. run_handler.
  split.
  - intros E. now rewrite E.
  - intros where_ E. rewrite E. simpl.
    split; [reflexivity|]. split.
    + intros s. rewrite filter_In, negb_true_iff. tauto.
    + intros Hall. induction (sessions db) as [|s l IH]; [reflexivity|].
      simpl. now rewrite Hall.
Qed.

Lemma logout_cookie_not_string_witness :
  logout (Sample.env_with []) (Sample.json_cookie_request (JNum 5)) Sample.live_db
  = (mkResponse 500 (ErrorBody "Internal server error") NoCookie, Sample.live_db) /\
  fst (logout (Sample.env_with []) (Sample.json_cookie_request (JObj [])) Sample.live_db)
  = mkResponse 200 (MessageBody "Logged out successfully")
               (ClearCookie "sid" true true "lax") /\
  sessions (snd (logout (Sample.env_with []) (Sample.json_cookie_request (JObj []))
                        Sample.live_db))
  = [].
Proof.
  split.
  - apply (proj1 (logout_cookie_not_string
                    (Sample.env_with []) (Sample.json_cookie_request (JNum 5))
                    Sample.live_db (JNum 5)
                    eq_refl eq_refl ltac:(discriminate))).
    reflexivity.
  - destruct (proj2 (logout_cookie_not_string
                       (Sample.env_with []) (Sample.json_cookie_request (JObj []))
                       Sample.live_db (JObj [])
                       eq_refl eq_refl ltac:(discriminate))
                    (fun _ => true) eq_refl) as (H1 & _ & H3).
    split; [exact H1 | now apply H3].
Defined.

(** ** Session check *)

Lemma extractToken_bearer (req : Request) (t : string) :
  authorization req = Some ("Bearer " ++ t)%string ->
  extractToken req = hd_error (split_on " "%char t).
Proof.
  intros H. unfold extractToken. rewrite H. reflexivity.
Qed.

(** C5. The session check works on the bearer token of the
    [Authorization] header or, when that gives none, on the cookie.  It
    answers 401 when there is no token, when the verification of the
    token (signature, expiry) fails, and when no session row holds the
    token; otherwise it answers 200 with the [id], [name], [email] and
    [phone] of the user of the session.  A cookie value that is not a
    string fails the verification.  The store is never changed. *)
Theorem check_session_spec (env : Env) (req : Request) (db : Db) :
  db_wf db ->
  snd (check_session env req db) = db /\
  presented_token env req
  = match nonempty (extractToken req) with
    | Some t => Some (JStr t)
    | None => when_truthy (assoc (COOKIE_NAME env) (cookies req))
    end /\
  (presented_token env req = None ->
   fst (check_session env req db) = error_json 401 "Unauthorized") /\
  (forall v,
      presented_token env req = Some v ->
      (forall t, v <> JStr t) ->
      fst (check_session env req db) = error_json 401 "Invalid token") /\
  (forall token,
      presented_token env req = Some (JStr token) ->
      jwt_verify env token (JWT_SECRET env) (Date_now env) = None ->
      fst (check_session env req db) = error_json 401 "Invalid token") /\
  (forall token payload,
      presented_token env req = Some (JStr token) ->
      jwt_verify env token (JWT_SECRET env) (Date_now env) = Some payload ->
      (forall s, In s (sessions db) -> Session.token s <> token) ->
      fst (check_session env req db) = error_json 401 "Session not found") /\
  (forall token payload s,
      presented_token env req = Some (JStr token) ->
      jwt_verify env token (JWT_SECRET env) (Date_now env) = Some payload ->
      In s (sessions db) ->
      Session.token s = token ->
      exists u,
        In u (users db) /\ User.id u = Session.userId s /\
        fst (check_session env req db)
        = mkResponse 200
            (SessionBody "Session valid"
               (mkPublicUser (User.id u) (User.name u) (User.email u) (User.phone u)))
            NoCookie).
Proof.
  intros Hwf. split; [|split; [|split; [|split; [|split; [|split]]]]].
  - unfold check_session. run_handler.
    destruct (presented_token env req) as [[| | |token| |]|]; try reflexivity.
    destruct (jwt_verify env token _ _); [|reflexivity].
    destruct (find _ (sessions db)) as [s|]; simpl; [|reflexivity].
    destruct (find_user _ db); reflexivity.
  - unfold presented_token, or_else.
    destruct (nonempty (extractToken req)) as [t|] eqn:E; [|reflexivity].
    apply nonempty_Some in E as [_ E]. now apply when_truthy_string.
  - intros H. unfold check_session. run_handler. now rewrite H.
  - intros v H Hns. unfold check_session. run_handler. rewrite H.
    destruct v; try reflexivity. now elim (Hns s).
  - intros token H Hv. unfold check_session. run_handler. now rewrite H, Hv.
  - intros token payload H Hv Hno. unfold check_session. run_handler.
    rewrite H, Hv.
    destruct (find _ (sessions db)) as [s|] eqn:Hf; simpl; [|reflexivity].
    apply find_some in Hf as [Hin Heq]. apply String.eqb_eq in Heq.
    now elim (Hno s Hin).
  - intros token payload s H Hv Hin Htok.
    destruct (proj1 (has_user_find _ _) (wf_session_user db Hwf s Hin)) as [u Hu].
    exists u. destruct (find_user_spec _ _ _ Hu) as [Hiu Hid].
    split; [assumption|]. split; [assumption|].
    unfold check_session. run_handler. rewrite H, Hv. subst token.
    rewrite (find_token_unique _ s (wf_tokens db Hwf) Hin). simpl.
    now rewrite Hu.
Qed.

Lemma live_db_wf : db_wf Sample.live_db.
Proof. solve_db_wf. Qed.

Lemma check_session_spec_witness :
  exists u,
    In u (users Sample.live_db) /\ User.id u = 1 /\
    fst (check_session (Sample.env_with [])
                       (Sample.bearer_request (Session.token Sample.alice_session))
                       Sample.live_db)
    = mkResponse 200
        (SessionBody "Session valid"
           (mkPublicUser (User.id u) (User.name u) (User.email u) (User.phone u)))
        NoCookie.
Proof.
  destruct (check_session_spec
              (Sample.env_with [])
              (Sample.bearer_request (Session.token Sample.alice_session))
              Sample.live_db live_db_wf) as (_ & _ & _ & _ & _ & _ & H).
  apply (H (Session.token Sample.alice_session) (JObj []) Sample.alice_session).
  - reflexivity.
  - reflexivity.
  - simpl. now left.
  - reflexivity.
Defined.

(** ** Ordering of query results *)

Section Sorting.

Context {A : Type} (le : A -> A -> bool).
Hypothesis le_total : forall a b, le a b = true \/ le b a = true.
Hypothesis le_trans : forall a b c, le a b = true -> le b c = true -> le a c = true.

Lemma insert_by_perm (x : A) (l : list A) : Permutation (insert_by le x l) (x :: l).
Proof.
  induction l as [|y l IH]; simpl; [reflexivity|].
  destruct (le x y); [reflexivity|].
  rewrite IH. apply perm_swap.
Qed.

Lemma sort_by_perm (l : list A) : Permutation (sort_by le l) l.
Proof.
  induction l as [|x l IH]; simpl; [reflexivity|].
  unfold sort_by in *. simpl. rewrite insert_by_perm. now constructor.
Qed.

Lemma insert_by_sorted (x : A) (l : list A) :
  StronglySorted (fun a b => le a b = true) l ->
  StronglySorted (fun a b => le a b = true) (insert_by le x l).
Proof.
  induction l as [|y l IH]; simpl; intros Hs.
  - constructor; constructor.
  - inversion Hs as [|? ? Hs' Hall]; subst.
    destruct (le x y) eqn:Hxy.
    + constructor; [assumption|]. constructor; [assumption|].
      eapply Forall_impl; [|exact Hall]. intros z Hyz. now apply le_trans with y.
    + constructor; [now apply IH|].
      assert (Hyx : le y x = true) by (destruct (le_total x y); congruence).
      eapply Permutation_Forall; [symmetry; apply insert_by_perm|].
      now constructor.
Qed.

Lemma sort_by_sorted (l : list A) :
  StronglySorted (fun a b => le a b = true) (sort_by le l).
Proof.
  induction l as [|x l IH]; [constructor|].
  unfold sort_by in *. simpl. now apply insert_by_sorted.
Qed.

End Sorting.

Lemma StronglySorted_weaken {A : Type} (R S : A -> A -> Prop) (l : list A) :
  (forall a b, R a b -> S a b) -> StronglySorted R l -> StronglySorted S l.
Proof.
  intros HRS. induction 1 as [|x l Hs IH Hall]; constructor; [assumption|].
  eapply Forall_impl; [|exact Hall]. intros b. apply HRS.
Qed.

Lemma sort_asc_sorted (l : list BookingMessage.t) :
  StronglySorted
    (fun a b => BookingMessage.createdAt a <= BookingMessage.createdAt b)
    (sort_by createdAt_asc l).
Proof.
  eapply StronglySorted_weaken; [|apply (sort_by_sorted createdAt_asc)].
  - intros a b H. now apply Z.leb_le.
  - intros a b. unfold createdAt_asc. rewrite !Z.leb_le. lia.
  - intros a b c. unfold createdAt_asc. rewrite !Z.leb_le. lia.
Qed.

Lemma sort_desc_sorted (l : list BookingMessage.t) :
  StronglySorted
    (fun a b => BookingMessage.createdAt b <= BookingMessage.createdAt a)
    (sort_by createdAt_desc l).
Proof.
  eapply StronglySorted_weaken; [|apply (sort_by_sorted createdAt_desc)].
  - intros a b H. now apply Z.leb_le.
  - intros a b. unfold createdAt_desc. rewrite !Z.leb_le. lia.
  - intros a b c. unfold createdAt_desc. rewrite !Z.leb_le. lia.
Qed.

(** ** Messages *)


Lemma mapM_include_author (db : Db) (rows : list BookingMessage.t) :
  Forall (fun m => has_user (BookingMessage.userId m) db = true) rows ->
  exists out,
    mapM prisma.include_author rows db = (Next out, db) /\
    map fst out = rows /\
    Forall (fun row =>
              exists v, In v (users db) /\
                        User.id v = BookingMessage.userId (fst row) /\
                        snd row = mkAuthor (User.id v) (User.name v) (User.email v))
           out.
Proof.
  induction 1 as [|m rows Hm _ IH].
  - exists []. repeat split. constructor.
  - destruct IH as (out & Hrun & Hfst & Hall).
    destruct (proj1 (has_user_find _ _) Hm) as [v Hv].
    exists ((m, mkAuthor (User.id v) (User.name v) (User.email v)) :: out).
    split; [|split].
    + simpl. unfold bind at 1. unfold prisma.include_author at 1. rewrite Hv.
      unfold bind. rewrite Hrun. reflexivity.
    + simpl. now rewrite Hfst.
    + constructor; [|assumption].
      exists v. destruct (find_user_spec _ _ _ Hv). simpl. auto.
Qed.

(** C8. For an authenticated caller, listing the messages of a booking
    answers 200 with the persisted messages whose [bookingUuid] is the
    requested one, all of them and no other, in ascending order of
    [createdAt], each paired with the [id], [name] and [email] of its
    author; the store is not changed. *)
Theorem get_messages_spec (env : Env) (req : Request) (db : Db) (u : User.t) :
  db_wf db ->
  authMiddleware env req db = (Next (with_user req u), db) ->
  exists rows,
    get_messages env req db = (mkResponse 200 (MessagesBody rows) NoCookie, db) /\
    Permutation (map fst rows)
                (filter (fun m => (BookingMessage.bookingUuid m =? params_uuid req)%string)
                        (bookingMessages db)) /\
    StronglySorted
      (fun a b => BookingMessage.createdAt a <= BookingMessage.createdAt b)
      (map fst rows) /\
    Forall (fun row =>
              exists v, In v (users db) /\
                        User.id v = BookingMessage.userId (fst row) /\
                        snd row = mkAuthor (User.id v) (User.name v) (User.email v))
           rows.
Proof.
  intros Hwf Hauth.
  set (found := sort_by createdAt_asc
                  (filter (fun m => (BookingMessage.bookingUuid m =? params_uuid req)%string)
                          (bookingMessages db))).
  assert (Hperm : Permutation found
                    (filter (fun m => (BookingMessage.bookingUuid m =? params_uuid req)%string)
                            (bookingMessages db)))
    by apply sort_by_perm.
  assert (Hfk : Forall (fun m => has_user (BookingMessage.userId m) db = true) found).
  { apply Forall_forall. intros m Hin.
    apply (Permutation_in _ Hperm) in Hin. apply filter_In in Hin as [Hin _].
    now apply (wf_message_user db Hwf). }
  destruct (mapM_include_author db found Hfk) as (rows & Hrun & Hfst & Hall).
  exists rows. split; [|split; [|split]].
  - unfold get_messages. rewrite (protected_runs _ _ _ _ _ Hauth).
    unfold get_messages_handler, try_catch, bind, prisma.bookingMessage_findMany.
    simpl. fold found. rewrite Hrun. reflexivity.
  - now rewrite Hfst.
  - rewrite Hfst. apply sort_asc_sorted.
  - exact Hall.
Qed.

Lemma thread_db_wf : db_wf Sample.thread_db.
Proof. solve_db_wf. Qed.

Lemma get_messages_spec_witness :
  exists rows,
    get_messages (Sample.env_with []) (Sample.alice_request Sample.job1 None)
                 Sample.thread_db
    = (mkResponse 200 (MessagesBody rows) NoCookie, Sample.thread_db) /\
    Permutation (map fst rows) [Sample.m4; Sample.m3; Sample.m1] /\
    StronglySorted
      (fun a b => BookingMessage.createdAt a <= BookingMessage.createdAt b)
      (map fst rows) /\
    Forall (fun row =>
              exists v, In v (users Sample.thread_db) /\
                        User.id v = BookingMessage.userId (fst row) /\
                        snd row = mkAuthor (User.id v) (User.name v) (User.email v))
           rows.
Proof.
  apply (get_messages_spec (Sample.env_with [])
                           (Sample.alice_request Sample.job1 None)
                           Sample.thread_db Sample.alice).
  - exact thread_db_wf.
  - reflexivity.
Defined.

(** The listing of the sample thread, computed. *)
Example get_messages_thread :
  fst (get_messages (Sample.env_with []) (Sample.alice_request Sample.job1 None)
                    Sample.thread_db)
  = mkResponse 200
      (MessagesBody [(Sample.m1, mkAuthor 1 "Alice" "alice@example.com");
                     (Sample.m3, mkAuthor 2 "Bob" "bob@example.com");
                     (Sample.m4, mkAuthor 1 "Alice" "alice@example.com")])
      NoCookie.
Proof. reflexivity. Qed.




(** ** The grouped listing *)

Lemma hex_run_digits (n : nat) (s r : string) :
  hex_run n s = Some r -> all_digits s = true -> all_digits r = true.
Proof.
  revert s. induction n as [|n IH]; simpl; intros s H Hd.
  - now injection H as <-.
  - destruct s as [|c s]; [discriminate|].
    destruct (is_hex c); [|discriminate].
    simpl in Hd. apply andb_true_iff in Hd as [_ Hd]. now apply IH with s.
Qed.

Lemma is_uuid_not_index (k : string) : is_uuid k = true -> array_index k = None.
Proof.
  intros H.
  assert (Hd : all_digits k = false).
  { destruct (all_digits k) eqn:Hd; [|reflexivity]. exfalso.
    unfold is_uuid, and_then in H.
    destruct (hex_run 8 k) as [s1|] eqn:H1; [|discriminate].
    pose proof (hex_run_digits _ _ _ H1 Hd) as Hd1.
    destruct s1 as [|c s2]; [discriminate|].
    simpl in H. destruct (Ascii.eqb_spec c "-"%char) as [->|_]; [|discriminate].
    discriminate Hd1. }
  unfold array_index. destruct k as [|c rest]; [reflexivity|].
  now rewrite Hd.
Qed.

Lemma is_uuid_not_inherited (k : string) : is_uuid k = true -> inherited k = false.
Proof.
  intros H. destruct (inherited k) eqn:Hi; [|reflexivity]. exfalso.
  unfold inherited in Hi. apply existsb_exists in Hi as [x [Hin Heq]].
  apply String.eqb_eq in Heq. subst x.
  simpl in Hin.
  repeat (destruct Hin as [<-|Hin]; [vm_compute in H; discriminate|]).
  contradiction.
Qed.

Lemma assoc_None_iff {V : Type} (k : string) (l : list (string * V)) :
  assoc k l = None <-> ~ In k (map fst l).
Proof.
  induction l as [|[k' v] l IH]; simpl.
  - tauto.
  - destruct (String.eqb_spec k' k) as [->|Hne].
    + split; [discriminate | intros H; elim H; now left].
    + rewrite IH. tauto.
Qed.

Lemma js_has_iff {V : Type} (k : string) (g : list (string * V)) :
  inherited k = false -> (js_has k g = true <-> In k (map fst g)).
Proof.
  intros Hi. unfold js_has.
  destruct (assoc k g) as [v|] eqn:E.
  - split; [|reflexivity]. intros _.
    destruct (in_dec string_dec k (map fst g)) as [Hin|Hnot]; [assumption|].
    apply assoc_None_iff in Hnot. congruence.
  - rewrite Hi. apply assoc_None_iff in E. split; [discriminate | tauto].
Qed.

Lemma own_property_order_plain {V : Type} (g : list (string * V)) :
  Forall (fun p => array_index (fst p) = None) g -> own_property_order g = g.
Proof.
  intros H. unfold own_property_order.
  assert (H1 : filter is_index g = []).
  { induction H as [|p g Hp _ IH]; [reflexivity|].
    simpl. unfold is_index. rewrite Hp. exact IH. }
  assert (H2 : filter (fun p => negb (is_index p)) g = g).
  { clear H1. induction H as [|p g Hp _ IH]; [reflexivity|].
    simpl. unfold is_index. rewrite Hp. simpl. f_equal. exact IH. }
  now rewrite H1, H2.
Qed.

Lemma StronglySorted_snoc {A : Type} (R : A -> A -> Prop) (l : list A) (x : A) :
  StronglySorted R l -> Forall (fun y => R y x) l -> StronglySorted R (l ++ [x]).
Proof.
  induction 1 as [|y l Hs IH Hall]; intros Hx; simpl.
  - constructor; constructor.
  - inversion Hx as [|? ? Hyx Hx']; subst.
    constructor; [now apply IH|].
    apply Forall_app. split; [assumption | now constructor].
Qed.

Lemma StronglySorted_snoc_inv {A : Type} (R : A -> A -> Prop) (l : list A) (x : A) :
  StronglySorted R (l ++ [x]) -> StronglySorted R l /\ Forall (fun y => R y x) l.
Proof.
  induction l as [|y l IH]; simpl; intros H.
  - split; constructor.
  - inversion H as [|? ? Hs Hall]; subst.
    destruct (IH Hs) as [Hl Hx]. apply Forall_app in Hall as [Hall Hyx].
    inversion Hyx; subst.
    split; constructor; assumption.
Qed.

(** What the [forEach] builds from the caller's messages taken latest
    first: one key per booking, each with the single entry of the latest
    message, the keys in the order of their latest message. *)
Lemma group_fold_spec (uid : Z) (l : list BookingMessage.t) :
  StronglySorted
    (fun a b => BookingMessage.createdAt b <= BookingMessage.createdAt a) l ->
  Forall (fun m => BookingMessage.userId m = uid
                   /\ inherited (BookingMessage.bookingUuid m) = false) l ->
  NoDup (map fst (fold_left group_step l [])) /\
  (forall k, In k (map fst (fold_left group_step l []))
             <-> exists m, In m l /\ on_booking uid k m) /\
  (forall k v,
      In (k, v) (fold_left group_step l []) ->
      exists m, In m l /\ on_booking uid k m /\
                v = [mkBookingRef k (BookingMessage.bookingDescription m)] /\
                forall m2, In m2 l -> on_booking uid k m2 ->
                           BookingMessage.createdAt m2 <= BookingMessage.createdAt m) /\
  StronglySorted (no_less_recent uid l) (map fst (fold_left group_step l [])).
Proof.
  induction l as [|m l IH] using rev_ind; intros Hsorted Hall.
  - simpl. split; [constructor|]. split; [|split; [|constructor]].
    + intros k. split; [contradiction | intros (m & [] & _)].
    + intros k v [].
  - apply StronglySorted_snoc_inv in Hsorted as [Hsl Hge].
    apply Forall_app in Hall as [Hall Hm].
    inversion Hm as [|? ? [Huid Hinh] _]; subst.
    destruct (IH Hsl Hall) as (Hnd & Hmem & Hval & Hsort). clear IH.
    rewrite Forall_forall in Hge.
    assert (Hmono : forall k1 k2, no_less_recent (BookingMessage.userId m) l k1 k2 ->
                                  no_less_recent (BookingMessage.userId m) (l ++ [m]) k1 k2).
    { intros k1 k2 (m1 & Hin1 & Hon1 & Hmax). exists m1.
      split; [apply in_app_iff; now left|]. split; [assumption|].
      intros m2 Hin2 Hon2. apply in_app_iff in Hin2 as [Hin2|[<-|[]]].
      - now apply Hmax.
      - now apply Hge. }
    rewrite fold_left_app. simpl.
    set (g := fold_left group_step l []) in *.
    unfold group_step.
    destruct (js_has (BookingMessage.bookingUuid m) g) eqn:Hhas; simpl.
    + apply (js_has_iff _ _ Hinh) in Hhas.
      split; [assumption|]. split; [|split].
      * intros k. rewrite Hmem. split.
        -- intros (m' & Hin & Hon). exists m'. split; [|assumption].
           apply in_app_iff. now left.
        -- intros (m' & Hin & Hon). apply in_app_iff in Hin as [Hin|[<-|[]]].
           ++ now exists m'.
           ++ destruct Hon as [_ <-]. now apply Hmem.
      * intros k v Hin. destruct (Hval k v Hin) as (m0 & Hin0 & Hon0 & Hv & Hmax).
        exists m0. split; [apply in_app_iff; now left|].
        split; [assumption|]. split; [assumption|].
        intros m2 Hin2 Hon2. apply in_app_iff in Hin2 as [Hin2|[<-|[]]].
        -- now apply Hmax.
        -- now apply Hge.
      * eapply StronglySorted_weaken; [exact Hmono | exact Hsort].
    + assert (Hnew : ~ In (BookingMessage.bookingUuid m) (map fst g)).
      { intros Hin. apply (js_has_iff _ _ Hinh) in Hin. congruence. }
      rewrite map_app. simpl.
      split; [|split; [|split]].
      * eapply Permutation_NoDup; [apply Permutation_cons_append|].
        now constructor.
      * intros k. rewrite in_app_iff, Hmem. simpl. split.
        -- intros [(m' & Hin & Hon)|[<-|[]]].
           ++ exists m'. split; [apply in_app_iff; now left | assumption].
           ++ exists m. split; [apply in_app_iff; right; now left | now split].
        -- intros (m' & Hin & Hon). apply in_app_iff in Hin as [Hin|[<-|[]]].
           ++ left. now exists m'.
           ++ right. left. now destruct Hon.
      * intros k v Hin. apply in_app_iff in Hin as [Hin|[E|[]]].
        -- destruct (Hval k v Hin) as (m0 & Hin0 & Hon0 & Hv & Hmax).
           exists m0. split; [apply in_app_iff; now left|].
           split; [assumption|]. split; [assumption|].
           intros m2 Hin2 Hon2. apply in_app_iff in Hin2 as [Hin2|[<-|[]]].
           ++ now apply Hmax.
           ++ now apply Hge.
        -- injection E as <- <-. exists m.
           split; [apply in_app_iff; right; now left|].
           split; [now split|]. split; [reflexivity|].
           intros m2 Hin2 Hon2. apply in_app_iff in Hin2 as [Hin2|[<-|[]]].
           ++ exfalso. apply Hnew. apply Hmem. now exists m2.
           ++ lia.
      * apply StronglySorted_snoc.
        -- eapply StronglySorted_weaken; [exact Hmono | exact Hsort].
        -- apply Forall_forall. intros k1 Hk1.
           apply Hmem in Hk1 as (m1 & Hin1 & Hon1).
           exists m1. split; [apply in_app_iff; now left|]. split; [assumption|].
           intros m2 Hin2 Hon2. apply in_app_iff in Hin2 as [Hin2|[<-|[]]].
           ++ exfalso. apply Hnew. apply Hmem. exists m2.
              split; [assumption|]. destruct Hon2 as [Hu <-]. now split.
           ++ now apply Hge.
Qed.

(** C6. For an authenticated caller whose messages carry booking UUIDs,
    the grouped listing answers 200 with an object that has exactly one
    key per distinct booking UUID among the caller's messages, however
    many messages a booking has; each key holds a single entry, the UUID
    and the description of the booking's latest message; and the keys come
    in the order of the bookings' latest messages, most recent first. *)
Theorem list_bookings_spec (env : Env) (req : Request) (db : Db) (u : User.t) :
  authMiddleware env req db = (Next (with_user req u), db) ->
  (forall m, In m (bookingMessages db) ->
             BookingMessage.userId m = User.id u ->
             is_uuid (BookingMessage.bookingUuid m) = true) ->
  exists grouped,
    list_bookings env req db = (mkResponse 200 (GroupedBody grouped) NoCookie, db) /\
    NoDup (map fst grouped) /\
    (forall k, In k (map fst grouped)
               <-> exists m, In m (bookingMessages db) /\ on_booking (User.id u) k m) /\
    (forall k v,
        In (k, v) grouped ->
        exists m, In m (bookingMessages db) /\ on_booking (User.id u) k m /\
                  v = [mkBookingRef k (BookingMessage.bookingDescription m)] /\
                  forall m2, In m2 (bookingMessages db) ->
                             on_booking (User.id u) k m2 ->
                             BookingMessage.createdAt m2 <= BookingMessage.createdAt m) /\
    StronglySorted (no_less_recent (User.id u) (bookingMessages db)) (map fst grouped).
Proof.
  intros Hauth Huuid.
  set (uid := User.id u) in *.
  set (l := sort_by createdAt_desc
              (filter (where_userId (Some uid)) (bookingMessages db))).
  assert (Hl : forall m, In m l <-> In m (bookingMessages db)
                                    /\ BookingMessage.userId m = uid).
  { intros m. unfold l. split.
    - intros Hin. apply (Permutation_in _ (sort_by_perm _ _)) in Hin.
      apply filter_In in Hin as [Hin Hu]. split; [assumption|].
      now apply Z.eqb_eq.
    - intros [Hin Hu].
      apply (Permutation_in _ (Permutation_sym (sort_by_perm _ _))).
      apply filter_In. split; [assumption|]. now apply Z.eqb_eq. }
  assert (Hall : Forall (fun m => BookingMessage.userId m = uid
                                  /\ inherited (BookingMessage.bookingUuid m) = false) l).
  { apply Forall_forall. intros m Hin. apply Hl in Hin as [Hin Hu].
    split; [assumption|]. apply is_uuid_not_inherited. now apply Huuid. }
  destruct (group_fold_spec uid l (sort_desc_sorted _) Hall)
    as (Hnd & Hmem & Hval & Hsort).
  set (g := fold_left group_step l []) in *.
  assert (Hplain : own_property_order g = g).
  { apply own_property_order_plain. apply Forall_forall. intros [k v] Hin.
    simpl. apply is_uuid_not_index.
    destruct (Hval k v Hin) as (m & Hin' & [Hu Hk] & _).
    apply Hl in Hin' as [Hin' _]. rewrite <- Hk. now apply Huuid. }
  exists g. split; [|split; [|split; [|split]]].
  - unfold list_bookings. rewrite (protected_runs _ _ _ _ _ Hauth).
    unfold list_bookings_handler, try_catch, bind, ret,
      prisma.bookingMessage_findMany.
    simpl. fold uid. fold l. fold g. now rewrite Hplain.
  - exact Hnd.
  - intros k. rewrite Hmem. split.
    + intros (m & Hin & Hon). exists m. apply Hl in Hin. tauto.
    + intros (m & Hin & Hon). exists m. split; [|assumption].
      apply Hl. destruct Hon. tauto.
  - intros k v Hin. destruct (Hval k v Hin) as (m & Hin' & Hon & Hv & Hmax).
    exists m. apply Hl in Hin' as [Hin' _]. repeat split; try tauto.
    + apply Hon.
    + apply Hon.
    + intros m2 Hin2 Hon2. apply Hmax; [|assumption].
      apply Hl. destruct Hon2. tauto.
  - eapply StronglySorted_weaken; [|exact Hsort].
    intros k1 k2 (m1 & Hin1 & Hon1 & Hmax). exists m1.
    apply Hl in Hin1 as [Hin1 _]. split; [assumption|]. split; [assumption|].
    intros m2 Hin2 Hon2. apply Hmax; [|assumption].
    apply Hl. destruct Hon2. tauto.
Qed.

Lemma list_bookings_spec_witness :
  exists grouped,
    list_bookings (Sample.env_with []) (Sample.alice_request "" None) Sample.thread_db
    = (mkResponse 200 (GroupedBody grouped) NoCookie, Sample.thread_db) /\
    NoDup (map fst grouped) /\
    (forall k, In k (map fst grouped)
               <-> exists m, In m (bookingMessages Sample.thread_db)
                             /\ on_booking 1 k m) /\
    (forall k v,
        In (k, v) grouped ->
        exists m, In m (bookingMessages Sample.thread_db) /\ on_booking 1 k m /\
                  v = [mkBookingRef k (BookingMessage.bookingDescription m)] /\
                  forall m2, In m2 (bookingMessages Sample.thread_db) ->
                             on_booking 1 k m2 ->
                             BookingMessage.createdAt m2 <= BookingMessage.createdAt m) /\
    StronglySorted (no_less_recent 1 (bookingMessages Sample.thread_db))
                   (map fst grouped).
Proof.
  apply (list_bookings_spec (Sample.env_with []) (Sample.alice_request "" None)
                            Sample.thread_db Sample.alice).
  - reflexivity.
  - intros m Hin _. simpl in Hin.
    repeat (destruct Hin as [<-|Hin]; [reflexivity|]). contradiction.
Defined.

(** The grouped listing of the sample thread, computed: Alice wrote twice
    on [job1] and once on [job2]; [job1], whose latest message is the most
    recent, comes first, with the description of that message. *)
Example list_bookings_thread :
  fst (list_bookings (Sample.env_with []) (Sample.alice_request "" None)
                     Sample.thread_db)
  = mkResponse 200
      (GroupedBody [(Sample.job1, [mkBookingRef Sample.job1 "Brake check (paid)"]);
                    (Sample.job2, [mkBookingRef Sample.job2 "Roadworthy"])])
      NoCookie.
Proof. reflexivity. Qed.

(** Outside booking UUIDs the object used as a map shows through: a
    message whose booking identifier is ["constructor"] finds
    [grouped["constructor"]] truthy already and gets no entry. *)
Example list_bookings_prototype_key :
  fst (list_bookings (Sample.env_with []) (Sample.alice_request "" None) Sample.odd_db)
  = mkResponse 200
      (GroupedBody [(Sample.job1, [mkBookingRef Sample.job1 "Brake check"])])
      NoCookie.
Proof. reflexivity. Qed.

(** ** The job listing *)

Lemma js_get_set_prop (k : string) (v : Json) (props : list (string * Json)) :
  js_get (Some (JObj (set_prop k v props))) k = Normal (Some v).
Proof.
  unfold js_get. f_equal.
  induction props as [|[k' v'] props IH]; simpl.
  - now rewrite String.eqb_refl.
  - destruct (String.eqb_spec k' k) as [->|Hne]; simpl.
    + now rewrite String.eqb_refl.
    + destruct (String.eqb_spec k' k); [contradiction | exact IH].
Qed.

Lemma js_get_set_prop_other (k k' : string) (v : Json) (props : list (string * Json)) :
  k' <> k ->
  js_get (Some (JObj (set_prop k v props))) k' = js_get (Some (JObj props)) k'.
Proof.
  intros Hne. unfold js_get. f_equal.
  induction props as [|[k0 v0] props IH]; simpl.
  - destruct (String.eqb_spec k k'); [congruence | reflexivity].
  - destruct (String.eqb_spec k0 k) as [->|Hk]; simpl.
    + destruct (String.eqb_spec k k'); [congruence | reflexivity].
    + destruct (String.eqb_spec k0 k'); [reflexivity | exact IH].
Qed.

(** The outcome of the attachment query of one job, as the listing takes
    it: the empty list after a response that is not ok, the parsed body
    after one that is. *)
Lemma with_attachments_resolves (env : Env) (db : Db) (job : Json)
      (uuid : option Json) (r : FetchResponse) :
  js_get (Some job) "uuid" = Normal uuid ->
  fetch env (attachments_url uuid) (api_headers env) = Some r ->
  fr_ok r = false \/ (exists j, fr_json r = Some j) ->
  exists attachments,
    with_attachments env job db
    = (Next (JObj (set_prop "attachments" attachments (js_spread job))), db) /\
    (fr_ok r = false -> attachments = JArr []) /\
    (fr_ok r = true -> fr_json r = Some attachments).
Proof.
  intros Hu Hf Hr.
  unfold with_attachments, fetchBookingAttachments. run_handler.
  rewrite Hu; simpl. rewrite Hf; simpl.
  destruct (fr_ok r) eqn:Hok; simpl.
  - destruct Hr as [Hr|[j Hj]]; [discriminate|].
    exists j. rewrite Hj. split; [reflexivity|]. split; [discriminate | auto].
  - exists (JArr []). split; [reflexivity|]. split; [auto | discriminate].
Qed.

Lemma mapM_with_attachments (env : Env) (db : Db) (jobs : list Json) :
  Forall (fun job =>
            exists uuid r,
              js_get (Some job) "uuid" = Normal uuid /\
              fetch env (attachments_url uuid) (api_headers env) = Some r /\
              (fr_ok r = false \/ exists j, fr_json r = Some j)) jobs ->
  exists out,
    mapM (with_attachments env) jobs db = (Next out, db) /\
    Forall2 (fun job o =>
               exists uuid r attachments,
                 js_get (Some job) "uuid" = Normal uuid /\
                 fetch env (attachments_url uuid) (api_headers env) = Some r /\
                 o = JObj (set_prop "attachments" attachments (js_spread job)) /\
                 (fr_ok r = false -> attachments = JArr []) /\
                 (fr_ok r = true -> fr_json r = Some attachments))
            jobs out.
Proof.
  induction 1 as [|job jobs (uuid & r & Hu & Hf & Hr) _ (out & Hrun & Hall)].
  - exists []. split; [reflexivity | constructor].
  - destruct (with_attachments_resolves env db job uuid r Hu Hf Hr)
      as (attachments & Hone & Hfail & Hok).
    exists (JObj (set_prop "attachments" attachments (js_spread job)) :: out).
    split.
    + simpl. unfold bind at 1. rewrite Hone. unfold bind. rewrite Hrun. reflexivity.
    + constructor; [|assumption].
      exists uuid, r, attachments. repeat split; assumption.
Qed.

(** C10. In the job listing, a per-job attachment query that comes back
    not ok is swallowed: when the job query succeeds and every attachment
    query gets a response, ok or not, the listing answers 200 with one
    entry per job, in order, each the job's own properties plus
    [attachments]; [attachments] is the empty list for every job whose
    query was not ok and the parsed body for the others.  For a job that
    is an object, the entry is the job's own list of properties with
    [attachments] set in it, so every other property reads in the entry
    as it reads in the job. *)
Theorem list_jobs_swallows_failed_attachment_fetch
        (env : Env) (req : Request) (db : Db) (u : User.t) (sm8Uuid : string)
        (resp : FetchResponse) (jobs : list Json) :
  authMiddleware env req db = (Next (with_user req u), db) ->
  nonempty (User.sm8Uuid u) = Some sm8Uuid ->
  fetch env (jobs_url sm8Uuid) (api_headers env) = Some resp ->
  fr_ok resp = true ->
  fr_json resp = Some (JArr jobs) ->
  Forall (fun job =>
            exists uuid r,
              js_get (Some job) "uuid" = Normal uuid /\
              fetch env (attachments_url uuid) (api_headers env) = Some r /\
              (fr_ok r = false \/ exists j, fr_json r = Some j)) jobs ->
  exists out,
    list_jobs env req db = (mkResponse 200 (JobsBody out) NoCookie, db) /\
    Forall2 (fun job o =>
               exists uuid r attachments,
                 js_get (Some job) "uuid" = Normal uuid /\
                 fetch env (attachments_url uuid) (api_headers env) = Some r /\
                 o = JObj (set_prop "attachments" attachments (js_spread job)) /\
                 js_get (Some o) "attachments" = Normal (Some attachments) /\
                 (fr_ok r = false -> attachments = JArr []) /\
                 (fr_ok r = true -> fr_json r = Some attachments) /\
                 (forall props,
                     job = JObj props ->
                     o = JObj (set_prop "attachments" attachments props) /\
                     forall k, k <> "attachments" ->
                               js_get (Some o) k = js_get (Some job) k))
            jobs out.
Proof.
  intros Hauth Hsm8 Hf Hok Hj Hall.
  destruct (mapM_with_attachments env db jobs Hall) as (out & Hrun & Hout).
  exists out. split.
  - unfold list_jobs. rewrite (protected_runs _ _ _ _ _ Hauth).
    unfold list_jobs_handler. run_handler. simpl.
    rewrite Hsm8, Hf; simpl. rewrite Hok; simpl. rewrite Hj; simpl.
    rewrite Hrun. reflexivity.
  - eapply Forall2_impl; [|exact Hout].
    intros job o (uuid & r & attachments & Hu & Hfa & -> & Hfail & Hsucc).
    exists uuid, r, attachments.
    split; [assumption|]. split; [assumption|]. split; [reflexivity|].
    split; [apply js_get_set_prop|]. split; [assumption|]. split; [assumption|].
    intros props ->. split; [reflexivity|].
    intros k Hk. now apply js_get_set_prop_other.
Qed.

Lemma list_jobs_swallows_failed_attachment_fetch_witness :
  exists out,
    list_jobs (Sample.env_with Sample.listing_table) Sample.bob_request Sample.jobs_db
    = (mkResponse 200 (JobsBody out) NoCookie, Sample.jobs_db) /\
    Forall2 (fun job o =>
               exists uuid r attachments,
                 js_get (Some job) "uuid" = Normal uuid /\
                 fetch (Sample.env_with Sample.listing_table)
                       (attachments_url uuid)
                       (api_headers (Sample.env_with Sample.listing_table)) = Some r /\
                 o = JObj (set_prop "attachments" attachments (js_spread job)) /\
                 js_get (Some o) "attachments" = Normal (Some attachments) /\
                 (fr_ok r = false -> attachments = JArr []) /\
                 (fr_ok r = true -> fr_json r = Some attachments) /\
                 (forall props,
                     job = JObj props ->
                     o = JObj (set_prop "attachments" attachments props) /\
                     forall k, k <> "attachments" ->
                               js_get (Some o) k = js_get (Some job) k))
            [Sample.job1_json; Sample.job2_json] out.
Proof.
  apply (list_jobs_swallows_failed_attachment_fetch
           (Sample.env_with Sample.listing_table) Sample.bob_request Sample.jobs_db
           Sample.bob "7b1d4c3e-52a8-4f0b-9c6d-0e1f2a3b4c5d"
           (Sample.json_ok (JArr [Sample.job1_json; Sample.job2_json]))).
  - reflexivity.
  - reflexivity.
  - reflexivity.
  - reflexivity.
  - reflexivity.
  - constructor; [|constructor; [|constructor]].
    + exists (Some (JStr Sample.job1)), (mkFetchResponse false 500 None).
      split; [reflexivity|]. split; [reflexivity|]. now left.
    + exists (Some (JStr Sample.job2)), (Sample.json_ok (JArr [Sample.photo])).
      split; [reflexivity|]. split; [reflexivity|]. right. now exists (JArr [Sample.photo]).
Defined.

(** The listing of the sample company, computed: the job whose
    attachment query failed is there, with no attachments. *)
Example list_jobs_sample :
  fst (list_jobs (Sample.env_with Sample.listing_table) Sample.bob_request Sample.jobs_db)
  = mkResponse 200
      (JobsBody
         [JObj [("uuid", JStr Sample.job1); ("status", JStr "Quote");
                ("attachments", JArr [])];
          JObj [("uuid", JStr Sample.job2); ("status", JStr "Work Order");
                ("attachments", JArr [Sample.photo])]])
      NoCookie.
Proof. reflexivity. Qed.

(** ** The schema constraints are kept *)

Lemma has_user_In (uid : Z) (db : Db) :
  has_user uid db = true <-> In uid (map User.id (users db)).
Proof.
  unfold has_user. rewrite existsb_exists, in_map_iff.
  split; intros (x & H1 & H2).
  - exists x. split; [now apply Z.eqb_eq | assumption].
  - exists x. split; [assumption | now apply Z.eqb_eq].
Qed.

Lemma has_user_ids (uid : Z) (db db' : Db) :
  map User.id (users db') = map User.id (users db) ->
  has_user uid db' = has_user uid db.
Proof.
  intros H. apply eq_true_iff_eq. now rewrite !has_user_In, H.
Qed.

Lemma user_update_sm8Uuid_wf (id : Z) (uuid : string) (db db' : Db) (f : Flow unit) :
  prisma.user_update_sm8Uuid id uuid db = (f, db') -> db_wf db -> db_wf db'.
Proof.
  unfold prisma.user_update_sm8Uuid.
  destruct (negb (has_user id db)); [intros E; now injection E as <- <-|].
  destruct (existsb _ (users db)); [intros E; now injection E as <- <-|].
  intros E Hwf. injection E as <- <-.
  assert (Hids : map User.id
                     (map (fun u => if User.id u =? id
                                    then User.mk (User.id u) (User.name u) (User.email u)
                                                 (User.phone u) (User.password u)
                                                 (Some uuid)
                                    else u) (users db))
                 = map User.id (users db)).
  { rewrite map_map. apply map_ext. intros a. now destruct (User.id a =? id). }
  constructor; simpl.
  - rewrite Hids. apply Hwf.
  - apply Hwf.
  - intros s Hin. erewrite has_user_ids; [now apply (wf_session_user db Hwf)|exact Hids].
  - intros m Hin. erewrite has_user_ids; [now apply (wf_message_user db Hwf)|exact Hids].
Qed.

Lemma session_create_wf (data : Session.t) (db db' : Db) (f : Flow Session.t) :
  prisma.session_create data db = (f, db') -> db_wf db -> db_wf db'.
Proof.
  intros H Hwf.
  destruct (session_create_flow _ _ _ _ H)
    as [(_ & Hs & Hu & Hm & _ & Hfk & Hfresh)|[_ ->]]; [|assumption].
  assert (Hids : map User.id (users db') = map User.id (users db)) by now rewrite Hu.
  constructor.
  - rewrite Hu. apply Hwf.
  - rewrite Hs, map_app. simpl.
    eapply Permutation_NoDup; [apply Permutation_cons_append|].
    constructor; [|apply Hwf].
    intros Hin. apply in_map_iff in Hin as (s & Heq & Hin).
    now apply (Hfresh s Hin).
  - intros s Hin. rewrite (has_user_ids _ _ _ Hids).
    rewrite Hs in Hin. apply in_app_iff in Hin as [Hin|[<-|[]]];
      [now apply (wf_session_user db Hwf) | assumption].
  - intros m Hin. rewrite (has_user_ids _ _ _ Hids).
    rewrite Hm in Hin. now apply (wf_message_user db Hwf).
Qed.

(** Login keeps the constraints of the schema, whatever its outcome. *)
Lemma login_wf (env : Env) (req : Request) (db : Db) :
  db_wf db -> db_wf (snd (login env req db)).
Proof.
  intros Hwf. unfold login. run_handler.
  destruct (js_get (req_body req) "identifier") as [identifier|]; simpl;
    [|assumption].
  destruct (js_get (req_body req) "password") as [password|]; simpl; [|assumption].
  destruct (where_user_flow env where_identifier identifier db) as [[w ->]| ->];
    [|assumption].
  destruct (find _ (users db)) as [u|]; simpl; [|assumption].
  destruct (compare_password_flow env password (User.password u) db)
    as [(p & _ & ->)|[_ ->]]; [|assumption].
  destruct (bcrypt_compare env p _); simpl; [|assumption].
  destruct (fetch env _ _) as [resp|]; simpl; [|assumption].
  destruct (fr_ok resp); simpl; [|assumption].
  destruct (fr_json resp) as [client|]; simpl; [|assumption].
  destruct (js_get (Some client) "0") as [first|]; simpl; [|assumption].
  destruct (js_get first "company_uuid") as [clientUuid|]; simpl; [|assumption].
  destruct (truthy clientUuid); simpl; [|assumption].
  destruct clientUuid as [[| | |uuid| |]|]; simpl; try assumption.
  destruct (prisma.user_update_sm8Uuid (User.id u) uuid db) as [f1 db1] eqn:Hupd.
  pose proof (user_update_sm8Uuid_wf _ _ _ _ _ Hupd Hwf) as Hwf1.
  destruct (user_update_sm8Uuid_flow _ _ _ _ _ Hupd) as [->|[-> ->]];
    [|assumption].
  destruct (jwt_sign env _ _ _ _) as [token|]; simpl; [|assumption].
  destruct (prisma.session_create _ db1) as [f2 db2] eqn:Hcreate.
  pose proof (session_create_wf _ _ _ _ Hcreate Hwf1) as Hwf2.
  destruct f2; assumption.
Qed.

(** Logout keeps the constraints of the schema. *)
Lemma logout_wf (env : Env) (req : Request) (db : Db) :
  db_wf db -> db_wf (snd (logout env req db)).
Proof.
  intros Hwf. unfold logout, prisma.where_token. run_handler.
  destruct (when_truthy _) as [v|]; simpl; [|assumption].
  assert (Hdel : forall where_,
             db_wf (mkDb (users db)
                         (filter (fun s => negb (where_ (Session.token s))) (sessions db))
                         (bookingMessages db) (bookingMessageSeq db))).
  { intros where_. constructor; simpl.
    - apply Hwf.
    - pose proof (wf_tokens db Hwf) as Hnd. revert Hnd.
      induction (sessions db) as [|s l IH]; simpl; intros Hnd; [constructor|].
      inversion Hnd as [|? ? Hnotin Hnd']; subst.
      destruct (negb _); simpl; [|now apply IH].
      constructor; [|now apply IH].
      intros Hin. apply Hnotin. apply in_map_iff in Hin as (x & Heq & Hin).
      apply filter_In in Hin as [Hin _]. apply in_map_iff. now exists x.
    - intros s Hin. apply filter_In in Hin as [Hin _].
      now apply (wf_session_user db Hwf).
    - apply Hwf. }
  destruct (assoc (COOKIE_NAME env) (cookies req)) as [[| | |t| |]|]; simpl;
    try assumption;
    try (destruct (prisma_where_token env _) as [where_|]; simpl;
         [apply Hdel | assumption]).
  apply (Hdel (fun x => (x =? t)%string)).
Qed.

(** Sending a message keeps the constraints of the schema. *)
Lemma send_message_handler_wf (env : Env) (req : Request) (db : Db) :
  db_wf db -> db_wf (snd (send_message_handler env req db)).
Proof.
  intros Hwf.
  unfold send_message_handler, fetchJobDetails, prisma.bookingMessage_create,
    prisma.string_column.
  run_handler.
  destruct (user req) as [u|]; simpl; [|assumption].
  destruct (js_get (req_body req) "message") as [m|]; simpl; [|assumption].
  destruct (when_truthy m) as [v|] eqn:Hv; simpl; [|assumption].
  apply when_truthy_Some in Hv as [-> _].
  destruct (fetch env _ _) as [resp|]; simpl; [|assumption].
  destruct (fr_json resp) as [job|]; simpl; [|assumption].
  destruct (js_get (Some job) "job_description") as [d|]; simpl; [|assumption].
  destruct (js_get (Some job) "status") as [st|]; simpl; [|assumption].
  destruct d as [[| | |description| |]|]; simpl; try assumption.
  destruct st as [[| | |st| |]|]; simpl; try assumption.
  destruct v as [| | |text| |]; simpl; try assumption.
  destruct (has_user (User.id u) db) eqn:Hfk; simpl; [|assumption].
  constructor; simpl; try apply Hwf.
  intros m Hin. apply in_app_iff in Hin as [Hin|[<-|[]]].
  - now apply (wf_message_user db Hwf).
  - exact Hfk.
Qed.

(* ================================================================== *)
(** * Further properties *)
(* ================================================================== *)

(** ** The bearer token of a request *)

Lemma string_app_nil (s : string) : (s ++ "")%string = s.
Proof. induction s as [|c s IH]; simpl; [reflexivity | now rewrite IH]. Qed.

Lemma split_on_cons (sep : ascii) (s : string) :
  exists w ws, split_on sep s = w :: ws.
Proof.
  destruct s as [|c s]; simpl; [now exists EmptyString, []|].
  destruct (Ascii.eqb c sep); [now eexists; eexists|].
  destruct (split_on sep s); now eexists; eexists.
Qed.

(** Joining the fields of a split gives the string back. *)
Lemma split_on_concat (sep : ascii) (s : string) :
  String.concat (String sep EmptyString) (split_on sep s) = s.
Proof.
  induction s as [|c s IH]; simpl; [reflexivity|].
  destruct (split_on_cons sep s) as (w & ws & E). rewrite E in *.
  destruct (Ascii.eqb_spec c sep) as [->|_].
  - simpl. simpl in IH. now rewrite IH.
  - destruct ws as [|w' ws]; simpl in *; now rewrite IH.
Qed.

Lemma split_on_fields (sep : ascii) (s : string) :
  Forall (fun w => no_char sep w = true) (split_on sep s).
Proof.
  induction s as [|c s IH]; simpl; [now repeat constructor|].
  destruct (Ascii.eqb c sep) eqn:E; [now constructor|].
  destruct (split_on sep s) as [|w ws]; [now repeat constructor; simpl; rewrite E|].
  inversion IH; subst. constructor; [|assumption]. simpl. now rewrite E.
Qed.

Lemma split_on_first (sep : ascii) (t rest : string) :
  no_char sep t = true ->
  rest = EmptyString \/ (exists r, rest = String sep r) ->
  hd_error (split_on sep (t ++ rest)) = Some t.
Proof.
  intros Ht Hrest. induction t as [|c t IH]; simpl.
  - destruct Hrest as [->|[r ->]]; simpl; [reflexivity|].
    now rewrite Ascii.eqb_refl.
  - simpl in Ht. apply andb_true_iff in Ht as [Hc Ht].
    apply negb_true_iff in Hc. rewrite Hc.
    specialize (IH Ht).
    destruct (split_on sep (t ++ rest)) as [|w ws]; [discriminate|].
    simpl in *. now injection IH as ->.
Qed.

(** X1. [extractToken] gives a token exactly for an [Authorization]
    header that is ["Bearer "], a token without spaces, and then nothing
    or a space and anything; in every other case (no header, another
    scheme, ["bearer"] in lower case) it gives none. *)
Theorem extractToken_spec (req : Request) (t : string) :
  extractToken req = Some t
  <-> exists rest,
      authorization req = Some ("Bearer " ++ t ++ rest)%string /\
      no_char " "%char t = true /\
      (rest = EmptyString \/ exists r, rest = String " "%char r).
Proof.
  unfold extractToken. split.
  - destruct (nonempty (authorization req)) as [h|] eqn:Hh; [|discriminate].
    apply nonempty_Some in Hh as [Hh _]. rewrite Hh.
    pose proof (split_on_concat " "%char h) as Hcat.
    pose proof (split_on_fields " "%char h) as Hf.
    destruct (split_on " "%char h) as [|scheme fields]; [discriminate|].
    destruct (String.eqb_spec scheme "Bearer") as [->|_]; [|discriminate].
    destruct fields as [|t' more]; [discriminate|].
    simpl. intros E. injection E as ->.
    assert (Ht : no_char " "%char t = true)
      by (apply Forall_inv_tail in Hf; now apply Forall_inv in Hf).
    destruct more as [|w more].
    + exists EmptyString. split; [|split; [assumption | now left]].
      rewrite string_app_nil, <- Hcat. reflexivity.
    + exists (String " "%char (String.concat " " (w :: more))).
      split; [|split; [assumption | right; now eexists]].
      rewrite <- Hcat. reflexivity.
  - intros (rest & Hh & Ht & Hrest). rewrite Hh. simpl.
    unfold nonempty. simpl.
    now apply split_on_first.
Qed.

Lemma extractToken_spec_witness :
  extractToken (Sample.bearer_request "abc.def.ghi") = Some "abc.def.ghi".
Proof.
  apply (proj2 (extractToken_spec (Sample.bearer_request "abc.def.ghi") "abc.def.ghi")).
  exists EmptyString. split; [reflexivity|]. split; [reflexivity | now left].
Defined.

(** ** Requests without a session *)

Lemma authMiddleware_db (env : Env) (req : Request) (db : Db) :
  snd (authMiddleware env req db) = db.
Proof.
  destruct (authMiddleware_cases env req db)
    as [[_ H]|[(j & _ & _ & H)|(t & _ & _ & [[H _]|(s & v & _ & _ & H)])]];
    now rewrite H.
Qed.

Lemma find_token_none (l : list Session.t) (token : string) :
  (forall s, In s l -> Session.token s <> token) ->
  find (fun s => (Session.token s =? token)%string) l = None.
Proof.
  intros H. destruct (find _ l) as [s|] eqn:E; [|reflexivity].
  apply find_some in E as [Hin Heq]. apply String.eqb_eq in Heq.
  now elim (H s Hin).
Qed.

Lemma authMiddleware_no_token (env : Env) (req : Request) (db : Db) :
  truthy (assoc (COOKIE_NAME env) (cookies req)) = false ->
  authMiddleware env req db
  = (Return (error_json 401 "Unauthorized: No token provided"), db).
Proof.
  intros H. unfold authMiddleware, when_truthy. now rewrite H.
Qed.

Lemma authMiddleware_no_session (env : Env) (req : Request) (db : Db) (token : string) :
  assoc (COOKIE_NAME env) (cookies req) = Some (JStr token) ->
  token <> "" ->
  (forall s, In s (sessions db) -> Session.token s <> token) ->
  authMiddleware env req db
  = (Return (error_json 401 "Unauthorized: Invalid session"), db).
Proof.
  intros Hc Hne Hno. unfold authMiddleware.
  rewrite Hc, (when_truthy_string _ Hne).
  unfold prisma.session_findUnique, bind, prisma.session_find, ret, reply.
  now rewrite (find_token_none _ _ Hno).
Qed.

Lemma authMiddleware_cookie_not_string (env : Env) (req : Request) (db : Db) (v : Json) :
  assoc (COOKIE_NAME env) (cookies req) = Some v ->
  truthy (Some v) = true ->
  (forall t, v <> JStr t) ->
  authMiddleware env req db = (Return internal_server_error, db).
Proof.
  intros Hc Ht Hns. unfold authMiddleware, when_truthy. rewrite Hc, Ht.
  destruct v; try reflexivity. now elim (Hns s).
Qed.



(** X3. The session check reads the bearer header before the cookie, the
    middleware reads the cookie only: a request whose cookie holds a live
    session and whose header holds a bearer token that fails verification
    passes the middleware and is answered 401 "Invalid token" by the
    session check. *)
Theorem check_session_header_before_cookie
        (env : Env) (req : Request) (db : Db) (t c : string) (s : Session.t) (u : User.t) :
  extractToken req = Some t ->
  t <> "" ->
  jwt_verify env t (JWT_SECRET env) (Date_now env) = None ->
  assoc (COOKIE_NAME env) (cookies req) = Some (JStr c) ->
  c <> "" ->
  find (fun x => (Session.token x =? c)%string) (sessions db) = Some s ->
  find_user (Session.userId s) db = Some u ->
  authMiddleware env req db = (Next (with_user req u), db) /\
  check_session env req db
  = (mkResponse 401 (ErrorBody "Invalid token") NoCookie, db).
Proof.
  intros Ht Hne Hv Hc Hcne Hs Hu. split.
  - apply authMiddleware_accepts with (token := c) (s := s); try assumption.
    rewrite Hc. now apply when_truthy_string.
  - unfold check_session, presented_token, or_else. rewrite Ht.
    assert (E : nonempty (Some t) = Some t) by (apply nonempty_Some; now split).
    rewrite E, (when_truthy_string _ Hne). run_handler. now rewrite Hv.
Qed.

Lemma check_session_header_before_cookie_witness :
  authMiddleware (Sample.env_with []) Sample.mixed_request Sample.live_db
  = (Next (with_user Sample.mixed_request Sample.alice), Sample.live_db) /\
  check_session (Sample.env_with []) Sample.mixed_request Sample.live_db
  = (mkResponse 401 (ErrorBody "Invalid token") NoCookie, Sample.live_db).
Proof.
  apply (check_session_header_before_cookie
           (Sample.env_with []) Sample.mixed_request Sample.live_db
           "forged" (Session.token Sample.alice_session)
           Sample.alice_session Sample.alice);
    first [reflexivity | discriminate].
Defined.

(** ** Logout and what follows it *)

(** X4. Logout revokes: after a logout whose cookie holds a string
    token, every protected route answers 401 to a request presenting that
    token, and the session check answers 401 to it, whatever the verifier
    says. *)
Theorem logout_revokes (env : Env) (req : Request) (db : Db) (token : string) :
  assoc (COOKIE_NAME env) (cookies req) = Some (JStr token) ->
  token <> "" ->
  (forall env' h req',
      assoc (COOKIE_NAME env') (cookies req') = Some (JStr token) ->
      protected env' h req' (snd (logout env req db))
      = (mkResponse 401 (ErrorBody "Unauthorized: Invalid session") NoCookie,
         snd (logout env req db))) /\
  (forall env' req',
      presented_token env' req' = Some (JStr token) ->
      status (fst (check_session env' req' (snd (logout env req db)))) = 401).
Proof.
  intros Hc Hne.
  assert (Hgone : forall s, In s (sessions (snd (logout env req db))) ->
                            Session.token s <> token).
  { intros s. rewrite (logout_sessions _ _ _ _ Hc Hne). simpl. rewrite filter_In.
    intros [_ H]. apply negb_true_iff in H. now apply String.eqb_neq. }
  split.
  - intros env' h req' Hc'. unfold protected, guarded.
    now rewrite (authMiddleware_no_session env' req' _ token Hc' Hne Hgone).
  - intros env' req' Hp. unfold check_session. run_handler. rewrite Hp.
    destruct (jwt_verify env' token _ _); [|reflexivity].
    now rewrite (find_token_none _ _ Hgone).
Qed.

Lemma logout_revokes_witness :
  protected (Sample.env_with []) get_messages_handler
            (Sample.alice_request Sample.job1 None)
            (snd (logout (Sample.env_with []) (Sample.alice_request "" None)
                         Sample.thread_db))
  = (mkResponse 401 (ErrorBody "Unauthorized: Invalid session") NoCookie,
     snd (logout (Sample.env_with []) (Sample.alice_request "" None) Sample.thread_db)).
Proof.
  apply (proj1 (logout_revokes (Sample.env_with []) (Sample.alice_request "" None)
                               Sample.thread_db
                               (Session.token Sample.alice_session)
                               eq_refl ltac:(discriminate))).
  reflexivity.
Defined.

(** X5. Logout does not ask whether the session exists: with a cookie
    holding a string token that no session row holds it still answers 200
    and clears the cookie, and the store is exactly what it was. *)
Theorem logout_unknown_token (env : Env) (req : Request) (db : Db) (token : string) :
  assoc (COOKIE_NAME env) (cookies req) = Some (JStr token) ->
  token <> "" ->
  (forall s, In s (sessions db) -> Session.token s <> token) ->
  logout env req db
  = (mkResponse 200 (MessageBody "Logged out successfully")
                (ClearCookie (COOKIE_NAME env) true
                             (NODE_ENV env =? "production")%string "lax"),
     db).
Proof.
  intros Hc Hne Hno.
  rewrite (logout_sessions _ _ _ _ Hc Hne). f_equal.
  assert (Hf : filter (fun s => negb (Session.token s =? token)%string) (sessions db)
               = sessions db).
  { induction (sessions db) as [|s l IH]; [reflexivity|]. simpl.
    destruct (String.eqb_spec (Session.token s) token) as [E|_].
    - elim (Hno s); [now left | assumption].
    - simpl. f_equal. apply IH. intros x Hin. apply Hno. now right. }
  rewrite Hf. now destruct db.
Qed.

Lemma logout_unknown_token_witness :
  logout (Sample.env_with []) (Sample.cookie_request "jwt:unknown") Sample.live_db
  = (mkResponse 200 (MessageBody "Logged out successfully")
                (ClearCookie "sid" true true "lax"),
     Sample.live_db).
Proof.
  apply (logout_unknown_token (Sample.env_with []) (Sample.cookie_request "jwt:unknown")
                              Sample.live_db "jwt:unknown").
  - reflexivity.
  - discriminate.
  - intros s Hin. simpl in Hin.
    repeat (destruct Hin as [<-|Hin]; [discriminate|]). contradiction.
Defined.

(** ** Login: failures, success and what it leaves alone *)

Lemma find_has_user (p : User.t -> bool) (db : Db) (u : User.t) :
  find p (users db) = Some u -> has_user (User.id u) db = true.
Proof.
  intros H. apply find_some in H as [Hin _].
  apply has_user_In. now apply in_map.
Qed.

(** X6. When the contact query to ServiceM8 fails, a login with good
    credentials is answered 500 and writes nothing: "Failed to verify user
    with ServiceM8" for a response that is not ok, "Internal server error"
    for a rejected request and for an ok response whose body is not
    JSON. *)
Theorem login_upstream_failure (env : Env) (req : Request) (db : Db) (u : User.t)
        (identifier password : string) :
  credentials req identifier password ->
  find (where_identifier identifier) (users db) = Some u ->
  bcrypt_compare env password (User.password u) = true ->
  (fetch env (contact_url u) (api_headers env) = None ->
   login env req db
   = (mkResponse 500 (ErrorBody "Internal server error") NoCookie, db)) /\
  (forall resp,
      fetch env (contact_url u) (api_headers env) = Some resp ->
      fr_ok resp = false ->
      login env req db
      = (mkResponse 500 (ErrorBody "Failed to verify user with ServiceM8") NoCookie, db)) /\
  (forall resp,
      fetch env (contact_url u) (api_headers env) = Some resp ->
      fr_ok resp = true ->
      fr_json resp = None ->
      login env req db
      = (mkResponse 500 (ErrorBody "Internal server error") NoCookie, db)).
Proof.
  intros Hcred Hu Hpw. login_enter Hcred Hu. rewrite Hpw; simpl.
  split; [|split].
  - intros Hf. now rewrite Hf.
  - intros resp Hf Hok. rewrite Hf; simpl. now rewrite Hok.
  - intros resp Hf Hok Hj. rewrite Hf; simpl. rewrite Hok; simpl. now rewrite Hj.
Qed.

Lemma login_upstream_failure_witness :
  login (Sample.env_with []) Sample.alice_login Sample.db0
  = (mkResponse 500 (ErrorBody "Internal server error") NoCookie, Sample.db0) /\
  login (Sample.env_with Sample.contacts_down) Sample.alice_login Sample.db0
  = (mkResponse 500 (ErrorBody "Failed to verify user with ServiceM8") NoCookie,
     Sample.db0).
Proof.
  split.
  - apply (proj1 (login_upstream_failure (Sample.env_with []) Sample.alice_login
                                         Sample.db0 Sample.alice
                                         "alice@example.com" "wonderland"
                                         (conj eq_refl eq_refl) eq_refl eq_refl)).
    reflexivity.
  - apply (proj1 (proj2 (login_upstream_failure
                           (Sample.env_with Sample.contacts_down) Sample.alice_login
                           Sample.db0 Sample.alice
                           "alice@example.com" "wonderland"
                           (conj eq_refl eq_refl) eq_refl eq_refl))
                 (mkFetchResponse false 503 None)); reflexivity.
Defined.

(** X7. The unique index on [sm8Uuid] closes the door on a second user of
    a company: when the contact found for the user names a company that
    another user is already linked to, the update is refused, the login is
    answered 500, and neither the user nor the session table changes. *)
Theorem login_company_taken
        (env : Env) (req : Request) (db : Db) (u other : User.t)
        (identifier password : string)
        (resp : FetchResponse) (client : Json) (first : option Json) (uuid : string) :
  credentials req identifier password ->
  find (where_identifier identifier) (users db) = Some u ->
  bcrypt_compare env password (User.password u) = true ->
  fetch env (contact_url u) (api_headers env) = Some resp ->
  fr_ok resp = true ->
  fr_json resp = Some client ->
  js_get (Some client) "0" = Normal first ->
  js_get first "company_uuid" = Normal (Some (JStr uuid)) ->
  uuid <> "" ->
  In other (users db) ->
  User.id other <> User.id u ->
  User.sm8Uuid other = Some uuid ->
  login env req db = (mkResponse 500 (ErrorBody "Internal server error") NoCookie, db).
Proof.
  intros Hcred Hu Hpw Hf Hok Hj H0 Hc Hne Hin Hid Hsm.
  login_enter Hcred Hu.
  rewrite Hpw; simpl. rewrite Hf; simpl. rewrite Hok; simpl.
  rewrite Hj; simpl. rewrite H0; simpl. rewrite Hc; simpl.
  apply String.eqb_neq in Hne. rewrite Hne; simpl.
  unfold prisma.user_update_sm8Uuid.
  rewrite (find_has_user _ _ _ Hu); simpl.
  assert (E : existsb (fun v => negb (User.id v =? User.id u)
                                && same_uuid (User.sm8Uuid v) uuid) (users db) = true).
  { apply existsb_exists. exists other. split; [assumption|].
    apply andb_true_iff. split.
    - apply negb_true_iff. now apply Z.eqb_neq.
    - rewrite Hsm. simpl. apply String.eqb_refl. }
  now rewrite E.
Qed.

Lemma login_company_taken_witness :
  login (Sample.env_with Sample.carol_contacts) Sample.carol_login Sample.crowded_db
  = (mkResponse 500 (ErrorBody "Internal server error") NoCookie, Sample.crowded_db).
Proof.
  apply (login_company_taken
           (Sample.env_with Sample.carol_contacts) Sample.carol_login Sample.crowded_db
           Sample.carol Sample.bob "0400000003" "garage"
           (Sample.json_ok
              (JArr [JObj [("company_uuid", JStr "7b1d4c3e-52a8-4f0b-9c6d-0e1f2a3b4c5d")]]))
           (JArr [JObj [("company_uuid", JStr "7b1d4c3e-52a8-4f0b-9c6d-0e1f2a3b4c5d")]])
           (Some (JObj [("company_uuid", JStr "7b1d4c3e-52a8-4f0b-9c6d-0e1f2a3b4c5d")]))
           "7b1d4c3e-52a8-4f0b-9c6d-0e1f2a3b4c5d");
    first [reflexivity | discriminate | now split | (simpl; tauto)].
Defined.

(** X8. What is enough for a login to succeed: good credentials, a
    contact whose first record names a company, no other user linked to
    that company, a signer that gives a token, and no session row with
    that token yet.  The answer is then 200 with the cookie set to the
    token, the user's [sm8Uuid] is overwritten with the company, and one
    session row is appended. *)
Theorem login_succeeds
        (env : Env) (req : Request) (db : Db) (u : User.t)
        (identifier password : string)
        (resp : FetchResponse) (client : Json) (first : option Json)
        (uuid token : string) :
  credentials req identifier password ->
  find (where_identifier identifier) (users db) = Some u ->
  bcrypt_compare env password (User.password u) = true ->
  fetch env (contact_url u) (api_headers env) = Some resp ->
  fr_ok resp = true ->
  fr_json resp = Some client ->
  js_get (Some client) "0" = Normal first ->
  js_get first "company_uuid" = Normal (Some (JStr uuid)) ->
  uuid <> "" ->
  (forall v, In v (users db) -> User.sm8Uuid v = Some uuid -> User.id v = User.id u) ->
  jwt_sign env (JObj [("sm8Uuid", JStr uuid)]) (JWT_SECRET env) "1h" (Date_now env)
  = Some token ->
  (forall s, In s (sessions db) -> Session.token s <> token) ->
  login env req db
  = (mkResponse 200 (MessageBody "Logged in successful")
       (SetCookie (COOKIE_NAME env) token true
                  (NODE_ENV env =? "production")%string "lax" 604800000),
     mkDb (map (fun v => if User.id v =? User.id u
                         then User.mk (User.id v) (User.name v) (User.email v)
                                      (User.phone v) (User.password v) (Some uuid)
                         else v) (users db))
          (sessions db ++ [Session.mk (User.id u) token (Date_now env + 3600000)])
          (bookingMessages db) (bookingMessageSeq db)).
Proof.
  intros Hcred Hu Hpw Hf Hok Hj H0 Hc Hne Hfree Hsign Hfresh.
  login_enter Hcred Hu.
  rewrite Hpw; simpl. rewrite Hf; simpl. rewrite Hok; simpl.
  rewrite Hj; simpl. rewrite H0; simpl. rewrite Hc; simpl.
  apply String.eqb_neq in Hne. rewrite Hne; simpl.
  unfold prisma.user_update_sm8Uuid.
  pose proof (find_has_user _ _ _ Hu) as Hknown. rewrite Hknown; simpl.
  assert (E : existsb (fun v => negb (User.id v =? User.id u)
                                && same_uuid (User.sm8Uuid v) uuid) (users db) = false).
  { destruct (existsb _ (users db)) eqn:E; [|reflexivity]. exfalso.
    apply existsb_exists in E as (v & Hin & Hv).
    apply andb_true_iff in Hv as [Hid Hsame].
    apply negb_true_iff, Z.eqb_neq in Hid. apply Hid. apply Hfree; [assumption|].
    destruct (User.sm8Uuid v) as [x|]; [|discriminate].
    simpl in Hsame. apply String.eqb_eq in Hsame. now subst. }
  rewrite E; simpl. rewrite Hsign; simpl.
  unfold prisma.session_create; simpl.
  assert (E2 : existsb (fun s => (Session.token s =? token)%string) (sessions db) = false).
  { destruct (existsb _ (sessions db)) eqn:E2; [|reflexivity]. exfalso.
    apply existsb_exists in E2 as (s & Hin & Hs). apply String.eqb_eq in Hs.
    now apply (Hfresh s Hin). }
  rewrite E2.
  match goal with
  | |- context [has_user (User.id u) ?d] =>
      assert (E3 : has_user (User.id u) d = true)
  end.
  { rewrite <- Hknown. apply has_user_ids. simpl. rewrite map_map.
    apply map_ext. intros a. now destruct (User.id a =? User.id u). }
  rewrite E3. reflexivity.
Qed.

Lemma login_succeeds_witness :
  login (Sample.env_with Sample.contacts) Sample.alice_login Sample.db0
  = (mkResponse 200 (MessageBody "Logged in successful")
       (SetCookie "sid" "jwt:0a9b8c7d-6e5f-4a3b-8c2d-1e0f9a8b7c6d:1700000000"
                  true true "lax" 604800000),
     mkDb [User.mk 1 "Alice" "alice@example.com" "0400000001" "hash:wonderland"
                   (Some Sample.alice_company);
           Sample.bob]
          [Session.mk 1 "jwt:0a9b8c7d-6e5f-4a3b-8c2d-1e0f9a8b7c6d:1700000000"
                      1700003600000]
          [] 0).
Proof.
  apply (login_succeeds
           (Sample.env_with Sample.contacts) Sample.alice_login Sample.db0 Sample.alice
           "alice@example.com" "wonderland"
           (Sample.json_ok
              (JArr [JObj [("uuid", JStr "5c0ffee0-0000-4000-8000-000000000001");
                           ("company_uuid", JStr Sample.alice_company)]]))
           (JArr [JObj [("uuid", JStr "5c0ffee0-0000-4000-8000-000000000001");
                        ("company_uuid", JStr Sample.alice_company)]])
           (Some (JObj [("uuid", JStr "5c0ffee0-0000-4000-8000-000000000001");
                        ("company_uuid", JStr Sample.alice_company)]))
           Sample.alice_company
           "jwt:0a9b8c7d-6e5f-4a3b-8c2d-1e0f9a8b7c6d:1700000000");
    try reflexivity; try discriminate.
  - now split.
  - intros v Hin Hv. simpl in Hin.
    repeat (destruct Hin as [<-|Hin]; [first [reflexivity | discriminate]|]).
    contradiction.
  - intros s [].
Defined.

Lemma user_update_sm8Uuid_next (id : Z) (uuid : string) (db db1 : Db) :
  prisma.user_update_sm8Uuid id uuid db = (Next tt, db1) ->
  users db1 = map (fun v => if User.id v =? id
                            then User.mk (User.id v) (User.name v) (User.email v)
                                         (User.phone v) (User.password v) (Some uuid)
                            else v) (users db) /\
  sessions db1 = sessions db /\
  bookingMessages db1 = bookingMessages db /\
  bookingMessageSeq db1 = bookingMessageSeq db /\
  (forall v, In v (users db) -> User.sm8Uuid v = Some uuid -> User.id v = id).
Proof.
  unfold prisma.user_update_sm8Uuid.
  destruct (negb (has_user id db)); [discriminate|].
  destruct (existsb _ (users db)) eqn:E; [discriminate|].
  intros H. injection H as <-. simpl. repeat split.
  intros v Hin Hv.
  destruct (Z.eq_dec (User.id v) id) as [|Hne]; [assumption|]. exfalso.
  assert (existsb (fun u => negb (User.id u =? id) && same_uuid (User.sm8Uuid u) uuid)
                  (users db) = true); [|congruence].
  apply existsb_exists. exists v. split; [assumption|].
  apply andb_true_iff. split.
  - apply negb_true_iff. now apply Z.eqb_neq.
  - rewrite Hv. simpl. apply String.eqb_refl.
Qed.

(** The ways a login ends: nothing written and a 404 or 500; the user's
    [sm8Uuid] written and a 500; or that and a session row, and a 200. *)
Lemma login_cases (env : Env) (req : Request) (db : Db) :
  (snd (login env req db) = db /\
   (status (fst (login env req db)) = 404 \/ status (fst (login env req db)) = 500)) \/
  exists u uuid db1,
    In u (users db) /\
    prisma.user_update_sm8Uuid (User.id u) uuid db = (Next tt, db1) /\
    ((snd (login env req db) = db1 /\ status (fst (login env req db)) = 500) \/
     (status (fst (login env req db)) = 200 /\
      exists s, prisma.session_create s db1 = (Next s, snd (login env req db)) /\
                Session.userId s = User.id u)).
Proof.
  unfold login. run_handler.
  destruct (js_get (req_body req) "identifier") as [identifier|]; simpl;
    [|now left; auto].
  destruct (js_get (req_body req) "password") as [password|]; simpl;
    [|now left; auto].
  destruct (where_user_flow env where_identifier identifier db) as [[w ->]| ->];
    [|now left; auto].
  destruct (find _ (users db)) as [u|] eqn:Hu; simpl; [|now left; auto].
  destruct (compare_password_flow env password (User.password u) db)
    as [(p & _ & ->)|[_ ->]]; [|now left; auto].
  destruct (bcrypt_compare env p _); simpl; [|now left; auto].
  destruct (fetch env _ _) as [resp|]; simpl; [|now left; auto].
  destruct (fr_ok resp); simpl; [|now left; auto].
  destruct (fr_json resp) as [client|]; simpl; [|now left; auto].
  destruct (js_get (Some client) "0") as [first|]; simpl; [|now left; auto].
  destruct (js_get first "company_uuid") as [clientUuid|]; simpl; [|now left; auto].
  destruct (truthy clientUuid); simpl; [|now left; auto].
  destruct clientUuid as [[| | |uuid| |]|]; simpl; try (now left; auto).
  destruct (prisma.user_update_sm8Uuid (User.id u) uuid db) as [f1 db1] eqn:Hupd.
  destruct (user_update_sm8Uuid_flow _ _ _ _ _ Hupd) as [->|[-> ->]];
    [|now left; auto].
  right. exists u, uuid, db1.
  split; [now apply find_some in Hu as [Hu _]|]. split; [exact Hupd|].
  destruct (jwt_sign env _ _ _ _) as [token|]; simpl; [|now left].
  destruct (prisma.session_create _ db1) as [f2 db2] eqn:Hcreate.
  destruct (session_create_flow _ _ _ _ Hcreate) as [[-> _]|[-> ->]];
    [|now left].
  right. split; [reflexivity|]. eexists. split; [exact Hcreate | reflexivity].
Qed.

(** X9. What a login never does, whatever its outcome: it writes no
    booking message, it changes no user's id, name, email, phone or
    password, and it adds a session row only when it answers 200, and then
    exactly one.  Its status is 200, 404 or 500. *)
Theorem login_frame (env : Env) (req : Request) (db : Db) :
  bookingMessages (snd (login env req db)) = bookingMessages db /\
  bookingMessageSeq (snd (login env req db)) = bookingMessageSeq db /\
  map user_identity (users (snd (login env req db))) = map user_identity (users db) /\
  ((status (fst (login env req db)) = 200 /\
    exists s, sessions (snd (login env req db)) = sessions db ++ [s]) \/
   (status (fst (login env req db)) <> 200 /\
    sessions (snd (login env req db)) = sessions db)) /\
  (status (fst (login env req db)) = 200 \/
   status (fst (login env req db)) = 404 \/
   status (fst (login env req db)) = 500).
Proof.
  destruct (login_cases env req db)
    as [[-> Hst]|(u & uuid & db1 & _ & Hupd & Hend)].
  - repeat split; try reflexivity; [right; split; [lia | reflexivity] | lia].
  - destruct (user_update_sm8Uuid_next _ _ _ _ Hupd) as (Hu & Hs & Hm & Hq & _).
    assert (Hid : map user_identity (users db1) = map user_identity (users db)).
    { rewrite Hu, map_map. apply map_ext. intros a.
      now destruct (User.id a =? User.id u). }
    destruct Hend as [[-> Hst]|(Hst & s & Hcreate & _)].
    + repeat split; try assumption; [right; split; [lia | assumption] | lia].
    + destruct (session_create_flow _ _ _ _ Hcreate)
        as [(_ & Hs' & Hu' & Hm' & Hq' & _)|[Habs _]]; [|discriminate].
      repeat split; try congruence; [|lia].
      left. split; [assumption|]. exists s. congruence.
Qed.

Lemma user_update_sm8Uuid_unique (id : Z) (uuid : string) (db db1 : Db) :
  prisma.user_update_sm8Uuid id uuid db = (Next tt, db1) ->
  sm8Uuid_unique db -> sm8Uuid_unique db1.
Proof.
  intros Hupd Huniq.
  destruct (user_update_sm8Uuid_next _ _ _ _ Hupd) as (Hu & _ & _ & _ & Hfree).
  assert (Hshape : forall v, In v (users db1) ->
            exists v0, In v0 (users db) /\ User.id v = User.id v0 /\
                       ((User.id v0 = id /\ User.sm8Uuid v = Some uuid) \/
                        (User.id v0 <> id /\ User.sm8Uuid v = User.sm8Uuid v0))).
  { intros v Hin. rewrite Hu in Hin. apply in_map_iff in Hin as (v0 & <- & Hin0).
    exists v0. split; [assumption|].
    destruct (Z.eqb_spec (User.id v0) id); simpl; auto. }
  intros a b x Ha Hb Hax Hbx.
  destruct (Hshape a Ha) as (a0 & Ha0 & Hida & [[Ea Sa]|[Ea Sa]]);
    destruct (Hshape b Hb) as (b0 & Hb0 & Hidb & [[Eb Sb]|[Eb Sb]]).
  - congruence.
  - rewrite Sa in Hax. injection Hax as <-. rewrite Sb in Hbx.
    pose proof (Hfree b0 Hb0 Hbx). congruence.
  - rewrite Sb in Hbx. injection Hbx as <-. rewrite Sa in Hax.
    pose proof (Hfree a0 Ha0 Hax). congruence.
  - rewrite Sa in Hax. rewrite Sb in Hbx. rewrite Hida, Hidb.
    now apply (Huniq a0 b0 x).
Qed.

(** X10. Login keeps the unique index on [sm8Uuid]: if no two users
    shared a ServiceM8 company before, none do after, whatever the outcome
    of the login. *)
Theorem login_keeps_sm8Uuid_unique (env : Env) (req : Request) (db : Db) :
  sm8Uuid_unique db -> sm8Uuid_unique (snd (login env req db)).
Proof.
  intros Huniq.
  destruct (login_cases env req db)
    as [[-> _]|(u & uuid & db1 & _ & Hupd & Hend)]; [assumption|].
  pose proof (user_update_sm8Uuid_unique _ _ _ _ Hupd Huniq) as H1.
  destruct Hend as [[-> _]|(_ & s & Hcreate & _)]; [assumption|].
  destruct (session_create_flow _ _ _ _ Hcreate)
    as [(_ & _ & Hu' & _)|[Habs _]]; [|discriminate].
  unfold sm8Uuid_unique in *. now rewrite Hu'.
Qed.

Lemma db0_sm8Uuid_unique : sm8Uuid_unique Sample.db0.
Proof.
  intros a b x Ha Hb Hax Hbx. simpl in Ha, Hb.
  destruct Ha as [<-|[<-|[]]]; destruct Hb as [<-|[<-|[]]];
    first [reflexivity | discriminate].
Qed.

Lemma login_keeps_sm8Uuid_unique_witness :
  sm8Uuid_unique
    (snd (login (Sample.env_with Sample.contacts) Sample.alice_login Sample.db0)).
Proof.
  apply (login_keeps_sm8Uuid_unique (Sample.env_with Sample.contacts)
                                    Sample.alice_login Sample.db0).
  exact db0_sm8Uuid_unique.
Defined.

Lemma find_user_map (f : User.t -> User.t) (l : list User.t) (u0 : User.t) :
  (forall v, User.id (f v) = User.id v) ->
  NoDup (map User.id l) -> In u0 l ->
  find (fun v => User.id v =? User.id u0) (map f l) = Some (f u0).
Proof.
  intros Hf. induction l as [|a l IH]; simpl; intros Hnd Hin; [contradiction|].
  inversion Hnd as [|? ? Hnotin Hnd']; subst. rewrite Hf.
  destruct Hin as [->|Hin].
  - now rewrite Z.eqb_refl.
  - destruct (Z.eqb_spec (User.id a) (User.id u0)) as [E|_]; [|now apply IH].
    exfalso. apply Hnotin. rewrite E. now apply in_map.
Qed.

Lemma find_snoc_fresh (l : list Session.t) (s : Session.t) :
  (forall x, In x l -> Session.token x <> Session.token s) ->
  find (fun x => (Session.token x =? Session.token s)%string) (l ++ [s]) = Some s.
Proof.
  induction l as [|a l IH]; simpl; intros H.
  - now rewrite String.eqb_refl.
  - destruct (String.eqb_spec (Session.token a) (Session.token s)) as [E|_].
    + elim (H a); [now left | assumption].
    + apply IH. intros x Hin. apply H. now right.
Qed.

(** X11. Login and the session it opens.  After a login answered 200
    there are a user [u0] of the store as it was, matched by the
    identifier of the body when that is a string, and a company [uuid],
    the [company_uuid] of the first record of the contact list that
    ServiceM8 returned, with a success status, for [u0]'s email; the
    user as stored after the login is [u0] with [sm8Uuid] set to that
    company.  The token of the cookie it sets (when not empty) is
    accepted by the auth middleware, which attaches that stored user to
    the request; and the session check answers 200 with that user's
    profile whenever the verifier accepts the token. *)
Theorem login_then_authenticated (env : Env) (req : Request) (db : Db) :
  db_wf db ->
  status (fst (login env req db)) = 200 ->
  exists u0 u token uuid,
    cookie (fst (login env req db))
    = SetCookie (COOKIE_NAME env) token true
                (NODE_ENV env =? "production")%string "lax" 604800000 /\
    In u0 (users db) /\
    (forall identifier,
        js_get (req_body req) "identifier" = Normal (Some (JStr identifier)) ->
        where_identifier identifier u0 = true) /\
    (exists resp client first,
        fetch env (contact_url u0) (api_headers env) = Some resp /\
        fr_ok resp = true /\
        fr_json resp = Some client /\
        js_get (Some client) "0" = Normal first /\
        js_get first "company_uuid" = Normal (Some (JStr uuid))) /\
    u = User.mk (User.id u0) (User.name u0) (User.email u0) (User.phone u0)
                (User.password u0) (Some uuid) /\
    In u (users (snd (login env req db))) /\
    (token <> "" ->
     (forall req',
         assoc (COOKIE_NAME env) (cookies req') = Some (JStr token) ->
         exists req1,
           authMiddleware env req' (snd (login env req db))
           = (Next req1, snd (login env req db)) /\
           user req1 = Some u /\
           cookies req1 = cookies req' /\
           authorization req1 = authorization req' /\
           params_uuid req1 = params_uuid req' /\
           req_body req1 = req_body req') /\
     (forall req' payload,
         presented_token env req' = Some (JStr token) ->
         jwt_verify env token (JWT_SECRET env) (Date_now env) = Some payload ->
         check_session env req' (snd (login env req db))
         = (mkResponse 200
              (SessionBody "Session valid"
                 (mkPublicUser (User.id u) (User.name u) (User.email u) (User.phone u)))
              NoCookie,
            snd (login env req db)))).
Proof.
  intros Hwf H200.
  destruct (login env req db) as [r db'] eqn:Hlogin. simpl in *.
  destruct (login_success_inv env req db db' r Hlogin H200)
    as (u0 & uuid & token & db1 & (ident & w & Hid & Hw & Hfind) & Hcontact
        & Hupd & Hsign & Hcreate & ->).
  destruct (user_update_sm8Uuid_next _ _ _ _ Hupd) as (Hu1 & Hs1 & _).
  destruct (session_create_flow _ _ _ _ Hcreate)
    as [(_ & Hs' & Hu' & _ & _ & _ & Hfresh)|[Habs _]]; [|discriminate].
  simpl in Hfresh.
  set (f := fun v => if User.id v =? User.id u0
                     then User.mk (User.id v) (User.name v) (User.email v)
                                  (User.phone v) (User.password v) (Some uuid)
                     else v) in *.
  pose proof (find_some _ _ Hfind) as [Hin0 Hwhere].
  assert (Hfid : forall v, User.id (f v) = User.id v)
    by (intros v; unfold f; now destruct (User.id v =? User.id u0)).
  assert (Hfu : f u0 = User.mk (User.id u0) (User.name u0) (User.email u0)
                               (User.phone u0) (User.password u0) (Some uuid))
    by (unfold f; now rewrite Z.eqb_refl).
  assert (Huser : find_user (User.id u0) db' = Some (f u0)).
  { unfold find_user. rewrite Hu', Hu1.
    apply find_user_map; [exact Hfid | apply Hwf | exact Hin0]. }
  assert (Hsess : find (fun x => (Session.token x =? token)%string) (sessions db')
                  = Some (Session.mk (User.id u0) token (Date_now env + 60 * 60 * 1000))).
  { rewrite Hs'.
    apply (find_snoc_fresh (sessions db1)
             (Session.mk (User.id u0) token (Date_now env + 60 * 60 * 1000))).
    exact Hfresh. }
  exists u0, (f u0), token, uuid.
  split; [reflexivity|].
  split; [exact Hin0|].
  split.
  { intros identifier Hi. rewrite Hi in Hid. injection Hid as <-.
    unfold prisma.where_user, ret in Hw. injection Hw as <-. exact Hwhere. }
  split; [exact Hcontact|].
  split; [exact Hfu|].
  split; [rewrite Hu', Hu1; now apply in_map|].
  intros Hne. split.
  - intros req' Hc. exists (with_user req' (f u0)).
    split; [|repeat split].
    apply authMiddleware_accepts
      with (token := token)
           (s := Session.mk (User.id u0) token (Date_now env + 60 * 60 * 1000));
      [rewrite Hc; now apply when_truthy_string | exact Hsess | exact Huser].
  - intros req' payload Hp Hv.
    unfold check_session. run_handler. rewrite Hp, Hv, Hsess. simpl.
    now rewrite Huser.
Qed.

Lemma db0_wf : db_wf Sample.db0.
Proof. solve_db_wf. Qed.

Lemma login_then_authenticated_witness :
  exists u0 u token uuid,
    cookie (fst (login (Sample.env_with Sample.contacts) Sample.alice_login Sample.db0))
    = SetCookie "sid" token true true "lax" 604800000 /\
    In u0 (users Sample.db0) /\
    (forall identifier,
        js_get (req_body Sample.alice_login) "identifier"
        = Normal (Some (JStr identifier)) ->
        where_identifier identifier u0 = true) /\
    (exists resp client first,
        fetch (Sample.env_with Sample.contacts) (contact_url u0)
              (api_headers (Sample.env_with Sample.contacts)) = Some resp /\
        fr_ok resp = true /\
        fr_json resp = Some client /\
        js_get (Some client) "0" = Normal first /\
        js_get first "company_uuid" = Normal (Some (JStr uuid))) /\
    u = User.mk (User.id u0) (User.name u0) (User.email u0) (User.phone u0)
                (User.password u0) (Some uuid) /\
    In u (users (snd (login (Sample.env_with Sample.contacts) Sample.alice_login
                            Sample.db0))) /\
    (token <> "" ->
     (forall req',
         assoc "sid" (cookies req') = Some (JStr token) ->
         exists req1,
           authMiddleware (Sample.env_with Sample.contacts) req'
                          (snd (login (Sample.env_with Sample.contacts)
                                      Sample.alice_login Sample.db0))
           = (Next req1,
              snd (login (Sample.env_with Sample.contacts) Sample.alice_login
                         Sample.db0)) /\
           user req1 = Some u /\
           cookies req1 = cookies req' /\
           authorization req1 = authorization req' /\
           params_uuid req1 = params_uuid req' /\
           req_body req1 = req_body req') /\
     (forall req' payload,
         presented_token (Sample.env_with Sample.contacts) req' = Some (JStr token) ->
         jwt_verify (Sample.env_with Sample.contacts) token "s3cret" 1700000000000
         = Some payload ->
         check_session (Sample.env_with Sample.contacts) req'
                       (snd (login (Sample.env_with Sample.contacts)
                                   Sample.alice_login Sample.db0))
         = (mkResponse 200
              (SessionBody "Session valid"
                 (mkPublicUser (User.id u) (User.name u) (User.email u) (User.phone u)))
              NoCookie,
            snd (login (Sample.env_with Sample.contacts) Sample.alice_login
                       Sample.db0)))).
Proof.
  apply (login_then_authenticated (Sample.env_with Sample.contacts)
                                  Sample.alice_login Sample.db0).
  - exact db0_wf.
  - reflexivity.
Defined.

(** ** Routes that only read *)

Lemma mapM_db {A B : Type} (f : A -> Handler B) (l : list A) (db : Db) :
  (forall x d, snd (f x d) = d) -> snd (mapM f l db) = db.
Proof.
  intros Hf. revert db. induction l as [|x l IH]; intros db; simpl; [reflexivity|].
  unfold bind at 1. specialize (Hf x db).
  destruct (f x db) as [[y|r|] d]; simpl in Hf; subst d; try reflexivity.
  unfold bind. specialize (IH db).
  destruct (mapM f l db) as [[ys|r|] d]; simpl in IH; subst d; reflexivity.
Qed.

Lemma with_attachments_db (env : Env) (job : Json) (db : Db) :
  snd (with_attachments env job db) = db.
Proof.
  unfold with_attachments, fetchBookingAttachments. run_handler.
  destruct (js_get (Some job) "uuid") as [uuid|]; simpl; [|reflexivity].
  destruct (fetch env _ _) as [r|]; simpl; [|reflexivity].
  destruct (fr_ok r); simpl; [|reflexivity].
  destruct (fr_json r); reflexivity.
Qed.

Lemma protected_db (env : Env) (h : Env -> Request -> Db -> Response * Db)
      (req : Request) (db : Db) :
  (forall r d, snd (h env r d) = d) -> snd (protected env h req db) = db.
Proof.
  intros Hh. unfold protected, guarded.
  pose proof (authMiddleware_db env req db) as H1.
  destruct (authMiddleware env req db) as [[req1|r|] d]; simpl in H1; subst d;
    try reflexivity.
  pose proof (authMiddleware_db env req1 db) as H2.
  destruct (authMiddleware env req1 db) as [[req2|r|] d]; simpl in H2; subst d;
    try reflexivity.
  apply Hh.
Qed.

Lemma get_messages_handler_db (env : Env) (req : Request) (db : Db) :
  snd (get_messages_handler env req db) = db.
Proof.
  unfold get_messages_handler, try_catch, bind, prisma.bookingMessage_findMany, ret.
  simpl.
  match goal with |- context [mapM ?f ?l db] =>
    pose proof (mapM_db f l db) as H; destruct (mapM f l db) as [[ys|r|] d]
  end; simpl in *; apply H; intros x d0; unfold prisma.include_author;
    destruct (find_user _ d0); reflexivity.
Qed.

Lemma list_jobs_handler_db (env : Env) (req : Request) (db : Db) :
  snd (list_jobs_handler env req db) = db.
Proof.
  unfold list_jobs_handler. run_handler.
  destruct (user req) as [u|]; simpl; [|reflexivity].
  destruct (nonempty (User.sm8Uuid u)) as [sm8|]; simpl; [|reflexivity].
  destruct (fetch env _ _) as [resp|]; simpl; [|reflexivity].
  destruct (fr_ok resp); simpl; [|reflexivity].
  destruct (fr_json resp) as [[| | | |items|]|]; simpl; try reflexivity.
  pose proof (mapM_db (with_attachments env) items db (with_attachments_db env)) as H.
  destruct (mapM (with_attachments env) items db) as [[ys|r|] d]; simpl in *;
    exact H.
Qed.

(** X12. The reading routes never write: the session check, the listing
    of a booking's messages, the grouped listing, the job listing and the
    attachment proxy leave the store exactly as it was, for every request
    and every answer of the outside world, failures included. *)
Theorem reading_routes_leave_store
        (env : Env)
        (fetch_file : string -> list (string * string) -> option FileResponse)
        (req : Request) (db : Db) :
  snd (check_session env req db) = db /\
  snd (get_messages env req db) = db /\
  snd (list_bookings env req db) = db /\
  snd (list_jobs env req db) = db /\
  snd (view_attachment env fetch_file req db) = db.
Proof.
  split; [|split; [|split; [|split]]].
  - unfold check_session. run_handler.
    destruct (presented_token env req) as [[| | |token| |]|]; try reflexivity.
    destruct (jwt_verify env token _ _); [|reflexivity].
    destruct (find _ (sessions db)) as [s|]; simpl; [|reflexivity].
    destruct (find_user _ db); reflexivity.
  - apply protected_db. intros r d. apply get_messages_handler_db.
  - apply protected_db. intros r d. reflexivity.
  - apply protected_db. intros r d. apply list_jobs_handler_db.
  - unfold view_attachment, guarded_attachment.
    pose proof (authMiddleware_db env req db) as H1.
    destruct (authMiddleware env req db) as [[req1|r|] d]; simpl in H1; subst d;
      try reflexivity.
    pose proof (authMiddleware_db env req1 db) as H2.
    destruct (authMiddleware env req1 db) as [[req2|r|] d]; simpl in H2; subst d;
      try reflexivity.
    unfold view_attachment_handler.
    destruct (fetch_file _ _) as [r|]; [|reflexivity].
    destruct (negb (file_ok r)); [reflexivity|].
    destruct (file_body r); reflexivity.
Qed.

(** ** Every route keeps the schema *)

Lemma protected_wf (env : Env) (h : Env -> Request -> Db -> Response * Db)
      (req : Request) (db : Db) :
  (forall r d, db_wf d -> db_wf (snd (h env r d))) ->
  db_wf db -> db_wf (snd (protected env h req db)).
Proof.
  intros Hh Hwf. unfold protected, guarded.
  pose proof (authMiddleware_db env req db) as H1.
  destruct (authMiddleware env req db) as [[req1|r|] d]; simpl in H1; subst d;
    try assumption.
  pose proof (authMiddleware_db env req1 db) as H2.
  destruct (authMiddleware env req1 db) as [[req2|r|] d]; simpl in H2; subst d;
    try assumption.
  now apply Hh.
Qed.

(** X13. The writing routes keep the constraints of the schema: after a
    login, a logout or a message sent, whatever the outcome, user ids and
    session tokens are still unique and every session and every message
    still belongs to a stored user. *)
Theorem writing_routes_keep_schema (env : Env) (req : Request) (db : Db) :
  db_wf db ->
  db_wf (snd (login env req db)) /\
  db_wf (snd (logout env req db)) /\
  db_wf (snd (send_message env req db)).
Proof.
  intros Hwf. split; [|split].
  - now apply login_wf.
  - now apply logout_wf.
  - apply protected_wf; [|assumption].
    intros r d. apply send_message_handler_wf.
Qed.

Lemma writing_routes_keep_schema_witness :
  db_wf (snd (login (Sample.env_with Sample.contacts) Sample.alice_login Sample.db0)) /\
  db_wf (snd (logout (Sample.env_with Sample.contacts) Sample.alice_login Sample.db0)) /\
  db_wf (snd (send_message (Sample.env_with Sample.contacts) Sample.alice_login
                           Sample.db0)).
Proof.
  apply (writing_routes_keep_schema (Sample.env_with Sample.contacts)
                                    Sample.alice_login Sample.db0).
  exact db0_wf.
Defined.

(** ** The attachment proxy *)

Lemma view_attachment_runs (env : Env)
      (fetch_file : string -> list (string * string) -> option FileResponse)
      (req : Request) (db : Db) (u : User.t) :
  authMiddleware env req db = (Next (with_user req u), db) ->
  view_attachment env fetch_file req db
  = view_attachment_handler env fetch_file (with_user req u) db.
Proof.
  intros H. unfold view_attachment, guarded_attachment. rewrite H.
  now rewrite (authMiddleware_again _ _ _ _ H).
Qed.

(** X14. The attachment proxy, for an authenticated caller: an upstream
    response that is not ok is passed on with its own status and its body
    as text; an ok response is piped under its own content type, or under
    "application/octet-stream" when it has none (or an empty one); a
    rejected request is answered 500 "Failed to fetch attachment". *)
Theorem view_attachment_spec
        (env : Env)
        (fetch_file : string -> list (string * string) -> option FileResponse)
        (req : Request) (db : Db) (u : User.t) :
  authMiddleware env req db = (Next (with_user req u), db) ->
  (fetch_file (file_url (params_uuid req)) [("X-Api-Key", SERVICE_M8_API_KEY env)] = None ->
   view_attachment env fetch_file req db
   = (ReplyJson (mkResponse 500 (ErrorBody "Failed to fetch attachment") NoCookie), db)) /\
  (forall r,
      fetch_file (file_url (params_uuid req)) [("X-Api-Key", SERVICE_M8_API_KEY env)]
      = Some r ->
      file_ok r = false ->
      view_attachment env fetch_file req db
      = (ReplySend (file_status r) (file_text r), db)) /\
  (forall r content,
      fetch_file (file_url (params_uuid req)) [("X-Api-Key", SERVICE_M8_API_KEY env)]
      = Some r ->
      file_ok r = true ->
      file_body r = Some content ->
      (forall ct, file_content_type r = Some ct -> ct <> "" ->
                  view_attachment env fetch_file req db = (ReplyPipe ct content, db)) /\
      (nonempty (file_content_type r) = None ->
       view_attachment env fetch_file req db
       = (ReplyPipe "application/octet-stream" content, db))).
Proof.
  intros Hauth. rewrite (view_attachment_runs _ _ _ _ _ Hauth).
  unfold view_attachment_handler. simpl.
  split; [|split].
  - intros H. now rewrite H.
  - intros r H Hok. now rewrite H, Hok.
  - intros r content H Hok Hb. rewrite H, Hok, Hb. simpl. split.
    + intros ct Hct Hne.
      assert (E : nonempty (file_content_type r) = Some ct)
        by (apply nonempty_Some; now split).
      now rewrite E.
    + intros E. now rewrite E.
Qed.

Lemma view_attachment_spec_witness :
  view_attachment (Sample.env_with []) (Sample.serve_files Sample.files)
                  (Sample.alice_request Sample.lost_uuid None) Sample.live_db
  = (ReplySend 404 "Not found", Sample.live_db) /\
  view_attachment (Sample.env_with []) (Sample.serve_files Sample.files)
                  (Sample.alice_request Sample.photo_uuid None) Sample.live_db
  = (ReplyPipe "image/jpeg" "JFIF...", Sample.live_db) /\
  view_attachment (Sample.env_with []) (Sample.serve_files Sample.files)
                  (Sample.alice_request Sample.scan_uuid None) Sample.live_db
  = (ReplyPipe "application/octet-stream" "%PDF...", Sample.live_db).
Proof.
  split; [|split].
  - apply (proj1 (proj2 (view_attachment_spec
                           (Sample.env_with []) (Sample.serve_files Sample.files)
                           (Sample.alice_request Sample.lost_uuid None)
                           Sample.live_db Sample.alice eq_refl))
                 (mkFileResponse false 404 (Some "text/plain") (Some "Not found")));
      reflexivity.
  - apply (proj1 (proj2 (proj2 (view_attachment_spec
                                  (Sample.env_with []) (Sample.serve_files Sample.files)
                                  (Sample.alice_request Sample.photo_uuid None)
                                  Sample.live_db Sample.alice eq_refl))
                        (mkFileResponse true 200 (Some "image/jpeg") (Some "JFIF..."))
                        "JFIF..." eq_refl eq_refl eq_refl)
                 "image/jpeg"); [reflexivity | discriminate].
  - apply (proj2 (proj2 (proj2 (view_attachment_spec
                                  (Sample.env_with []) (Sample.serve_files Sample.files)
                                  (Sample.alice_request Sample.scan_uuid None)
                                  Sample.live_db Sample.alice eq_refl))
                        (mkFileResponse true 200 None (Some "%PDF..."))
                        "%PDF..." eq_refl eq_refl eq_refl)).
    reflexivity.
Defined.

(** X15. The attachment proxy asks ServiceM8 nothing for a request
    without a session: with no cookie or a falsy one, with a cookie
    holding a string token that no session row holds, and with a truthy
    cookie that is not a string, the answer is the middleware's (401,
    401 and 500), the same whatever ServiceM8 would have served. *)
Theorem view_attachment_rejects
        (env : Env)
        (fetch_file : string -> list (string * string) -> option FileResponse)
        (req : Request) (db : Db) :
  (truthy (assoc (COOKIE_NAME env) (cookies req)) = false ->
   view_attachment env fetch_file req db
   = (ReplyJson (mkResponse 401 (ErrorBody "Unauthorized: No token provided") NoCookie),
      db)) /\
  (forall token,
      assoc (COOKIE_NAME env) (cookies req) = Some (JStr token) ->
      token <> "" ->
      (forall s, In s (sessions db) -> Session.token s <> token) ->
      view_attachment env fetch_file req db
      = (ReplyJson (mkResponse 401 (ErrorBody "Unauthorized: Invalid session") NoCookie),
         db)) /\
  (forall v,
      assoc (COOKIE_NAME env) (cookies req) = Some v ->
      truthy (Some v) = true ->
      (forall t, v <> JStr t) ->
      view_attachment env fetch_file req db
      = (ReplyJson (mkResponse 500 (ErrorBody "Internal server error") NoCookie), db)).
Proof.
  split; [|split].
  - intros H. unfold view_attachment, guarded_attachment.
    now rewrite (authMiddleware_no_token _ _ _ H).
  - intros token Hc Hne Hno. unfold view_attachment, guarded_attachment.
    now rewrite (authMiddleware_no_session _ _ _ _ Hc Hne Hno).
  - intros v Hc Ht Hns. unfold view_attachment, guarded_attachment.
    now rewrite (authMiddleware_cookie_not_string _ _ _ _ Hc Ht Hns).
Qed.

Lemma view_attachment_rejects_witness :
  view_attachment (Sample.env_with []) (Sample.serve_files Sample.files)
                  (Sample.bearer_request (Session.token Sample.alice_session))
                  Sample.live_db
  = (ReplyJson (mkResponse 401 (ErrorBody "Unauthorized: No token provided") NoCookie),
     Sample.live_db) /\
  view_attachment (Sample.env_with []) (Sample.serve_files Sample.files)
                  (Sample.cookie_request "jwt:unknown") Sample.live_db
  = (ReplyJson (mkResponse 401 (ErrorBody "Unauthorized: Invalid session") NoCookie),
     Sample.live_db) /\
  view_attachment (Sample.env_with []) (Sample.serve_files Sample.files)
                  (Sample.json_cookie_request (JObj [])) Sample.live_db
  = (ReplyJson (mkResponse 500 (ErrorBody "Internal server error") NoCookie),
     Sample.live_db).
Proof.
  split; [|split].
  - apply (proj1 (view_attachment_rejects
                    (Sample.env_with []) (Sample.serve_files Sample.files)
                    (Sample.bearer_request (Session.token Sample.alice_session))
                    Sample.live_db)).
    reflexivity.
  - apply (proj1 (proj2 (view_attachment_rejects
                           (Sample.env_with []) (Sample.serve_files Sample.files)
                           (Sample.cookie_request "jwt:unknown") Sample.live_db))
                 "jwt:unknown").
    + reflexivity.
    + discriminate.
    + intros s Hin. simpl in Hin.
      repeat (destruct Hin as [<-|Hin]; [discriminate|]). contradiction.
  - apply (proj2 (proj2 (view_attachment_rejects
                           (Sample.env_with []) (Sample.serve_files Sample.files)
                           (Sample.json_cookie_request (JObj [])) Sample.live_db))
                 (JObj [])).
    + reflexivity.
    + reflexivity.
    + discriminate.
Defined.

(** ** The job listing: what is not swallowed *)

(** X16. The job listing, for an authenticated caller: a user without a
    linked company (no [sm8Uuid], or an empty one) is answered 400 and
    ServiceM8 is not asked; a job query that is not ok is answered 500
    "Failed to fetch jobs from ServiceM8"; a rejected job query, a body
    that is not JSON and a JSON body that is not an array are answered 500
    "Internal server error". *)
Theorem list_jobs_errors (env : Env) (req : Request) (db : Db) (u : User.t) :
  authMiddleware env req db = (Next (with_user req u), db) ->
  (nonempty (User.sm8Uuid u) = None ->
   list_jobs env req db
   = (mkResponse 400 (ErrorBody "ServiceM8 UUID not found for user") NoCookie, db)) /\
  (forall sm8Uuid,
      nonempty (User.sm8Uuid u) = Some sm8Uuid ->
      (fetch env (jobs_url sm8Uuid) (api_headers env) = None ->
       list_jobs env req db
       = (mkResponse 500 (ErrorBody "Internal server error") NoCookie, db)) /\
      (forall resp,
          fetch env (jobs_url sm8Uuid) (api_headers env) = Some resp ->
          (fr_ok resp = false ->
           list_jobs env req db
           = (mkResponse 500 (ErrorBody "Failed to fetch jobs from ServiceM8") NoCookie,
              db)) /\
          (fr_ok resp = true ->
           fr_json resp = None ->
           list_jobs env req db
           = (mkResponse 500 (ErrorBody "Internal server error") NoCookie, db)) /\
          (forall j,
              fr_ok resp = true ->
              fr_json resp = Some j ->
              (forall items, j <> JArr items) ->
              list_jobs env req db
              = (mkResponse 500 (ErrorBody "Internal server error") NoCookie, db)))).
Proof.
  intros Hauth. unfold list_jobs. rewrite (protected_runs _ _ _ _ _ Hauth).
  unfold list_jobs_handler. run_handler. simpl.
  split.
  - intros H. now rewrite H.
  - intros sm8 H. rewrite H. split.
    + intros Hf. now rewrite Hf.
    + intros resp Hf. rewrite Hf; simpl. split; [|split].
      * intros Hok. now rewrite Hok.
      * intros Hok Hj. rewrite Hok; simpl. now rewrite Hj.
      * intros j Hok Hj Hna. rewrite Hok; simpl. rewrite Hj; simpl.
        destruct j; try reflexivity. now elim (Hna items).
Qed.

Lemma list_jobs_errors_witness :
  list_jobs (Sample.env_with Sample.listing_table)
            (Sample.alice_request "" None) Sample.live_db
  = (mkResponse 400 (ErrorBody "ServiceM8 UUID not found for user") NoCookie,
     Sample.live_db) /\
  list_jobs (Sample.env_with Sample.jobs_down) Sample.bob_request Sample.jobs_db
  = (mkResponse 500 (ErrorBody "Failed to fetch jobs from ServiceM8") NoCookie,
     Sample.jobs_db).
Proof.
  split.
  - apply (proj1 (list_jobs_errors (Sample.env_with Sample.listing_table)
                                   (Sample.alice_request "" None) Sample.live_db
                                   Sample.alice eq_refl)).
    reflexivity.
  - apply (proj1 (proj2 (proj2 (list_jobs_errors
                                  (Sample.env_with Sample.jobs_down) Sample.bob_request
                                  Sample.jobs_db Sample.bob eq_refl)
                               "7b1d4c3e-52a8-4f0b-9c6d-0e1f2a3b4c5d" eq_refl)
                        (mkFetchResponse false 502 None) eq_refl));
      reflexivity.
Defined.

Lemma with_attachments_flow (env : Env) (job : Json) (db : Db) :
  (exists o, with_attachments env job db = (Next o, db)) \/
  with_attachments env job db = (Throw, db).
Proof.
  unfold with_attachments, fetchBookingAttachments. run_handler.
  destruct (js_get (Some job) "uuid") as [uuid|]; simpl; [|now right].
  destruct (fetch env _ _) as [r|]; simpl; [|now right].
  destruct (fr_ok r); simpl; [|left; now eexists].
  destruct (fr_json r); simpl; [left; now eexists | now right].
Qed.

Lemma mapM_with_attachments_throw (env : Env) (db : Db) (jobs : list Json) (job : Json) :
  In job jobs ->
  with_attachments env job db = (Throw, db) ->
  mapM (with_attachments env) jobs db = (Throw, db).
Proof.
  intros Hin Hthrow. induction jobs as [|x jobs IH]; [contradiction|].
  simpl. unfold bind at 1.
  destruct (with_attachments_flow env x db) as [[o Hx]|Hx]; rewrite Hx;
    [|reflexivity].
  destruct Hin as [->|Hin]; [congruence|].
  unfold bind. now rewrite (IH Hin).
Qed.

(** X17. Only a response that is not ok is swallowed.  When the
    attachment query of any one job is rejected (the request itself
    fails), or comes back ok with a body that is not JSON, the whole
    listing is answered 500 "Internal server error", whatever the other
    jobs' queries gave. *)
Theorem list_jobs_attachment_failure_not_swallowed
        (env : Env) (req : Request) (db : Db) (u : User.t) (sm8Uuid : string)
        (resp : FetchResponse) (jobs : list Json) (job : Json) (uuid : option Json) :
  authMiddleware env req db = (Next (with_user req u), db) ->
  nonempty (User.sm8Uuid u) = Some sm8Uuid ->
  fetch env (jobs_url sm8Uuid) (api_headers env) = Some resp ->
  fr_ok resp = true ->
  fr_json resp = Some (JArr jobs) ->
  In job jobs ->
  js_get (Some job) "uuid" = Normal uuid ->
  (fetch env (attachments_url uuid) (api_headers env) = None \/
   exists r, fetch env (attachments_url uuid) (api_headers env) = Some r /\
             fr_ok r = true /\ fr_json r = None) ->
  list_jobs env req db
  = (mkResponse 500 (ErrorBody "Internal server error") NoCookie, db).
Proof.
  intros Hauth Hsm8 Hf Hok Hj Hin Hu Hfail.
  assert (Hthrow : with_attachments env job db = (Throw, db)).
  { unfold with_attachments, fetchBookingAttachments. run_handler.
    rewrite Hu; simpl.
    destruct Hfail as [Hnone|(r & Hr & Hrok & Hrj)].
    - now rewrite Hnone.
    - rewrite Hr; simpl. rewrite Hrok; simpl. now rewrite Hrj. }
  unfold list_jobs. rewrite (protected_runs _ _ _ _ _ Hauth).
  unfold list_jobs_handler. run_handler. simpl.
  rewrite Hsm8, Hf; simpl. rewrite Hok; simpl. rewrite Hj; simpl.
  now rewrite (mapM_with_attachments_throw env db jobs job Hin Hthrow).
Qed.

Lemma list_jobs_attachment_failure_not_swallowed_witness :
  list_jobs (Sample.env_with Sample.attachments_unreachable) Sample.bob_request
            Sample.jobs_db
  = (mkResponse 500 (ErrorBody "Internal server error") NoCookie, Sample.jobs_db).
Proof.
  apply (list_jobs_attachment_failure_not_swallowed
           (Sample.env_with Sample.attachments_unreachable) Sample.bob_request
           Sample.jobs_db Sample.bob "7b1d4c3e-52a8-4f0b-9c6d-0e1f2a3b4c5d"
           (Sample.json_ok (JArr [Sample.job1_json; Sample.job2_json]))
           [Sample.job1_json; Sample.job2_json] Sample.job2_json
           (Some (JStr Sample.job2)));
    try reflexivity.
  - simpl. tauto.
  - now left.
Defined.

(** ** The grouped listing on arbitrary booking identifiers *)

Lemma js_has_cases {V : Type} (k : string) (g : list (string * V)) :
  js_has k g = true <-> In k (map fst g) \/ inherited k = true.
Proof.
  unfold js_has. destruct (assoc k g) as [v|] eqn:E.
  - split; [|reflexivity]. intros _. left.
    destruct (in_dec string_dec k (map fst g)) as [Hin|Hnot]; [assumption|].
    apply assoc_None_iff in Hnot. congruence.
  - apply assoc_None_iff in E. split; [now right | intros [H|H]; tauto].
Qed.

Lemma group_fold_keys (l : list BookingMessage.t) :
  NoDup (map fst (fold_left group_step l [])) /\
  (forall k, In k (map fst (fold_left group_step l []))
             <-> inherited k = false
                 /\ exists m, In m l /\ BookingMessage.bookingUuid m = k) /\
  (forall k v,
      In (k, v) (fold_left group_step l []) ->
      exists m, In m l /\ BookingMessage.bookingUuid m = k /\
                v = [mkBookingRef k (BookingMessage.bookingDescription m)]).
Proof.
  induction l as [|m l IH] using rev_ind.
  - simpl. split; [constructor|]. split.
    + intros k. split; [contradiction | intros (_ & m & [] & _)].
    + intros k v [].
  - destruct IH as (Hnd & Hmem & Hval).
    rewrite fold_left_app. simpl.
    set (g := fold_left group_step l []) in *.
    unfold group_step.
    destruct (js_has (BookingMessage.bookingUuid m) g) eqn:Hhas; simpl.
    + split; [assumption|]. split.
      * intros k. rewrite Hmem. split.
        -- intros (Hi & m' & Hin & Hk). split; [assumption|].
           exists m'. split; [apply in_app_iff; now left | assumption].
        -- intros (Hi & m' & Hin & Hk). split; [assumption|].
           apply in_app_iff in Hin as [Hin|[<-|[]]]; [now exists m'|].
           subst k. apply js_has_cases in Hhas as [Hk|Hk]; [|congruence].
           now apply Hmem in Hk as (_ & Hk).
      * intros k v Hin. destruct (Hval k v Hin) as (m' & Hin' & Hk & Hv).
        exists m'. split; [apply in_app_iff; now left | now split].
    + assert (Hnew : ~ In (BookingMessage.bookingUuid m) (map fst g)
                     /\ inherited (BookingMessage.bookingUuid m) = false).
      { split.
        - intros Hin. assert (js_has (BookingMessage.bookingUuid m) g = true)
            by (apply js_has_cases; now left). congruence.
        - destruct (inherited (BookingMessage.bookingUuid m)) eqn:Hi; [|reflexivity].
          assert (js_has (BookingMessage.bookingUuid m) g = true)
            by (apply js_has_cases; now right). congruence. }
      destruct Hnew as [Hnew Hinh].
      rewrite map_app. simpl. split; [|split].
      * eapply Permutation_NoDup; [apply Permutation_cons_append|].
        now constructor.
      * intros k. rewrite in_app_iff, Hmem. simpl. split.
        -- intros [(Hi & m' & Hin & Hk)|[<-|[]]].
           ++ split; [assumption|]. exists m'.
              split; [apply in_app_iff; now left | assumption].
           ++ split; [assumption|]. exists m.
              split; [apply in_app_iff; right; now left | reflexivity].
        -- intros (Hi & m' & Hin & Hk).
           apply in_app_iff in Hin as [Hin|[<-|[]]]; [left | right; now left].
           split; [assumption | now exists m'].
      * intros k v Hin. apply in_app_iff in Hin as [Hin|[E|[]]].
        -- destruct (Hval k v Hin) as (m' & Hin' & Hk & Hv).
           exists m'. split; [apply in_app_iff; now left | now split].
        -- injection E as <- <-. exists m.
           split; [apply in_app_iff; right; now left | now split].
Qed.

Lemma filter_partition_perm {A : Type} (f : A -> bool) (l : list A) :
  Permutation (filter f l ++ filter (fun x => negb (f x)) l) l.
Proof.
  induction l as [|a l IH]; simpl; [constructor|].
  destruct (f a); simpl.
  - now constructor.
  - symmetry. apply Permutation_cons_app. now symmetry.
Qed.

Lemma own_property_order_perm {V : Type} (g : list (string * V)) :
  Permutation (own_property_order g) g.
Proof.
  unfold own_property_order.
  rewrite (sort_by_perm index_le (filter is_index g)).
  apply filter_partition_perm.
Qed.

(** X18. The grouped listing on booking identifiers of any form, for an
    authenticated caller: the answer is 200, no key comes twice, every
    key is the booking identifier of one of the caller's messages and
    holds a single entry made from such a message, and the only
    identifiers of the caller's messages that are missing are the
    property names of [Object.prototype] (["constructor"], ["toString"],
    ...), which the object used as a map already answers for. *)
Theorem list_bookings_keys (env : Env) (req : Request) (db : Db) (u : User.t) :
  authMiddleware env req db = (Next (with_user req u), db) ->
  exists grouped,
    list_bookings env req db = (mkResponse 200 (GroupedBody grouped) NoCookie, db) /\
    NoDup (map fst grouped) /\
    (forall k, In k (map fst grouped)
               <-> inherited k = false
                   /\ exists m, In m (bookingMessages db) /\ on_booking (User.id u) k m) /\
    (forall k v,
        In (k, v) grouped ->
        exists m, In m (bookingMessages db) /\ on_booking (User.id u) k m /\
                  v = [mkBookingRef k (BookingMessage.bookingDescription m)]).
Proof.
  intros Hauth.
  set (uid := User.id u).
  set (l := sort_by createdAt_desc
              (filter (where_userId (Some uid)) (bookingMessages db))).
  assert (Hl : forall m, In m l <-> In m (bookingMessages db)
                                    /\ BookingMessage.userId m = uid).
  { intros m. unfold l. split.
    - intros Hin. apply (Permutation_in _ (sort_by_perm _ _)) in Hin.
      apply filter_In in Hin as [Hin Hu]. split; [assumption|].
      now apply Z.eqb_eq.
    - intros [Hin Hu].
      apply (Permutation_in _ (Permutation_sym (sort_by_perm _ _))).
      apply filter_In. split; [assumption|]. now apply Z.eqb_eq. }
  destruct (group_fold_keys l) as (Hnd & Hmem & Hval).
  set (g := fold_left group_step l []) in *.
  pose proof (own_property_order_perm g) as Hperm.
  exists (own_property_order g). split; [|split; [|split]].
  - unfold list_bookings. rewrite (protected_runs _ _ _ _ _ Hauth).
    unfold list_bookings_handler, try_catch, bind, ret,
      prisma.bookingMessage_findMany.
    reflexivity.
  - apply (Permutation_NoDup (Permutation_sym (Permutation_map fst Hperm)) Hnd).
  - intros k.
    assert (Hk : In k (map fst (own_property_order g)) <-> In k (map fst g)).
    { split; apply Permutation_in; [|symmetry]; now apply Permutation_map. }
    rewrite Hk, Hmem. split.
    + intros (Hi & m & Hin & Hu). split; [assumption|].
      exists m. apply Hl in Hin as [Hin Huid]. now repeat split.
    + intros (Hi & m & Hin & [Huid Hu]). split; [assumption|].
      exists m. split; [|assumption]. apply Hl. now split.
  - intros k v Hin. apply (Permutation_in _ Hperm) in Hin.
    destruct (Hval k v Hin) as (m & Hin' & Hk & Hv).
    exists m. apply Hl in Hin' as [Hin' Huid]. now repeat split.
Qed.

Lemma list_bookings_keys_witness :
  exists grouped,
    list_bookings (Sample.env_with []) (Sample.alice_request "" None) Sample.odd_db
    = (mkResponse 200 (GroupedBody grouped) NoCookie, Sample.odd_db) /\
    NoDup (map fst grouped) /\
    (forall k, In k (map fst grouped)
               <-> inherited k = false
                   /\ exists m, In m (bookingMessages Sample.odd_db)
                                /\ on_booking 1 k m) /\
    (forall k v,
        In (k, v) grouped ->
        exists m, In m (bookingMessages Sample.odd_db) /\ on_booking 1 k m /\
                  v = [mkBookingRef k (BookingMessage.bookingDescription m)]).
Proof.
  apply (list_bookings_keys (Sample.env_with []) (Sample.alice_request "" None)
                            Sample.odd_db Sample.alice).
  reflexivity.
Defined.

(** ** Messages: sending, then listing *)

Lemma authMiddleware_next_inv (env : Env) (req req1 : Request) (db db1 : Db) :
  authMiddleware env req db = (Next req1, db1) ->
  db1 = db /\ exists u, req1 = with_user req u /\ has_user (User.id u) db = true.
Proof.
  intros H.
  destruct (authMiddleware_cases env req db)
    as [[_ E]|[(j & _ & _ & E)|(t & _ & _ & [[E _]|(s & v & _ & Hv & E)])]];
    rewrite E in H; try discriminate.
  injection H as <- <-. split; [reflexivity|]. exists v. split; [reflexivity|].
  destruct (find_user_spec _ _ _ Hv) as [Hin _].
  apply has_user_In. now apply in_map.
Qed.

(** A request that got through [protected] was authenticated. *)
Lemma protected_inv (env : Env) (h : Env -> Request -> Db -> Response * Db)
      (req : Request) (db : Db) :
  (exists u, authMiddleware env req db = (Next (with_user req u), db) /\
             protected env h req db = h env (with_user req u) db) \/
  (exists code msg, protected env h req db = (error_json code msg, db)).
Proof.
  destruct (authMiddleware_cases env req db)
    as [[_ E]|[(j & _ & _ & E)|(t & _ & _ & [[E _]|(s & v & _ & Hv & E)])]].
  - right. unfold protected, guarded. rewrite E. now eexists; eexists.
  - right. unfold protected, guarded. rewrite E. now eexists; eexists.
  - right. unfold protected, guarded. rewrite E. now eexists; eexists.
  - left. exists v. split; [assumption|]. now apply protected_runs.
Qed.

Lemma send_message_saved_inv (env : Env) (req : Request) (db db' : Db)
      (row : BookingMessage.t) :
  send_message env req db = (mkResponse 200 (SavedBody row) NoCookie, db') ->
  exists u,
    authMiddleware env req db = (Next (with_user req u), db) /\
    BookingMessage.id row = bookingMessageSeq db + 1 /\
    BookingMessage.bookingUuid row = params_uuid req /\
    BookingMessage.userId row = User.id u /\
    js_get (req_body req) "message"
    = Normal (Some (JStr (BookingMessage.message row))) /\
    BookingMessage.createdAt row = Date_now env /\
    db' = mkDb (users db) (sessions db) (bookingMessages db ++ [row])
               (bookingMessageSeq db + 1).
Proof.
  unfold send_message.
  destruct (protected_inv env send_message_handler req db)
    as [(u & Hauth & ->)|(code & msg & ->)]; [|discriminate].
  intros H. exists u. split; [assumption|]. revert H.
  unfold send_message_handler, fetchJobDetails, prisma.bookingMessage_create,
    prisma.string_column.
  run_handler. cbn [user with_user req_body params_uuid].
  destruct (js_get (req_body req) "message") as [m|]; simpl; [|discriminate].
  destruct (when_truthy m) as [v|] eqn:Hv; simpl; [|discriminate].
  apply when_truthy_Some in Hv as [-> _].
  destruct (fetch env _ _) as [resp|]; simpl; [|discriminate].
  destruct (fr_json resp) as [job|]; simpl; [|discriminate].
  destruct (js_get (Some job) "job_description") as [d|]; simpl; [|discriminate].
  destruct (js_get (Some job) "status") as [st|]; simpl; [|discriminate].
  destruct d as [[| | |description| |]|]; simpl; try discriminate.
  destruct st as [[| | |st| |]|]; simpl; try discriminate.
  destruct v as [| | |text| |]; simpl; try discriminate.
  destruct (has_user (User.id u) db); simpl; [|discriminate].
  intros E. injection E as <- <-. simpl. repeat split.
Qed.

Lemma insert_by_snoc {A : Type} (le : A -> A -> bool) (a x : A) (s : list A) :
  le a x = true -> insert_by le a (s ++ [x]) = insert_by le a s ++ [x].
Proof.
  intros H. induction s as [|y s IH]; simpl.
  - now rewrite H.
  - destruct (le a y); [reflexivity|]. now rewrite IH.
Qed.

Lemma sort_by_snoc {A : Type} (le : A -> A -> bool) (l : list A) (x : A) :
  (forall a, In a l -> le a x = true) ->
  sort_by le (l ++ [x]) = sort_by le l ++ [x].
Proof.
  induction l as [|a l IH]; intros H; [reflexivity|].
  unfold sort_by in *. simpl. rewrite IH by (intros b Hb; apply H; now right).
  apply insert_by_snoc. apply H. now left.
Qed.

Lemma map_snoc_inv {A B : Type} (f : A -> B) (l : list A) (l1 : list B) (b : B) :
  map f l = l1 ++ [b] -> exists l' a, l = l' ++ [a] /\ map f l' = l1 /\ f a = b.
Proof.
  revert l1. induction l as [|x l IH]; intros l1 H.
  - destruct l1; discriminate.
  - destruct l1 as [|y l1]; simpl in H.
    + injection H as Hx Hl. destruct l; [|discriminate].
      now exists [], x.
    + injection H as Hx Hl. destruct (IH l1 Hl) as (l' & a & -> & Hm & Ha).
      exists (x :: l'), a. simpl. repeat split; congruence.
Qed.

(** X19. A message that was saved is listed: after a send answered with
    the saved row, the listing of that booking, asked by any
    authenticated caller, is the former listing plus this row, paired with
    its sender as author; and when no stored message is dated after it,
    the row comes last. *)
Theorem send_then_listed (env : Env) (req : Request) (db db' : Db)
        (row : BookingMessage.t) :
  db_wf db ->
  send_message env req db = (mkResponse 200 (SavedBody row) NoCookie, db') ->
  forall env2 req2 u2,
    params_uuid req2 = params_uuid req ->
    authMiddleware env2 req2 db' = (Next (with_user req2 u2), db') ->
    exists rows,
      get_messages env2 req2 db' = (mkResponse 200 (MessagesBody rows) NoCookie, db') /\
      (exists author, In (row, author) rows
                      /\ au_id author = BookingMessage.userId row) /\
      Permutation (map fst rows)
                  (row :: filter (fun m => (BookingMessage.bookingUuid m
                                            =? params_uuid req)%string)
                                 (bookingMessages db)) /\
      ((forall m, In m (bookingMessages db) ->
                  BookingMessage.createdAt m <= BookingMessage.createdAt row) ->
       exists earlier author, rows = earlier ++ [(row, author)]).
Proof.
  intros Hwf Hsend env2 req2 u2 Huuid Hauth2.
  assert (Hwf' : db_wf db').
  { replace db' with (snd (send_message env req db)) by now rewrite Hsend.
    apply protected_wf; [|assumption]. intros r d. apply send_message_handler_wf. }
  destruct (send_message_saved_inv _ _ _ _ _ Hsend)
    as (u & _ & _ & Hrow_uuid & _ & _ & _ & Hdb').
  set (p := fun m => (BookingMessage.bookingUuid m =? params_uuid req)%string).
  assert (Hmsgs : filter p (bookingMessages db') = filter p (bookingMessages db) ++ [row]).
  { rewrite Hdb'. simpl. rewrite filter_app. simpl. unfold p at 2.
    rewrite Hrow_uuid, String.eqb_refl. reflexivity. }
  set (found := sort_by createdAt_asc (filter p (bookingMessages db'))).
  assert (Hperm : Permutation found (filter p (bookingMessages db')))
    by apply sort_by_perm.
  assert (Hfk : Forall (fun m => has_user (BookingMessage.userId m) db' = true) found).
  { apply Forall_forall. intros m Hin.
    apply (Permutation_in _ Hperm) in Hin. apply filter_In in Hin as [Hin _].
    now apply (wf_message_user db' Hwf'). }
  destruct (mapM_include_author db' found Hfk) as (rows & Hrun & Hfst & Hall).
  exists rows. split; [|split; [|split]].
  - unfold get_messages. rewrite (protected_runs _ _ _ _ _ Hauth2).
    unfold get_messages_handler, try_catch, bind, prisma.bookingMessage_findMany.
    simpl. rewrite Huuid. fold p. fold found. rewrite Hrun. reflexivity.
  - assert (Hin : In row (map fst rows)).
    { rewrite Hfst. apply (Permutation_in _ (Permutation_sym Hperm)).
      rewrite Hmsgs. apply in_app_iff. right. now left. }
    apply in_map_iff in Hin as ([m a] & Hm & Hin). simpl in Hm. subst m.
    exists a. split; [assumption|].
    rewrite Forall_forall in Hall. destruct (Hall _ Hin) as (v & _ & Hid & Ha).
    simpl in *. now rewrite Ha.
  - rewrite Hfst, Hperm, Hmsgs. symmetry. apply Permutation_cons_append.
  - intros Hlast.
    assert (Hsnoc : found = sort_by createdAt_asc (filter p (bookingMessages db)) ++ [row]).
    { unfold found. rewrite Hmsgs. apply sort_by_snoc.
      intros a Ha. apply filter_In in Ha as [Ha _].
      unfold createdAt_asc. apply Z.leb_le. now apply Hlast. }
    rewrite <- Hfst in Hsnoc.
    destruct (map_snoc_inv _ _ _ _ Hsnoc) as (earlier & [m a] & -> & _ & Hm).
    simpl in Hm. subst m. now exists earlier, a.
Qed.

Lemma send_then_listed_witness :
  exists rows,
    get_messages (Sample.env_with []) (Sample.alice_request Sample.job1 None)
      (snd (send_message (Sample.env_with Sample.jobs_table)
                         (Sample.alice_request Sample.job1 (Some "On my way"))
                         Sample.thread_db))
    = (mkResponse 200 (MessagesBody rows) NoCookie,
       snd (send_message (Sample.env_with Sample.jobs_table)
                         (Sample.alice_request Sample.job1 (Some "On my way"))
                         Sample.thread_db)) /\
    (exists author,
        In (BookingMessage.mk 5 Sample.job1 "Brake check" "Quote" 1 "On my way"
                              1700000000000, author) rows
        /\ au_id author = 1) /\
    Permutation (map fst rows)
                (BookingMessage.mk 5 Sample.job1 "Brake check" "Quote" 1 "On my way"
                                   1700000000000
                 :: [Sample.m4; Sample.m3; Sample.m1]) /\
    ((forall m, In m (bookingMessages Sample.thread_db) ->
                BookingMessage.createdAt m <= 1700000000000) ->
     exists earlier author,
       rows = earlier
              ++ [(BookingMessage.mk 5 Sample.job1 "Brake check" "Quote" 1 "On my way"
                                     1700000000000, author)]).
Proof.
  apply (send_then_listed
           (Sample.env_with Sample.jobs_table)
           (Sample.alice_request Sample.job1 (Some "On my way"))
           Sample.thread_db
           (snd (send_message (Sample.env_with Sample.jobs_table)
                              (Sample.alice_request Sample.job1 (Some "On my way"))
                              Sample.thread_db))
           (BookingMessage.mk 5 Sample.job1 "Brake check" "Quote" 1 "On my way"
                              1700000000000)
           thread_db_wf eq_refl
           (Sample.env_with []) (Sample.alice_request Sample.job1 None) Sample.alice
           eq_refl eq_refl).
Defined.

Lemma thread_db_message_ids : message_ids_wf Sample.thread_db.
Proof.
  split; simpl.
  - repeat constructor; simpl; intuition discriminate.
  - repeat constructor; simpl; discriminate.
Qed.

(** X20. Message ids stay a key: if the stored ids are distinct and none
    is beyond the id sequence, the same holds after any send, and a row
    that was saved carries an id that no earlier row has. *)
Theorem send_message_keeps_ids (env : Env) (req : Request) (db : Db) :
  message_ids_wf db ->
  message_ids_wf (snd (send_message env req db)) /\
  (forall row,
      fst (send_message env req db) = mkResponse 200 (SavedBody row) NoCookie ->
      forall m, In m (bookingMessages db) -> BookingMessage.id m <> BookingMessage.id row).
Proof.
  intros [Hnd Hle]. rewrite Forall_forall in Hle.
  destruct (send_message env req db) as [r db'] eqn:Hsend. simpl.
  assert (Hcases : db' = db \/ exists row, r = mkResponse 200 (SavedBody row) NoCookie).
  { revert Hsend. unfold send_message.
    destruct (protected_inv env send_message_handler req db)
      as [(u & _ & ->)|(code & msg & ->)];
      [|intros E; injection E as <- <-; now left].
    unfold send_message_handler, fetchJobDetails, prisma.bookingMessage_create,
      prisma.string_column.
    run_handler. cbn [user with_user req_body params_uuid].
    destruct (js_get (req_body req) "message") as [m|]; simpl;
      [|intros E; injection E as <- <-; now left].
    destruct (when_truthy m) as [v|] eqn:Hv; simpl;
      [|intros E; injection E as <- <-; now left].
    apply when_truthy_Some in Hv as [-> _].
    destruct (fetch env _ _) as [resp|]; simpl;
      [|intros E; injection E as <- <-; now left].
    destruct (fr_json resp) as [job|]; simpl;
      [|intros E; injection E as <- <-; now left].
    destruct (js_get (Some job) "job_description") as [d|]; simpl;
      [|intros E; injection E as <- <-; now left].
    destruct (js_get (Some job) "status") as [st|]; simpl;
      [|intros E; injection E as <- <-; now left].
    destruct d as [[| | |description| |]|]; simpl;
      try (intros E; injection E as <- <-; now left).
    destruct st as [[| | |st| |]|]; simpl;
      try (intros E; injection E as <- <-; now left).
    destruct v as [| | |text| |]; simpl;
      try (intros E; injection E as <- <-; now left).
    destruct (has_user (User.id u) db); simpl;
      intros E; injection E as <- <-; [right; now eexists | now left]. }
  destruct Hcases as [->|[row ->]].
  - split; [split; [assumption | now apply Forall_forall]|].
    intros row Hr. exfalso. revert Hsend Hr. intros Hsend Hr. subst r.
    destruct (send_message_saved_inv _ _ _ _ _ Hsend) as (_ & _ & _ & _ & _ & _ & _ & Hdb).
    apply (f_equal bookingMessageSeq) in Hdb. simpl in Hdb. lia.
  - destruct (send_message_saved_inv _ _ _ _ _ Hsend)
      as (u & _ & Hid & _ & _ & _ & _ & ->).
    split.
    + split; simpl.
      * rewrite map_app. simpl.
        eapply Permutation_NoDup; [apply Permutation_cons_append|].
        constructor; [|assumption].
        intros Hin. apply in_map_iff in Hin as (m & Hm & Hin).
        specialize (Hle m Hin). lia.
      * apply Forall_app. split.
        -- apply Forall_forall. intros m Hin. specialize (Hle m Hin). lia.
        -- constructor; [lia | constructor].
    + intros row' Hr m Hin. injection Hr as <-. specialize (Hle m Hin). lia.
Qed.

Lemma send_message_keeps_ids_witness :
  message_ids_wf
    (snd (send_message (Sample.env_with Sample.jobs_table)
                       (Sample.alice_request Sample.job1 (Some "On my way"))
                       Sample.thread_db)).
Proof.
  apply (proj1 (send_message_keeps_ids
                  (Sample.env_with Sample.jobs_table)
                  (Sample.alice_request Sample.job1 (Some "On my way"))
                  Sample.thread_db thread_db_message_ids)).
Defined.

(** X21. The listing of a booking's messages does not depend on who
    asks: any two authenticated callers get the same answer for the same
    booking UUID, messages written by others included. *)
Theorem get_messages_any_caller
        (env1 env2 : Env) (req1 req2 : Request) (db : Db) (u1 u2 : User.t) :
  authMiddleware env1 req1 db = (Next (with_user req1 u1), db) ->
  authMiddleware env2 req2 db = (Next (with_user req2 u2), db) ->
  params_uuid req1 = params_uuid req2 ->
  get_messages env1 req1 db = get_messages env2 req2 db.
Proof.
  intros H1 H2 Hp. unfold get_messages.
  rewrite (protected_runs _ _ _ _ _ H1), (protected_runs _ _ _ _ _ H2).
  unfold get_messages_handler. simpl. now rewrite Hp.
Qed.

Lemma get_messages_any_caller_witness :
  get_messages (Sample.env_with []) (Sample.alice_request Sample.job1 None)
               (mkDb [Sample.alice; Sample.bob]
                     [Sample.alice_session; Sample.bob_session]
                     [Sample.m4; Sample.m2; Sample.m3; Sample.m1] 4)
  = get_messages (Sample.env_with [])
                 (mkRequest [("sid", JStr "jwt:bob")] None Sample.job1 (Some (JObj [])) None)
                 (mkDb [Sample.alice; Sample.bob]
                       [Sample.alice_session; Sample.bob_session]
                       [Sample.m4; Sample.m2; Sample.m3; Sample.m1] 4).
Proof.
  apply (get_messages_any_caller
           (Sample.env_with []) (Sample.env_with [])
           (Sample.alice_request Sample.job1 None)
           (mkRequest [("sid", JStr "jwt:bob")] None Sample.job1 (Some (JObj [])) None)
           (mkDb [Sample.alice; Sample.bob]
                 [Sample.alice_session; Sample.bob_session]
                 [Sample.m4; Sample.m2; Sample.m3; Sample.m1] 4)
           Sample.alice Sample.bob); reflexivity.
Defined.

(** X22. A booking without messages, an unknown booking UUID included,
    is listed as the empty list with status 200, not as an error. *)
Theorem get_messages_none (env : Env) (req : Request) (db : Db) (u : User.t) :
  authMiddleware env req db = (Next (with_user req u), db) ->
  (forall m, In m (bookingMessages db) ->
             BookingMessage.bookingUuid m <> params_uuid req) ->
  get_messages env req db = (mkResponse 200 (MessagesBody []) NoCookie, db).
Proof.
  intros Hauth Hnone. unfold get_messages.
  rewrite (protected_runs _ _ _ _ _ Hauth).
  unfold get_messages_handler, try_catch, bind, prisma.bookingMessage_findMany.
  simpl.
  assert (E : filter (fun m => (BookingMessage.bookingUuid m =? params_uuid req)%string)
                     (bookingMessages db) = []).
  { induction (bookingMessages db) as [|m l IH]; [reflexivity|]. simpl.
    destruct (String.eqb_spec (BookingMessage.bookingUuid m) (params_uuid req)) as [E|_].
    - elim (Hnone m); [now left | assumption].
    - apply IH. intros x Hin. apply Hnone. now right. }
  rewrite E. reflexivity.
Qed.

Lemma get_messages_none_witness :
  get_messages (Sample.env_with []) (Sample.alice_request Sample.lost_uuid None)
               Sample.thread_db
  = (mkResponse 200 (MessagesBody []) NoCookie, Sample.thread_db).
Proof.
  apply (get_messages_none (Sample.env_with [])
                           (Sample.alice_request Sample.lost_uuid None)
                           Sample.thread_db Sample.alice eq_refl).
  intros m Hin. simpl in Hin.
  repeat (destruct Hin as [<-|Hin]; [discriminate|]). contradiction.
Defined.

(** ** Two more edges *)

(** X23. Login reads the first contact record only: when ServiceM8
    answers the contact query with a list whose first record has no
    [company_uuid] (or an empty or [null] one), the login is answered 404
    "User not found in ServiceM8" and nothing is written, whatever the
    records after the first hold. *)
Theorem login_first_contact_only
        (env : Env) (req : Request) (db : Db) (u : User.t)
        (identifier password : string)
        (resp : FetchResponse) (first : Json) (others : list Json)
        (clientUuid : option Json) :
  credentials req identifier password ->
  find (where_identifier identifier) (users db) = Some u ->
  bcrypt_compare env password (User.password u) = true ->
  fetch env (contact_url u) (api_headers env) = Some resp ->
  fr_ok resp = true ->
  fr_json resp = Some (JArr (first :: others)) ->
  js_get (Some first) "company_uuid" = Normal clientUuid ->
  truthy clientUuid = false ->
  login env req db
  = (mkResponse 404 (ErrorBody "User not found in ServiceM8") NoCookie, db).
Proof.
  intros Hcred Hu Hpw Hf Hok Hj Hc Ht.
  apply (login_contact_without_company_404
           env req db u identifier password
           resp (JArr (first :: others)) (Some first) clientUuid);
    try assumption.
  reflexivity.
Qed.

Lemma login_first_contact_only_witness :
  login (Sample.env_with Sample.contacts_second_only) Sample.alice_login Sample.db0
  = (mkResponse 404 (ErrorBody "User not found in ServiceM8") NoCookie, Sample.db0).
Proof.
  apply (login_first_contact_only
           (Sample.env_with Sample.contacts_second_only) Sample.alice_login Sample.db0
           Sample.alice "alice@example.com" "wonderland"
           (Sample.json_ok
              (JArr [JObj [("uuid", JStr "5c0ffee0-0000-4000-8000-000000000001")];
                     JObj [("company_uuid", JStr Sample.alice_company)]]))
           (JObj [("uuid", JStr "5c0ffee0-0000-4000-8000-000000000001")])
           [JObj [("company_uuid", JStr Sample.alice_company)]]
           None); first [reflexivity | now split].
Defined.

(** X24. The job listing hands every job on as it came: under the
    conditions in which it answers 200, there are as many entries as jobs,
    and each entry of a job that is a JSON object has, for every property
    name other than ["attachments"], the value the job has (or none where
    the job has none); an [attachments] property the job came with is
    replaced. *)
Theorem list_jobs_keeps_job_fields
        (env : Env) (req : Request) (db : Db) (u : User.t) (sm8Uuid : string)
        (resp : FetchResponse) (jobs : list Json) :
  authMiddleware env req db = (Next (with_user req u), db) ->
  nonempty (User.sm8Uuid u) = Some sm8Uuid ->
  fetch env (jobs_url sm8Uuid) (api_headers env) = Some resp ->
  fr_ok resp = true ->
  fr_json resp = Some (JArr jobs) ->
  Forall (fun job =>
            exists uuid r,
              js_get (Some job) "uuid" = Normal uuid /\
              fetch env (attachments_url uuid) (api_headers env) = Some r /\
              (fr_ok r = false \/ exists j, fr_json r = Some j)) jobs ->
  exists out,
    fst (list_jobs env req db) = mkResponse 200 (JobsBody out) NoCookie /\
    List.length out = List.length jobs /\
    Forall2 (fun job o =>
               forall props, job = JObj props ->
               forall k, k <> "attachments" ->
                         js_get (Some o) k = js_get (Some job) k)
            jobs out.
Proof.
  intros Hauth Hsm8 Hf Hok Hj Hall.
  destruct (mapM_with_attachments env db jobs Hall) as (out & Hrun & Hout).
  exists out. split; [|split].
  - unfold list_jobs. rewrite (protected_runs _ _ _ _ _ Hauth).
    unfold list_jobs_handler. run_handler. simpl.
    rewrite Hsm8, Hf; simpl. rewrite Hok; simpl. rewrite Hj; simpl.
    rewrite Hrun. reflexivity.
  - symmetry. eapply Forall2_length. exact Hout.
  - eapply Forall2_impl; [|exact Hout].
    intros job o (uuid & r & attachments & _ & _ & -> & _) props -> k Hk.
    simpl. now apply js_get_set_prop_other.
Qed.

Lemma list_jobs_keeps_job_fields_witness :
  exists out,
    fst (list_jobs (Sample.env_with Sample.listing_table) Sample.bob_request
                   Sample.jobs_db)
    = mkResponse 200 (JobsBody out) NoCookie /\
    List.length out = 2%nat /\
    Forall2 (fun job o =>
               forall props, job = JObj props ->
               forall k, k <> "attachments" ->
                         js_get (Some o) k = js_get (Some job) k)
            [Sample.job1_json; Sample.job2_json] out.
Proof.
  apply (list_jobs_keeps_job_fields
           (Sample.env_with Sample.listing_table) Sample.bob_request Sample.jobs_db
           Sample.bob "7b1d4c3e-52a8-4f0b-9c6d-0e1f2a3b4c5d"
           (Sample.json_ok (JArr [Sample.job1_json; Sample.job2_json]))
           [Sample.job1_json; Sample.job2_json]);
    try reflexivity.
  constructor; [|constructor; [|constructor]].
  - exists (Some (JStr Sample.job1)), (mkFetchResponse false 500 None).
    split; [reflexivity|]. split; [reflexivity|]. now left.
  - exists (Some (JStr Sample.job2)), (Sample.json_ok (JArr [Sample.photo])).
    split; [reflexivity|]. split; [reflexivity|]. right. now exists (JArr [Sample.photo]).
Defined.
